(** * lm_eval/logging/evaluation_tracker.py: a shallow embedding

    The development follows the Python module top-down:
    - [Py]: the fragment of Python's [str], [os.path] and [re] that the
      tracker uses, with Python's conventions ([find] returning -1, slices
      that clamp, [max] raising on an empty iterable);
    - [Sanitizer]: [EvaluationTracker.sanitize_list];
    - [RunHash]: the per-task hash of [save_results_aggregated];
    - [Card]: [EvaluationTracker.recreate_metadata_card], the catalog of
      configs and splits and the dataset card built from it.

    Strings are Rocq [string]s read as sequences of code points below 256. *)

From Stdlib Require Import ZArith String Ascii List Bool Lia Permutation.
From Stdlib Require Import DecimalString.
From Stdlib Require DecimalPos DecimalZ.
From stdpp Require Import base option list gmap strings.

Local Open Scope string_scope.
Local Open Scope Z_scope.

Set Warnings "-register-all".

(** ** Python primitives *)

Module Py.

(** Exceptions the modelled code can raise. *)
Inductive exn : Set :=
| ValueError   (* max() of an empty iterable *)
| IndexError   (* [...][0] on an empty list *)
| LoadError    (* load_dataset(...)["results"][0] failing on the remote document *)
| HubError.    (* list_repo_files on a repository that does not exist *)

Inductive result (A : Type) : Type :=
| Ok (a : A)
| Raise (e : exn).
Arguments Ok {A} a.
Arguments Raise {A} e.

Definition bind {A B} (r : result A) (k : A -> result B) : result B :=
  match r with
  | Ok a => k a
  | Raise e => Raise e
  end.

Definition len (s : string) : Z := Z.of_nat (String.length s).

(** [sub in s] *)
Definition contains (sub s : string) : bool :=
  match String.index 0 sub s with
  | Some _ => true
  | None => false
  end.

(** [s.find(sub)]: lowest index of an occurrence, -1 when there is none. *)
Definition find (s sub : string) : Z :=
  match String.index 0 sub s with
  | Some n => Z.of_nat n
  | None => -1
  end.

(** Highest index [>= i0] at which [sub] occurs in [s], positions counted
    from [i0] at the head of [s]. *)
Fixpoint rindex (i0 : nat) (sub s : string) : option nat :=
  match s with
  | EmptyString => if String.prefix sub s then Some i0 else None
  | String _ s' =>
      match rindex (S i0) sub s' with
      | Some j => Some j
      | None => if String.prefix sub s then Some i0 else None
      end
  end.

(** [s.rfind(sub)] *)
Definition rfind (s sub : string) : Z :=
  match rindex 0 sub s with
  | Some n => Z.of_nat n
  | None => -1
  end.

(** Index normalisation of a slice bound: negative bounds count from the
    end, and the result is clamped to [0, len]. *)
Definition clamp (n i : Z) : Z :=
  let i := if i <? 0 then i + n else i in
  if i <? 0 then 0 else if n <? i then n else i.

(** [s[a:b]] *)
Definition slice (s : string) (a b : Z) : string :=
  let a := clamp (len s) a in
  let b := clamp (len s) b in
  String.substring (Z.to_nat a) (Z.to_nat (b - a)) s.

(** [s[a:]] *)
Definition slice_from (s : string) (a : Z) : string :=
  let a := clamp (len s) a in
  String.substring (Z.to_nat a) (Z.to_nat (len s - a)) s.

(** [s.replace(old, new)] for a non-empty [old]: occurrences are replaced
    left to right and do not overlap; [skip] counts the characters of a
    matched occurrence that are still to be dropped. *)
Fixpoint replace_from (old new : string) (skip : nat) (s : string) : string :=
  match s with
  | EmptyString => EmptyString
  | String c s' =>
      match skip with
      | S k => replace_from old new k s'
      | O =>
          if String.prefix old s
          then new ++ replace_from old new (Nat.pred (String.length old)) s'
          else String c (replace_from old new 0 s')
      end
  end.

(** With an empty [old] Python inserts [new] before every character and
    at the end. *)
Fixpoint intersperse (new s : string) : string :=
  match s with
  | EmptyString => new
  | String c s' => new ++ String c (intersperse new s')
  end.

Definition replace (s old new : string) : string :=
  match old with
  | EmptyString => intersperse new s
  | String _ _ => replace_from old new 0 s
  end.

(** [re]'s [\w] on a code point below 256: [str.isalnum()] or ['_'].
    Above ASCII these are the Latin-1 letters and the digit-like signs
    (superscripts, vulgar fractions). *)
Definition is_word (c : ascii) : bool :=
  let n := N.to_nat (N_of_ascii c) in
  ((48 <=? n) && (n <=? 57)        (* 0-9 *)
   || (65 <=? n) && (n <=? 90)     (* A-Z *)
   || (97 <=? n) && (n <=? 122)    (* a-z *)
   || (n =? 95)                    (* _ *)
   || (n =? 170) || (n =? 178) || (n =? 179) || (n =? 181)
   || (n =? 185) || (n =? 186) || (n =? 188) || (n =? 189) || (n =? 190)
   || (192 <=? n) && (n <=? 214)
   || (216 <=? n) && (n <=? 246)
   || (248 <=? n) && (n <=? 255))%nat.

Fixpoint map_chars (f : ascii -> ascii) (s : string) : string :=
  match s with
  | EmptyString => EmptyString
  | String c s' => String (f c) (map_chars f s')
  end.

Definition underscore : ascii := "_"%char.
Definition dot : ascii := "."%char.

(** [re.sub(r"\W", "_", s)] *)
Definition sub_nonword (s : string) : string :=
  map_chars (fun c => if is_word c then c else underscore) s.

(** [re.sub(r"[^\w\.]", "_", s)] *)
Definition sub_nonword_nondot (s : string) : string :=
  map_chars (fun c => if is_word c || Ascii.eqb c dot then c else underscore) s.

(** [max(a, b)] on strings: code-point lexicographic order, the first
    argument wins a tie. *)
Definition max (a b : string) : string :=
  if String.ltb a b then b else a.

(** [max(iterable)]: raises [ValueError] on an empty iterable. *)
Definition max_of (l : list string) : result string :=
  match l with
  | [] => Raise ValueError
  | x :: l' => Ok (fold_left max l' x)
  end.

(** [os.path.basename] (posixpath): everything after the last slash. *)
Definition basename (p : string) : string :=
  slice_from p (rfind p "/" + 1).

(** [os.path.join(a, b)] (posixpath), two components. *)
Definition path_join (a b : string) : string :=
  if String.prefix "/" b then b
  else if (String.eqb a "" || String.prefix "/" (slice_from a (-1)))%bool then a ++ b
  else a ++ "/" ++ b.

(** [datetime.min.isoformat()] *)
Definition datetime_min_isoformat : string := "0001-01-01T00:00:00".

(** [str(n)] for an [int]. *)
Definition str_int (n : Z) : string :=
  DecimalString.NilZero.string_of_int (Z.to_int n).

(** [l[0]] *)
Definition first_item {A} (l : list A) : result A :=
  match l with
  | [] => Raise IndexError
  | x :: _ => Ok x
  end.

(** The characters written with an escape in the Python source. *)
Definition nl : string := String (ascii_of_nat 10) EmptyString.
Definition tab : string := String (ascii_of_nat 9) EmptyString.
Definition dq : string := String (ascii_of_nat 34) EmptyString.

(** [d[k] = v] on a dict kept in insertion order. *)
Fixpoint dict_set {V} (k : string) (v : V) (d : list (string * V))
  : list (string * V) :=
  match d with
  | [] => [(k, v)]
  | (k', v') :: d' =>
      if String.eqb k' k then (k', v) :: d' else (k', v') :: dict_set k v d'
  end.

(** [d.update(other)] *)
Definition dict_update {V} (d other : list (string * V)) : list (string * V) :=
  fold_left (fun d kv => dict_set (fst kv) (snd kv) d) other d.

(** [l[i]] for an index [i >= 0]. *)
Definition item {A} (l : list A) (i : nat) : result A :=
  match nth_error l i with
  | Some x => Ok x
  | None => Raise IndexError
  end.

(** The fields of [s.split(sep)] for a non-empty [sep], read left to
    right: [cur] is the field being read, [skip] the characters of a matched
    separator still to be dropped. *)
Fixpoint split_from (sep : string) (skip : nat) (cur s : string) : list string :=
  match s with
  | EmptyString => [cur]
  | String c s' =>
      match skip with
      | S k => split_from sep k cur s'
      | O =>
          if String.prefix sep s
          then cur :: split_from sep (Nat.pred (String.length sep)) EmptyString s'
          else split_from sep 0 (cur ++ String c EmptyString) s'
      end
  end.

(** [s.split(sep)]: an empty separator raises [ValueError]. *)
Definition split (s sep : string) : result (list string) :=
  match sep with
  | EmptyString => Raise ValueError
  | String _ _ => Ok (split_from sep 0 EmptyString s)
  end.

(** [re.sub(r"[...]+", repl, s)] for a character class given by [bad]:
    every maximal run of characters of the class becomes one [repl];
    [in_run] tells that the previous character was of the class. *)
Fixpoint sub_runs (bad : ascii -> bool) (repl : string) (in_run : bool)
    (s : string) : string :=
  match s with
  | EmptyString => EmptyString
  | String c s' =>
      if bad c
      then if in_run then sub_runs bad repl true s'
           else repl ++ sub_runs bad repl true s'
      else String c (sub_runs bad repl false s')
  end.

(** [d.get(k)] on a dict kept in insertion order. *)
Fixpoint dict_get {V} (k : string) (d : list (string * V)) : option V :=
  match d with
  | [] => None
  | (k', v) :: d' => if String.eqb k' k then Some v else dict_get k d'
  end.

(** Every character of [s] satisfies [P]. *)
Definition all_chars (P : ascii -> bool) (s : string) : bool :=
  forallb P (list_ascii_of_string s).

(** The characters other than [ch]. *)
Definition is_not (ch c : ascii) : bool := negb (Ascii.eqb ch c).

End Py.


(** ** [EvaluationTracker.sanitize_list] *)

Module Sanitizer.

(** An instance of [str]: an exact [str], or an instance of a subclass of
    [str]. The class's [__str__] returns a string whose characters are
    [dunder_str] of the instance's: an instance of the same class, or an
    exact [str] when [to_exact] (the inherited [str.__str__] is the case of
    the identity and [to_exact]). *)
Inductive pystr : Set :=
| Exact (s : string)
| Subclass (s : string) (dunder_str : string -> string) (to_exact : bool).

(** Values that are neither a [list] nor a [tuple]. [Obj] stands for any
    other object and carries what [str()] returns for it, which [str()]
    hands over as it is, an instance of a subclass included. *)
Inductive leaf : Set :=
| Str (s : pystr)
| Int (n : Z)
| Bool (b : bool)
| NoneVal
| Obj (str_of : pystr).

Inductive value : Set :=
| List (items : list value)
| Tuple (items : list value)
| Leaf (x : leaf).

(** The characters of a string, and whether it is an exact [str]. *)
Definition chars (s : pystr) : string :=
  match s with
  | Exact s => s
  | Subclass s _ _ => s
  end.

Definition is_exact (s : pystr) : bool :=
  match s with
  | Exact _ => true
  | Subclass _ _ _ => false
  end.

(** [str(s)] for an instance of [str]: an exact [str] is returned as it
    is, for any other instance the result of its [__str__] is. *)
Definition str_of_str (s : pystr) : pystr :=
  match s with
  | Exact s => Exact s
  | Subclass s dunder_str true => Exact (dunder_str s)
  | Subclass s dunder_str false => Subclass (dunder_str s) dunder_str false
  end.

(** [str(x)] *)
Definition str (x : leaf) : pystr :=
  match x with
  | Str s => str_of_str s
  | Int n => Exact (Py.str_int n)
  | Bool true => Exact "True"
  | Bool false => Exact "False"
  | NoneVal => Exact "None"
  | Obj s => s
  end.

Fixpoint sanitize_list (sub : value) : value :=
  match sub with
  | List items => List (List.map sanitize_list items)
  | Tuple items => Tuple (List.map sanitize_list items)
  | Leaf x => Leaf (Str (str x))
  end.

(** The nesting shape of a value: containers with their kind and arity,
    leaves forgotten. *)
Inductive shape : Set :=
| SList (items : list shape)
| STuple (items : list shape)
| SLeaf.

Fixpoint shape_of (v : value) : shape :=
  match v with
  | List items => SList (List.map shape_of items)
  | Tuple items => STuple (List.map shape_of items)
  | Leaf _ => SLeaf
  end.

(** The leaves of a value, left to right. *)
Fixpoint leaves (v : value) : list leaf :=
  match v with
  | List items => List.concat (List.map leaves items)
  | Tuple items => List.concat (List.map leaves items)
  | Leaf x => [x]
  end.

(** The same nesting with every [tuple] turned into a [list]. *)
Fixpoint listify (v : value) : value :=
  match v with
  | List items => List (List.map listify items)
  | Tuple items => List (List.map listify items)
  | Leaf x => Leaf x
  end.

(** Induction over nested values: the items of a container satisfy the
    property. *)
Section ValueInduction.

Variable P : value -> Prop.
Hypothesis P_list : forall items, Forall P items -> P (List items).
Hypothesis P_tuple : forall items, Forall P items -> P (Tuple items).
Hypothesis P_leaf : forall x, P (Leaf x).

Fixpoint value_nested_ind (v : value) : P v :=
  let fix all (l : list value) : Forall P l :=
    match l with
    | [] => @List.Forall_nil value P
    | x :: l' => @List.Forall_cons value P x l' (value_nested_ind x) (all l')
    end in
  match v with
  | List items => P_list items (all items)
  | Tuple items => P_tuple items (all items)
  | Leaf x => P_leaf x
  end.

End ValueInduction.

(** A leaf on which [str()] has nothing more to change: [str(str(x))] is
    [str(x)]. *)
Definition str_stable (x : leaf) : Prop := str (Str (str x)) = str x.

(** The value of the running example, [[1, [2, (3, "x")]]]. *)
Definition nested_example : value :=
  List [Leaf (Int 1);
        List [Leaf (Int 2); Tuple [Leaf (Int 3); Leaf (Str (Exact "x"))]]].

(** [["1", ["2", ["3", "x"]]]]: every container a list. *)
Definition nested_all_lists : value :=
  List [Leaf (Str (Exact "1"));
        List [Leaf (Str (Exact "2"));
              List [Leaf (Str (Exact "3")); Leaf (Str (Exact "x"))]]].

(** [["1", ["2", ("3", "x")]]]: the inner tuple still a tuple. *)
Definition nested_tuple_kept : value :=
  List [Leaf (Str (Exact "1"));
        List [Leaf (Str (Exact "2"));
              Tuple [Leaf (Str (Exact "3")); Leaf (Str (Exact "x"))]]].

(** The string ['a'] of a class [S(str)] whose [__str__] returns
    [S(self + "!")]. *)
Definition exclaim (s : string) : string := s ++ "!".
Definition exclaiming (s : string) : value :=
  Leaf (Str (Subclass s exclaim false)).

End Sanitizer.

(** ** The per-task hash of [save_results_aggregated] *)

Module RunHash.

Record sample : Set := Sample {
  doc_hash : string;
  prompt_hash : string;
  target_hash : string
}.

Section WithHash.

(** [lm_eval.utils.hash_string] *)
Variable hash_string : string -> string.

(** [[s["doc_hash"] + s["prompt_hash"] + s["target_hash"] for s in task_samples]] *)
Definition sample_hashes (task_samples : list sample) : list string :=
  List.map (fun s => (doc_hash s ++ prompt_hash s) ++ target_hash s) task_samples.

(** [hash_string("".join(sample_hashes))] *)
Definition task_hash (task_samples : list sample) : string :=
  hash_string (String.concat "" (sample_hashes task_samples)).

(** The [task_hashes] dict; [samples] is [None] or a dict from task
    name to samples, and a falsy [samples] leaves the dict empty. *)
Definition task_hashes (samples : option (gmap string (list sample)))
  : gmap string string :=
  match samples with
  | None => ∅
  | Some samples =>
      if decide (samples = ∅) then ∅ else task_hash <$> samples
  end.

End WithHash.

(** The three hashes of a sample have [w] characters each. *)
Definition fixed_width (w : nat) (s : sample) : Prop :=
  String.length (doc_hash s) = w
  /\ String.length (prompt_hash s) = w
  /\ String.length (target_hash s) = w.

(** The samples of the running example, in both orders. *)
Definition abc_def : list sample := [Sample "a" "b" "c"; Sample "d" "e" "f"].
Definition def_abc : list sample := [Sample "d" "e" "f"; Sample "a" "b" "c"].


End RunHash.

(** ** [EvaluationTracker.recreate_metadata_card] *)

Module Card.

Import Py.

(** One item of a config's ["data_files"]: [{"split": ..., "path": [...]}]. *)
Record data_file : Set := DataFile {
  split : string;
  path : list string
}.

(** [MetadataConfigs] is a [dict] from config name to [{"data_files": [...]}];
    a config is kept as the list under its only key. *)
Abbreviation MetadataConfigs := (gmap string (list data_file)).

Definition get_file_task_name (filename : string) : string :=
  slice filename (find filename "_" + 1) (rfind filename "_").

Definition get_file_datetime (filename : string) : string :=
  replace (slice_from filename (rfind filename "_" + 1)) ".json" "".

Definition results_files (files_in_repo : list string) : list string :=
  List.filter (fun f => contains "/results_" f && contains ".json" f) files_in_repo.

Definition sample_files (files_in_repo : list string) : list string :=
  List.filter (fun f => contains "/samples_" f && contains ".json" f) files_in_repo.

(** *** The latest datetime of each task *)

(** Reading a [defaultdict(lambda: datetime.min.isoformat())]. *)
Definition latest_of (latest : gmap string string) (task_name : string) : string :=
  default datetime_min_isoformat (latest !! task_name).

(** Body of the first loop over [sample_files]. *)
Definition latest_step (latest : gmap string string) (filename : string)
  : gmap string string :=
  let filename := basename filename in
  let task_name := get_file_task_name filename in
  let results_datetime := get_file_datetime filename in
  <[task_name := max (latest_of latest task_name) results_datetime]> latest.

Definition latest_task_results_datetime (sample_files : list string)
  : gmap string string :=
  fold_left latest_step sample_files ∅.

(** [latest_task_results_datetime.values()]: [max] does not depend on
    the order in which the values come. *)
Definition values (latest : gmap string string) : list string :=
  List.map snd (map_to_list latest).

(** *** The configs *)

Definition sanitize_task : string -> string := sub_nonword.
Definition sanitize_date : string -> string := sub_nonword_nondot.

(** [data_files.append({"split": name, "path": [p]})] *)
Definition append_split (name p : string) (data_files : list data_file)
  : list data_file :=
  data_files ++ [DataFile name [p]].

(** Body of the loop over [results_files]. *)
Definition results_step (max_latest_task_results_datetime : string)
    (card_metadata : MetadataConfigs) (filename : string) : MetadataConfigs :=
  let results_filename := basename filename in
  let eval_date := get_file_datetime results_filename in
  let eval_date_sanitized := sanitize_date eval_date in
  let results_filename := path_join "**" results_filename in
  let sanitized_last_eval_date_results :=
    sanitize_date max_latest_task_results_datetime in
  let current_results := default [] (card_metadata !! "results") in
  let current_results :=
    append_split eval_date_sanitized results_filename current_results in
  let card_metadata := <["results" := current_results]> card_metadata in
  if String.eqb eval_date_sanitized sanitized_last_eval_date_results
  then alter (append_split "latest" results_filename) "results" card_metadata
  else card_metadata.

Definition SPECIAL_TASKS : list string := ["mmlu_"; "gpqa_"; "math_"].

(** [[(i, entry) for i, entry in enumerate(data_files)
      if entry.get("split", None) == name]] *)
Definition splits_named (name : string) (data_files : list data_file)
  : list (nat * data_file) :=
  List.filter (fun ie => String.eqb (split (snd ie)) name) (imap pair data_files).

(** [entry["path"].append(p)] *)
Definition append_path (p : string) (entry : data_file) : data_file :=
  DataFile (split entry) (path entry ++ [p]).

(** Append [p] to the first split called [name], or append a new split
    when there is none. *)
Definition upsert_split (name p : string) (data_files : list data_file)
  : list data_file :=
  match splits_named name data_files with
  | [] => append_split name p data_files
  | (split_index, _) :: _ => alter (append_path p) split_index data_files
  end.

(** Body of the loop over [SPECIAL_TASKS]. *)
Definition special_step
    (task_name_sanitized eval_date_sanitized
     sanitized_last_eval_date_results results_filename : string)
    (card_metadata : MetadataConfigs) (special_task : string) : MetadataConfigs :=
  if contains special_task task_name_sanitized then
    let former_entry := default [] (card_metadata !! special_task) in
    let former_entry :=
      upsert_split eval_date_sanitized results_filename former_entry in
    let former_entry :=
      if String.eqb eval_date_sanitized sanitized_last_eval_date_results
      then upsert_split "latest" results_filename former_entry
      else former_entry in
    <[special_task := former_entry]> card_metadata
  else card_metadata.

(** Body of the second loop over [sample_files]. The defaultdict is only
    read here, for a task the first loop has entered. *)
Definition sample_step (latest : gmap string string)
    (card_metadata : MetadataConfigs) (filename : string) : MetadataConfigs :=
  let filename := basename filename in
  let task_name := get_file_task_name filename in
  let eval_date := get_file_datetime filename in
  let task_name_sanitized := sanitize_task task_name in
  let eval_date_sanitized := sanitize_date eval_date in
  let results_filename := path_join "**" (basename filename) in
  let sanitized_last_eval_date_results :=
    sanitize_date (latest_of latest task_name) in
  let current_details_for_task :=
    default [] (card_metadata !! task_name_sanitized) in
  let current_details_for_task :=
    append_split eval_date_sanitized results_filename current_details_for_task in
  let card_metadata :=
    <[task_name_sanitized := current_details_for_task]> card_metadata in
  let card_metadata :=
    if String.eqb eval_date_sanitized sanitized_last_eval_date_results
    then alter (append_split "latest" results_filename)
               task_name_sanitized card_metadata
    else card_metadata in
  fold_left
    (special_step task_name_sanitized eval_date_sanitized
       sanitized_last_eval_date_results results_filename)
    SPECIAL_TASKS card_metadata.

(** The two loops that fill [card_metadata], given the latest datetimes. *)
Definition fill_card_metadata (latest : gmap string string)
    (max_latest_task_results_datetime : string)
    (results_files sample_files : list string) : MetadataConfigs :=
  let card_metadata := ∅ in
  let card_metadata :=
    fold_left (results_step max_latest_task_results_datetime)
      results_files card_metadata in
  fold_left (sample_step latest) sample_files card_metadata.

(** Lines 299-392: from the listing to [card_metadata]. *)
Definition build_card_metadata (files_in_repo : list string)
  : result MetadataConfigs :=
  let results_files := results_files files_in_repo in
  let sample_files := sample_files files_in_repo in
  let latest := latest_task_results_datetime sample_files in
  bind (max_of (values latest)) (fun max_latest =>
  Ok (fill_card_metadata latest max_latest results_files sample_files)).

(** The data files of config [c] in the catalog of a listing; none when
    the config is absent or the catalog is not built. *)
Definition built_config (files : list string) (c : string)
  : option (list data_file) :=
  match build_card_metadata files with
  | Ok cm => cm !! c
  | Raise _ => None
  end.

(** *** Reading a listing and a catalog *)

(** What a listed file stands for: its task and timestamp, the config and
    split they are sanitized to, and the path the card gives it. *)
Definition task_of (f : string) : string := get_file_task_name (basename f).
Definition date_of (f : string) : string := get_file_datetime (basename f).
Definition config_name (f : string) : string := sanitize_task (task_of f).
Definition split_name (f : string) : string := sanitize_date (date_of f).
Definition results_path (f : string) : string := path_join "**" (basename f).
Definition sample_path (f : string) : string :=
  path_join "**" (basename (basename f)).

(** The timestamps of the sample files of task [t], in listing order. *)
Definition dates_of (t : string) (sample_files : list string) : list string :=
  List.map date_of (List.filter (fun f => String.eqb (task_of f) t) sample_files).

(** [v] is the greatest element of [l] in code-point order. *)
Definition greatest (v : string) (l : list string) : Prop :=
  In v l /\ forall d, In d l -> String.leb d v = true.

(** The data files of config [c], none when the config is absent. *)
Definition config_of (card_metadata : MetadataConfigs) (c : string)
  : list data_file :=
  default [] (card_metadata !! c).

(** Path [p] stands in a split called [s]. *)
Definition listed_in (data_files : list data_file) (s p : string) : Prop :=
  exists e, In e data_files /\ split e = s /\ In p (path e).

(** Path [p] stands in a split called [s] of config [c]. *)
Definition listed (card_metadata : MetadataConfigs) (c s p : string) : Prop :=
  listed_in (config_of card_metadata c) s p.

(** The names of the splits of a config, in order. *)
Definition split_names (data_files : list data_file) : list string :=
  List.map split data_files.

(** Rewriting the data files of one config. *)
Definition update (c : string) (g : list data_file -> list data_file)
    (card_metadata : MetadataConfigs) : MetadataConfigs :=
  <[c := g (config_of card_metadata c)]> card_metadata.

(** The sample file [f] carries the latest timestamp of its task, as the
    second loop tests it. *)
Definition is_latest (latest : gmap string string) (f : string) : bool :=
  String.eqb (split_name f) (sanitize_date (latest_of latest (task_of f))).

(** What the loops do to the data files of one config: a results file on
    config ["results"], a sample file on the config of its task, and a
    sample file on the config of a family it belongs to. *)
Definition add_results_file (max_latest f : string) (l : list data_file)
  : list data_file :=
  let l := append_split (split_name f) (results_path f) l in
  if String.eqb (split_name f) (sanitize_date max_latest)
  then append_split "latest" (results_path f) l else l.

Definition add_sample_file (latest : gmap string string) (f : string)
    (l : list data_file) : list data_file :=
  let l := append_split (split_name f) (sample_path f) l in
  if is_latest latest f then append_split "latest" (sample_path f) l else l.

Definition merge_sample_file (latest : gmap string string) (f : string)
    (l : list data_file) : list data_file :=
  let l := upsert_split (split_name f) (sample_path f) l in
  if is_latest latest f then upsert_split "latest" (sample_path f) l else l.

Definition is_special (c : string) : bool :=
  existsb (String.eqb c) SPECIAL_TASKS.

(** The splits a results file and a sample file are meant to stand in. *)
Definition from_results (max_latest f s p : string) : Prop :=
  p = results_path f
  /\ (s = split_name f
      \/ (s = "latest" /\ split_name f = sanitize_date max_latest)).

Definition from_sample (latest : gmap string string) (f s p : string) : Prop :=
  p = sample_path f
  /\ (s = split_name f \/ (s = "latest" /\ is_latest latest f = true)).

(** The configs a sample file goes to: its task's, and every family whose
    prefix occurs in the sanitized task name. *)
Definition in_config (f c : string) : Prop :=
  c = config_name f
  \/ (is_special c = true /\ contains c (config_name f) = true).

(** The place a sample file claims in the catalog. *)
Definition sample_key (f : string) : string * string :=
  (config_name f, split_name f).

(** A listing in which no two files claim the same place: results files
    differ in their sanitized timestamp, sample files in their sanitized
    task name or timestamp, task names stay apart once sanitized, no
    timestamp reads ["latest"], and no task is called ["results"] or like a
    family. *)
Record distinct_listing (rs ss : list string) : Prop := {
  distinct_results : NoDup (List.map split_name rs);
  distinct_samples : NoDup (List.map sample_key ss);
  distinct_tasks :
    forall f g, In f ss -> In g ss ->
                config_name f = config_name g -> task_of f = task_of g;
  dates_not_latest : forall f, In f (rs ++ ss) -> split_name f <> "latest";
  tasks_not_reserved :
    forall f, In f ss ->
              config_name f <> "results" /\ is_special (config_name f) = false
}.

(** No config has two splits of one name, and no split has a path twice. *)
Definition without_duplicates (card_metadata : MetadataConfigs) : Prop :=
  forall c,
    NoDup (split_names (config_of card_metadata c))
    /\ Forall (fun e => NoDup (path e)) (config_of card_metadata c).

(** The names the tracker gives its files: [results_<timestamp>.json] and
    [samples_<task>_<timestamp>.json]. *)
Definition ends_with (suffix s : string) : bool :=
  String.eqb (slice_from s (len s - len suffix)) suffix.

Definition is_results_filename (b : string) : bool :=
  String.prefix "results_" b && ends_with ".json" b.

Definition is_sample_filename (b : string) : bool :=
  String.prefix "samples_" b && ends_with ".json" b
  && (find b "_" <? rfind b "_").

Definition well_formed_filename (b : string) : bool :=
  is_results_filename b || is_sample_filename b.

(** *** The dataset card *)

(** The fields of [self] that the method reads. *)
Record Tracker : Set := {
  hub_results_repo : string;
  hub_results_repo_private : string;
  public_repo : bool;
  model_source : string;   (* general_config_tracker.model_source *)
  model_name : string      (* general_config_tracker.model_name *)
}.

(** A JSON document as [load_dataset] hands it over. *)
Inductive json : Set :=
| JAtom (repr : string)
| JDict (items : list (string * json)).

(** What [DatasetCard.from_template] is given: the configs written by
    [card_metadata.to_dataset_card_data] and the [DatasetCardData]. *)
Record DatasetCard : Type := {
  configs : MetadataConfigs;
  dataset_summary : string;
  repo_url : string;
  pretty_name : string;
  leaderboard_url : option string;
  point_of_contact : option string
}.

(** A dataset repository on the hub: its file listing and its card. *)
Record Repo : Type := {
  repo_files : list string;
  readme : option DatasetCard
}.

(** The state a call runs in: the tracker object and the hub. *)
Record World : Type := {
  self : Tracker;
  hub : gmap string Repo
}.

(** [card.push_to_hub(repo_id, repo_type="dataset")]: the card becomes the
    repository's README.md. *)
Definition push_to_hub (card : DatasetCard) (repo : Repo) : Repo :=
  {| repo_files :=
       if bool_decide ("README.md" ∈ repo_files repo)
       then repo_files repo
       else repo_files repo ++ ["README.md"];
     readme := Some card |}.

Section Externals.

(** [hf_hub_url(repo_id=..., filename=..., repo_type="dataset")] *)
Variable hf_hub_url : string -> string -> string.
(** [load_dataset("json", data_files=url, split="train")["results"][0]] *)
Variable load_results : string -> result (list (string * json)).
(** [json.dumps(d, indent=4)] *)
Variable json_dumps : json -> string.

(** Lines 427-446. Only the statements that assign to [dataset_summary]
    contribute: the strings on the lines in between are expression
    statements, built and dropped. *)
Definition dataset_summary_text (self : Tracker)
    (repo_id task_name_sanitized : string)
    (card_metadata : MetadataConfigs) (results_files : list string)
    (max_latest_task_results_datetime last_results_file_path
     results_string : string) : string :=
  let org_string := "" in
  let dataset_summary :=
    "Dataset automatically created during the evaluation run of model " in
  let dataset_summary :=
    if String.eqb (model_source self) "hf"
    then dataset_summary ++ "[" ++ model_name self
           ++ "](https://huggingface.co/" ++ model_name self ++ ")"
    else dataset_summary ++ model_name self in
  let dataset_summary := dataset_summary ++ org_string ++ "." ++ nl ++ nl in
  let _ :=
    "The dataset is composed of "
      ++ str_int (Z.of_nat (size card_metadata) - 1)
      ++ " configuration(s), each one corresponding to one of the evaluated task."
      ++ nl ++ nl in
  let _ :=
    "The dataset has been created from "
      ++ str_int (Z.of_nat (length results_files))
      ++ " run(s). Each run can be found as a specific split in each " in
  let _ :=
    "configuration, the split being named using the timestamp of the run.The "
      ++ dq ++ "train" ++ dq
      ++ " split is always pointing to the latest results." ++ nl ++ nl in
  let _ :=
    "An additional configuration " ++ dq ++ "results" ++ dq
      ++ " store all the aggregated results of the run." ++ nl ++ nl in
  let _ :=
    "To load the details from a run, you can for instance do the following:"
      ++ nl in
  let dataset_summary :=
    if String.eqb (model_source self) "hf"
    then dataset_summary ++ "```python" ++ nl
           ++ "from datasets import load_dataset" ++ nl
           ++ "data = load_dataset(" ++ nl
           ++ tab ++ dq ++ repo_id ++ dq ++ "," ++ nl
           ++ tab ++ dq ++ task_name_sanitized ++ dq ++ "," ++ nl
           ++ tab ++ "split=" ++ dq ++ "latest" ++ dq ++ nl
           ++ ")" ++ nl ++ "```" ++ nl ++ nl
    else dataset_summary in
  let dataset_summary := dataset_summary ++ "## Latest results" ++ nl ++ nl in
  let _ :=
    "These are the [latest results from run "
      ++ max_latest_task_results_datetime ++ "]("
      ++ replace last_results_file_path "/resolve/" "/blob/" ++ ") " in
  let _ :=
    "(note that their might be results for other tasks in the repos if successive evals didn't cover the same tasks. " in
  let _ :=
    "You find each in the results and the " ++ dq ++ "latest" ++ dq
      ++ " split for each eval):" ++ nl ++ nl in
  let _ := "```python" ++ nl ++ results_string ++ nl ++ "```" in
  dataset_summary.

(** [task_name_sanitized] as the second loop over [sample_files] leaves
    it: the value of its last iteration. *)
Definition last_task_name_sanitized (sample_files : list string) : string :=
  sanitize_task (get_file_task_name (basename (List.last sample_files ""))).

(** Lines 299-458: from the listing to the card. *)
Definition assemble_card (self : Tracker) (repo_id : string)
    (files_in_repo : list string) : result DatasetCard :=
  let results_files := results_files files_in_repo in
  let sample_files := sample_files files_in_repo in
  let multiple_results := (1 <? length results_files)%nat in
  let latest := latest_task_results_datetime sample_files in
  bind (max_of (values latest)) (fun max_latest_task_results_datetime =>
  let card_metadata :=
    fill_card_metadata latest max_latest_task_results_datetime
      results_files sample_files in
  bind (first_item
          (List.filter
             (fun f => contains (replace max_latest_task_results_datetime ":" "-") f)
             results_files)) (fun last_results_file =>
  let last_results_file_path := hf_hub_url repo_id last_results_file in
  bind (load_results last_results_file_path) (fun results_dict =>
  let new_dictionary := [("all", JDict results_dict)] in
  let new_dictionary := dict_update new_dictionary results_dict in
  let results_string := json_dumps (JDict new_dictionary) in
  let leaderboard_url := None in
  let point_of_contact := None in
  let dataset_summary :=
    dataset_summary_text self repo_id (last_task_name_sanitized sample_files)
      card_metadata results_files max_latest_task_results_datetime
      last_results_file_path results_string in
  Ok {| configs := card_metadata;
        dataset_summary := dataset_summary;
        repo_url := "https://huggingface.co/" ++ model_name self;
        pretty_name := "Evaluation run of " ++ model_name self;
        leaderboard_url := leaderboard_url;
        point_of_contact := point_of_contact |}))).

Definition repo_id_of (self : Tracker) : string :=
  if public_repo self then hub_results_repo self
  else hub_results_repo_private self.

(** The method: list the repository, assemble the card, push it. An
    exception leaves the world as it was. *)
Definition recreate_metadata_card (w : World) : World * result unit :=
  let repo_id := repo_id_of (self w) in
  match hub w !! repo_id with
  | None => (w, Raise HubError)
  | Some repo =>
      match assemble_card (self w) repo_id (repo_files repo) with
      | Raise e => (w, Raise e)
      | Ok card =>
          ({| self := self w;
              hub := <[repo_id := push_to_hub card repo]> (hub w) |}, Ok tt)
      end
  end.

End Externals.

(** [new_dictionary] of lines 406-407: [{"all": results_dict}] updated
    with [results_dict]. *)
Definition new_dictionary_of (results_dict : list (string * json))
  : list (string * json) :=
  dict_update [("all", JDict results_dict)] results_dict.

(** [[f for f in results_files if max_latest.replace(":", "-") in f][0]]
    of lines 396-400. *)
Definition last_results_file (max_latest : string) (results_files : list string)
  : result string :=
  first_item
    (List.filter (fun f => contains (replace max_latest ":" "-") f) results_files).

(** *** Example listings *)

(** A tracker and a hub holding one repository with the given listing. *)
Definition example_tracker : Tracker :=
  {| hub_results_repo := "org/lm-eval-results";
     hub_results_repo_private := "org/lm-eval-results-private";
     public_repo := false;
     model_source := "hf";
     model_name := "EleutherAI/pythia-70m" |}.

Definition example_world (files : list string) : World :=
  {| self := example_tracker;
     hub := {[ "org/lm-eval-results-private"
               := {| repo_files := files; readme := None |} ]} |}.

(** Stand-ins for the external calls: a URL scheme, one results document
    for every URL, and a one-line rendering of a document. *)
Definition example_hf_hub_url (repo_id filename : string) : string :=
  "https://huggingface.co/datasets/" ++ repo_id ++ "/resolve/main/" ++ filename.

Definition example_results : list (string * json) :=
  [("gsm8k", JDict [("exact_match", JAtom "0.5")])].

Definition example_load_results (url : string) : result (list (string * json)) :=
  Ok example_results.

Fixpoint example_json_dumps (j : json) : string :=
  match j with
  | JAtom repr => repr
  | JDict items =>
      "{" ++ String.concat ", "
               (List.map (fun kv => dq ++ fst kv ++ dq ++ ": "
                                      ++ example_json_dumps (snd kv)) items)
          ++ "}"
  end.

(** One run of one task, with its results file. *)
Definition listing_one_run : list string :=
  ["EleutherAI__pythia-70m/results_2024-01-01T00-00-00.json";
   "EleutherAI__pythia-70m/samples_gsm8k_2024-01-01T00-00-00.json"].

(** Two members of the [mmlu_] family in one run. *)
Definition listing_mmlu : list string :=
  ["EleutherAI__pythia-70m/samples_mmlu_abstract_algebra_2024-01-01T00-00-00.json";
   "EleutherAI__pythia-70m/samples_mmlu_world_religions_2024-01-01T00-00-00.json"].

(** A member of the [mmlu_] family followed by a task whose name is the
    family prefix itself, and the same two the other way round. *)
Definition listing_family_task : list string :=
  ["EleutherAI__pythia-70m/samples_mmlu_anatomy_2024-01-01T00-00-00.json";
   "EleutherAI__pythia-70m/samples_mmlu__2024-01-01T00-00-00.json"].


(** Two runs of one task, the older one listed first. *)
Definition listing_two_runs : list string :=
  ["EleutherAI__pythia-70m/samples_gsm8k_2024-01-01T00-00-00.json";
   "EleutherAI__pythia-70m/samples_gsm8k_2024-02-01T00-00-00.json"].

(** A run stamped with the first second of year 1. *)
Definition listing_year_one : list string :=
  ["EleutherAI__pythia-70m/samples_gsm8k_0001-01-01T00-00-00.json"].

(** Two models evaluated on one task, their runs stamped alike. *)
Definition listing_two_models : list string :=
  ["EleutherAI__pythia-70m/samples_mmlu_anatomy_2024-01-01T00-00-00.json";
   "EleutherAI__pythia-160m/samples_mmlu_anatomy_2024-01-01T00-00-00.json"].

(** A run stamped with microseconds, as [datetime.now().isoformat()] does. *)
Definition listing_microseconds : list string :=
  ["EleutherAI__pythia-70m/samples_gsm8k_2024-01-01T00-00-00.123456.json"].

(** Two runs: [gsm8k] in both, two [mmlu_] members in the second. *)
Definition listing_two_full_runs : list string :=
  ["EleutherAI__pythia-70m/results_2024-01-01T00-00-00.json";
   "EleutherAI__pythia-70m/results_2024-02-01T00-00-00.json";
   "EleutherAI__pythia-70m/samples_gsm8k_2024-01-01T00-00-00.json";
   "EleutherAI__pythia-70m/samples_gsm8k_2024-02-01T00-00-00.json";
   "EleutherAI__pythia-70m/samples_mmlu_anatomy_2024-02-01T00-00-00.json";
   "EleutherAI__pythia-70m/samples_mmlu_virology_2024-02-01T00-00-00.json"].

(** Sample files only. *)
Definition listing_samples_only : list string :=
  ["EleutherAI__pythia-70m/samples_gsm8k_2024-01-01T00-00-00.json"].

(** Results files only. *)
Definition listing_results_only : list string :=
  ["EleutherAI__pythia-70m/results_2024-01-01T00-00-00.json"].

(** A listing with a backup copy next to a results file. *)
Definition listing_with_backup : list string :=
  ["m/results_2024-01-01T00-00-00.json.bak";
   "m/results_2024-01-01T00-00-00.json";
   "m/samples_gsm8k_2024-01-01T00-00-00.json"].

End Card.

(** ** The names the tracker makes up *)

Module Tracker.

Import Py.

(** *** [GeneralConfigTracker] *)

(** The inner function of [_get_model_name]. *)
Definition extract_model_name (model_args key : string) : result string :=
  bind (split model_args key) (fun parts =>
  bind (item parts 1) (fun args_after_key =>
  bind (split args_after_key ",") (fun fields =>
  item fields 0))).

Definition prefixes : list string :=
  ["peft="; "delta="; "pretrained="; "model="; "path="; "engine="].

(** The loop of [_get_model_name] over the prefixes still to try. *)
Fixpoint get_model_name_from (prefixes : list string) (model_args : string)
  : result string :=
  match prefixes with
  | [] => Ok ""
  | prefix :: prefixes =>
      if contains prefix model_args
      then extract_model_name model_args prefix
      else get_model_name_from prefixes model_args
  end.

Definition _get_model_name (model_args : string) : result string :=
  get_model_name_from prefixes model_args.

(** The character class of the pattern of [log_experiment_args]: the double
    quote, the angle brackets, the colon, the slash, the bar, the backslash,
    the question mark, the star and the square brackets (code points 34,
    60, 62, 58, 47, 124, 92, 63, 42, 91, 93). *)
Definition forbidden (c : ascii) : bool :=
  existsb (Nat.eqb (nat_of_ascii c)) [34; 60; 62; 58; 47; 124; 92; 63; 42; 91; 93]%nat.

(** What [log_experiment_args] stores. *)
Record GeneralConfig : Set := {
  model_source : string;
  model_name : string;
  model_name_sanitized : string
}.

Definition sanitize_model_name (model_name : string) : string :=
  sub_runs forbidden "__" false model_name.

Definition log_experiment_args (model_source model_args : string)
  : result GeneralConfig :=
  bind (_get_model_name model_args) (fun model_name =>
  Ok {| model_source := model_source;
        model_name := model_name;
        model_name_sanitized := sanitize_model_name model_name |}).

(** *** [EvaluationTracker.__init__] *)

Definition hub_repo_name_or_default (hub_repo_name : string) : string :=
  if String.eqb hub_repo_name "" then "lm-eval-results" else hub_repo_name.

Definition hub_results_repo (hub_results_org hub_repo_name : string) : string :=
  hub_results_org ++ "/" ++ hub_repo_name_or_default hub_repo_name.

Definition hub_results_repo_private (hub_results_org hub_repo_name : string)
  : string :=
  hub_results_org ++ "/" ++ hub_repo_name_or_default hub_repo_name ++ "-private".

(** *** File names *)

(** [datetime.now().isoformat().replace(":", "-")], given the ISO string. *)
Definition date_id_of (isoformat : string) : string :=
  replace isoformat ":" "-".

(** [f"results_{self.date_id}.json"] *)
Definition file_results_aggregated (date_id : string) : string :=
  "results_" ++ date_id ++ ".json".

(** [f"samples_{task_name}_{self.date_id}.json"] *)
Definition file_results_samples (task_name date_id : string) : string :=
  "samples_" ++ task_name ++ "_" ++ date_id ++ ".json".

(** Where [upload_folder(..., path_in_repo=d)] puts a file of the folder. *)
Definition path_in_repo (d filename : string) : string :=
  d ++ "/" ++ filename.

(** The characters of an ISO date and time, and of a date id. *)
Definition is_digit (c : ascii) : bool :=
  let n := nat_of_ascii c in ((48 <=? n) && (n <=? 57))%nat.

Definition iso_char (c : ascii) : bool :=
  is_digit c || Ascii.eqb c "-" || Ascii.eqb c "T" || Ascii.eqb c "."
  || Ascii.eqb c ":".

Definition date_id_char (c : ascii) : bool :=
  is_digit c || Ascii.eqb c "-" || Ascii.eqb c "T" || Ascii.eqb c ".".

Definition not_slash (c : ascii) : bool := negb (Ascii.eqb c "/").

(** *** The arguments of a sample, as [save_results_samples] dumps them *)

Section Arguments.

Variable V : Type.

(** [{f"arg_{j}": tmp for j, tmp in enumerate(arg)}], filled key by key. *)
Definition arg_dict (arg : list V) : gmap string V :=
  fold_left (fun d jt => <["arg_" ++ str_int (Z.of_nat (fst jt)) := snd jt]> d)
    (imap pair arg) ∅.

(** The [arguments] dict of one sample. *)
Definition arguments_dict (arguments : list (list V)) : gmap string (gmap string V) :=
  fold_left
    (fun d ia => <["gen_args_" ++ str_int (Z.of_nat (fst ia)) := arg_dict (snd ia)]> d)
    (imap pair arguments) ∅.

End Arguments.

(** *** The results document, as [save_results_aggregated] dumps it *)

Section Aggregated.

Variable V : Type.

(** [asdict(self.general_config_tracker)], field by field. *)
Definition tracker_fields
    (model_source model_name model_name_sanitized start_time end_time
     total_evaluation_time_seconds : V) : list (string * V) :=
  [("model_source", model_source);
   ("model_name", model_name);
   ("model_name_sanitized", model_name_sanitized);
   ("start_time", start_time);
   ("end_time", end_time);
   ("total_evaluation_time_seconds", total_evaluation_time_seconds)].

(** [results.update({"task_hashes": task_hashes})] followed by
    [results.update(asdict(self.general_config_tracker))]. *)
Definition updated_results (results : list (string * V)) (task_hashes : V)
    (tracker : list (string * V)) : list (string * V) :=
  dict_update (dict_update results [("task_hashes", task_hashes)]) tracker.

End Aggregated.

End Tracker.

(** * Properties *)

(** ** The sanitizer *)

Module SanitizerProofs.

Import Sanitizer.

Lemma map_eq_Forall {A B} (f g : A -> B) (l : list A) :
  Forall (fun x => f x = g x) l -> List.map f l = List.map g l.
Proof.
  induction 1 as [|x l Hx _ IH]; simpl; [reflexivity|].
  now rewrite Hx, IH.
Qed.

Lemma shape_of_sanitize_list (v : value) :
  shape_of (sanitize_list v) = shape_of v.
Proof.
  induction v as [items IH|items IH|x] using value_nested_ind; simpl;
    [| |reflexivity];
    f_equal; rewrite List.map_map; now apply map_eq_Forall.
Qed.

Lemma leaves_sanitize_list (v : value) :
  leaves (sanitize_list v) = List.map (fun x => Str (str x)) (leaves v).
Proof.
  induction v as [items IH|items IH|x] using value_nested_ind; simpl;
    [| |reflexivity];
    rewrite List.map_map, List.concat_map, List.map_map;
    f_equal; now apply map_eq_Forall.
Qed.

(** C7, as stated, fails: on [[1, [2, (3, "x")]]] the sanitizer does not
    return the all-lists value [["1", ["2", ["3", "x"]]]]; the inner
    tuple comes back as a tuple. *)
Lemma sanitize_list_keeps_tuple :
  sanitize_list nested_example <> nested_all_lists
  /\ sanitize_list (Tuple [Leaf (Int 3); Leaf (Str (Exact "x"))])
     = Tuple [Leaf (Str (Exact "3")); Leaf (Str (Exact "x"))].
Proof. split; [discriminate|reflexivity]. Qed.

(** C7, amended: [sanitize_list] keeps the nesting shape exactly, lists
    staying lists and tuples staying tuples, and replaces every leaf by
    its [str()]; so [[1, [2, (3, "x")]]] becomes [["1", ["2", ("3", "x")]]],
    which read with its tuples as lists is [["1", ["2", ["3", "x"]]]]. *)
Theorem sanitize_list_shape_and_leaves :
  (forall v : value,
      shape_of (sanitize_list v) = shape_of v
      /\ leaves (sanitize_list v) = List.map (fun x => Str (str x)) (leaves v))
  /\ sanitize_list nested_example = nested_tuple_kept
  /\ listify (sanitize_list nested_example) = nested_all_lists.
Proof.
  split; [|split; reflexivity].
  intros v; split; [apply shape_of_sanitize_list|apply leaves_sanitize_list].
Qed.

Lemma Forall_concat_map {A B} (P : B -> Prop) (f : A -> list B) (l : list A) :
  Forall P (List.concat (List.map f l)) -> Forall (fun x => Forall P (f x)) l.
Proof.
  induction l as [|x l IH]; simpl; intros H; [constructor|].
  apply Forall_app in H. destruct H as [Hx Hl]. constructor; auto.
Qed.

Lemma sanitize_list_stable (v : value) :
  Forall str_stable (leaves v) ->
  sanitize_list (sanitize_list v) = sanitize_list v.
Proof.
  induction v as [items IH|items IH|x] using value_nested_ind; simpl; intros H.
  - f_equal. rewrite List.map_map. apply map_eq_Forall.
    apply Forall_concat_map in H. revert H.
    induction IH as [|v items Hv _ IHitems]; intros H; [constructor|].
    inversion H; subst. constructor; auto.
  - f_equal. rewrite List.map_map. apply map_eq_Forall.
    apply Forall_concat_map in H. revert H.
    induction IH as [|v items Hv _ IHitems]; intros H; [constructor|].
    inversion H; subst. constructor; auto.
  - inversion H as [|y l Hx _]; subst. unfold str_stable in Hx.
    simpl in Hx. now rewrite Hx.
Qed.

Lemma exact_str_stable (x : leaf) : is_exact (str x) = true -> str_stable x.
Proof.
  unfold str_stable. destruct (str x) as [s|s f e]; [|discriminate].
  intros _. reflexivity.
Qed.

(** C10, as stated, fails: for the string ['a'] of a subclass of [str]
    whose [__str__] returns the instance with ["!"] added, the sanitizer
    returns ['a!'], still of the subclass, and applied to that it returns
    ['a!!']. *)
Lemma sanitize_list_changes_again :
  sanitize_list (exclaiming "a") = exclaiming "a!"
  /\ sanitize_list (sanitize_list (exclaiming "a")) = exclaiming "a!!"
  /\ sanitize_list (sanitize_list (exclaiming "a")) <> sanitize_list (exclaiming "a").
Proof.
  split; [reflexivity|]. split; [reflexivity|].
  intros H. vm_compute in H. discriminate H.
Qed.

(** C10, amended: sanitizing a sanitized value changes nothing when
    [str()] has nothing more to change on the leaves, [str(str(x))] being
    [str(x)] for every leaf [x]; that is so for every leaf whose [str()] is
    an exact [str]: an exact string, a number, a boolean, [None], an
    instance of a subclass of [str] whose [__str__] returns an exact
    string, and any other object whose [__str__] does. *)
Theorem sanitize_list_idempotent :
  (forall v : value,
      Forall str_stable (leaves v) ->
      sanitize_list (sanitize_list v) = sanitize_list v)
  /\ (forall x : leaf, is_exact (str x) = true -> str_stable x)
  /\ (forall x : leaf,
        match x with
        | Str (Subclass _ _ false) => True
        | Obj (Subclass _ _ _) => True
        | _ => is_exact (str x) = true
        end).
Proof.
  split; [apply sanitize_list_stable|]. split; [apply exact_str_stable|].
  intros [[s|s f [|]]|n|[|]| |[s|s f e]]; reflexivity || exact I.
Qed.

(** The theorem on the running example, whose leaves are numbers and an
    exact string. *)
Lemma sanitize_list_idempotent_witness :
  Forall str_stable (leaves nested_example)
  /\ sanitize_list (sanitize_list nested_example) = sanitize_list nested_example.
Proof.
  assert (H : Forall str_stable (leaves nested_example)).
  { repeat constructor. }
  split; [exact H|]. exact (proj1 sanitize_list_idempotent nested_example H).
Defined.

End SanitizerProofs.

(** ** The per-task hash *)

Module RunHashProofs.

Import RunHash.

Lemma append_empty_r (s : string) : s ++ "" = s.
Proof.
  induction s as [|c s IH]; [reflexivity|].
  change (String c (s ++ "") = String c s). now rewrite IH.
Qed.

Lemma concat_sample_hashes_cons (s : sample) (l : list sample) :
  String.concat "" (sample_hashes (s :: l))
  = ((doc_hash s ++ prompt_hash s) ++ target_hash s)
      ++ String.concat "" (sample_hashes l).
Proof.
  destruct l as [|s' l]; cbn [sample_hashes List.map String.concat].
  - now rewrite append_empty_r.
  - reflexivity.
Qed.




End RunHashProofs.

(** ** Python's string order and [max] *)

Module PyProofs.

Lemma ascii_compare_refl (a : ascii) : Ascii.compare a a = Eq.
Proof. apply N.compare_refl. Qed.

Lemma ascii_compare_lt_trans (a b c : ascii) :
  Ascii.compare a b = Lt -> Ascii.compare b c = Lt -> Ascii.compare a c = Lt.
Proof.
  unfold Ascii.compare. rewrite !N.compare_lt_iff. apply N.lt_trans.
Qed.

Lemma compare_refl (a : string) : String.compare a a = Eq.
Proof.
  induction a as [|c a IH]; simpl; [reflexivity|].
  now rewrite ascii_compare_refl.
Qed.

Lemma compare_lt_trans (a b c : string) :
  String.compare a b = Lt -> String.compare b c = Lt -> String.compare a c = Lt.
Proof.
  revert b c. induction a as [|x a IH]; intros [|y b] [|z c]; simpl;
    try discriminate; try reflexivity.
  destruct (Ascii.compare x y) eqn:Hxy; try discriminate;
    destruct (Ascii.compare y z) eqn:Hyz; try discriminate; intros H1 H2.
  - apply Ascii.compare_eq_iff in Hxy, Hyz. subst.
    rewrite ascii_compare_refl. now apply IH with b.
  - apply Ascii.compare_eq_iff in Hxy. subst. now rewrite Hyz.
  - apply Ascii.compare_eq_iff in Hyz. subst. now rewrite Hxy.
  - now rewrite (ascii_compare_lt_trans x y z).
Qed.

Lemma compare_gt_lt (a b : string) :
  String.compare a b = Gt <-> String.compare b a = Lt.
Proof.
  rewrite (String.compare_antisym b a).
  destruct (String.compare a b); simpl; split; congruence.
Qed.

(** The three outcomes of comparing two strings. *)
Lemma compare_cases (a b : string) :
  (String.compare a b = Lt /\ String.compare b a = Gt)
  \/ (a = b)
  \/ (String.compare a b = Gt /\ String.compare b a = Lt).
Proof.
  destruct (String.compare a b) eqn:H.
  - right; left. now apply String.compare_eq_iff.
  - left. split; [reflexivity|]. rewrite String.compare_antisym, H. reflexivity.
  - right; right. split; [reflexivity|]. now apply compare_gt_lt.
Qed.

Lemma leb_refl (a : string) : String.leb a a = true.
Proof. unfold String.leb. now rewrite compare_refl. Qed.

Lemma leb_trans (a b c : string) :
  String.leb a b = true -> String.leb b c = true -> String.leb a c = true.
Proof.
  unfold String.leb.
  destruct (compare_cases a b) as [[H1 _]|[->|[H1 _]]]; rewrite ?H1;
    try discriminate; [|tauto].
  destruct (compare_cases b c) as [[H2 _]|[->|[H2 _]]]; rewrite ?H2;
    try discriminate; [|now rewrite H1].
  now rewrite (compare_lt_trans a b c).
Qed.

Lemma max_cases (a b : string) :
  (Py.max a b = b /\ String.compare a b = Lt)
  \/ (Py.max a b = a /\ String.leb b a = true).
Proof.
  unfold Py.max, String.ltb, String.leb.
  destruct (compare_cases a b) as [[H1 H2]|[->|[H1 H2]]].
  - left. now rewrite H1.
  - right. now rewrite compare_refl.
  - right. now rewrite H1, H2.
Qed.

Lemma leb_max_l (a b : string) : String.leb a (Py.max a b) = true.
Proof.
  destruct (max_cases a b) as [[-> H]|[-> _]]; [|apply leb_refl].
  unfold String.leb. now rewrite H.
Qed.

Lemma leb_max_r (a b : string) : String.leb b (Py.max a b) = true.
Proof.
  destruct (max_cases a b) as [[-> _]|[-> H]]; [apply leb_refl|exact H].
Qed.

Lemma max_l_or_r (a b : string) : Py.max a b = a \/ Py.max a b = b.
Proof. destruct (max_cases a b) as [[-> _]|[-> _]]; auto. Qed.

Lemma max_lub (a b v : string) :
  String.leb a v = true -> String.leb b v = true ->
  String.leb (Py.max a b) v = true.
Proof. intros Ha Hb. destruct (max_l_or_r a b) as [-> | ->]; assumption. Qed.

Lemma leb_max_l' (a b c : string) :
  String.leb a b = true -> String.leb a (Py.max b c) = true.
Proof. intros H. eapply leb_trans; [exact H|apply leb_max_l]. Qed.

Lemma leb_max_r' (a b c : string) :
  String.leb a c = true -> String.leb a (Py.max b c) = true.
Proof. intros H. eapply leb_trans; [exact H|apply leb_max_r]. Qed.

Create HintDb pymax.
#[local] Hint Resolve leb_refl leb_max_l' leb_max_r' max_lub : pymax.

(** Taking the maximum with two strings, in either order. *)
Lemma max_right_comm (x a b : string) :
  Py.max (Py.max x a) b = Py.max (Py.max x b) a.
Proof. apply String.leb_antisym; auto 6 with pymax. Qed.

(** [fold_left max l x] is an element of [x :: l] and bounds them all. *)
Lemma fold_max_greatest (l : list string) (x : string) :
  Card.greatest (fold_left Py.max l x) (x :: l).
Proof.
  unfold Card.greatest. revert x. induction l as [|d l IH]; intros x; simpl.
  - split; [now left|]. intros d [<-|[]]. apply leb_refl.
  - destruct (IH (Py.max x d)) as [Hin Hub]. split.
    + destruct Hin as [Hin|Hin]; [|now right; right].
      rewrite <- Hin. destruct (max_l_or_r x d) as [-> | ->]; auto.
    + intros e [<-|[<-|He]].
      * eapply leb_trans; [apply leb_max_l|]. apply Hub. now left.
      * eapply leb_trans; [apply leb_max_r|]. apply Hub. now left.
      * apply Hub. now right.
Qed.

(** *** Sanitizing twice *)

Lemma is_word_underscore : Py.is_word Py.underscore = true.
Proof. reflexivity. Qed.

Lemma sub_nonword_idempotent (s : string) :
  Py.sub_nonword (Py.sub_nonword s) = Py.sub_nonword s.
Proof.
  unfold Py.sub_nonword. induction s as [|c s IH]; cbn [Py.map_chars];
    [reflexivity|].
  rewrite IH. destruct (Py.is_word c) eqn:E.
  - now rewrite E.
  - now rewrite is_word_underscore.
Qed.

Lemma sub_nonword_nondot_idempotent (s : string) :
  Py.sub_nonword_nondot (Py.sub_nonword_nondot s) = Py.sub_nonword_nondot s.
Proof.
  unfold Py.sub_nonword_nondot. induction s as [|c s IH]; cbn [Py.map_chars];
    [reflexivity|].
  rewrite IH. destruct (Py.is_word c || Ascii.eqb c Py.dot) eqn:E.
  - now rewrite E.
  - now rewrite is_word_underscore.
Qed.

(** *** [basename] and [path_join] *)

Lemma substring_all (s : string) : String.substring 0 (String.length s) s = s.
Proof. induction s as [|c s IH]; simpl; [reflexivity|now rewrite IH]. Qed.

Lemma rindex_succ (i : nat) (sub s : string) :
  Py.rindex (S i) sub s = option_map S (Py.rindex i sub s).
Proof.
  revert i. induction s as [|c s IH]; intros i; cbn [Py.rindex].
  - now destruct (String.prefix sub "").
  - rewrite (IH (S i)), (IH i).
    destruct (Py.rindex i sub s); cbn [option_map]; [reflexivity|].
    now destruct (String.prefix sub (String c s)).
Qed.

(** After the last occurrence of a non-empty [sub] there is none left. *)
Lemma rindex_last (sub s : string) (j : nat) :
  String.prefix sub "" = false ->
  Py.rindex 0 sub s = Some j ->
  (j < String.length s)%nat
  /\ Py.rindex 0 sub (String.substring (S j) (String.length s - S j) s) = None.
Proof.
  intros Hsub. revert j. induction s as [|c s IH]; intros j; cbn [Py.rindex].
  - rewrite Hsub. discriminate.
  - rewrite rindex_succ.
    destruct (Py.rindex 0 sub s) as [j'|] eqn:E; cbn [option_map].
    + intros H. injection H as <-. destruct (IH j' eq_refl) as [Hlt Hnone].
      split; [simpl; lia|exact Hnone].
    + destruct (String.prefix sub (String c s)); [|discriminate].
      intros H. injection H as <-. split; [simpl; lia|].
      cbn [String.length String.substring Nat.sub].
      rewrite Nat.sub_0_r, substring_all. exact E.
Qed.

Lemma clamp_in_range (n i : Z) : 0 <= i <= n -> Py.clamp n i = i.
Proof.
  intros H. unfold Py.clamp. cbv zeta.
  rewrite (proj2 (Z.ltb_ge i 0)) by lia.
  rewrite (proj2 (Z.ltb_ge i 0)) by lia.
  now rewrite (proj2 (Z.ltb_ge n i)) by lia.
Qed.

Lemma slice_from_nat (s : string) (k : nat) :
  (k <= String.length s)%nat ->
  Py.slice_from s (Z.of_nat k) = String.substring k (String.length s - k) s.
Proof.
  intros H. unfold Py.slice_from, Py.len.
  rewrite clamp_in_range by lia. f_equal; lia.
Qed.

Lemma basename_without_slash (p : string) :
  Py.rindex 0 "/" p = None -> Py.basename p = p.
Proof.
  intros H. unfold Py.basename, Py.rfind. rewrite H.
  change (-1 + 1) with (Z.of_nat 0). rewrite slice_from_nat by lia.
  rewrite Nat.sub_0_r. apply substring_all.
Qed.

Lemma basename_has_no_slash (p : string) :
  Py.rindex 0 "/" (Py.basename p) = None.
Proof.
  destruct (Py.rindex 0 "/" p) as [j|] eqn:H.
  - destruct (rindex_last "/" p j eq_refl H) as [Hlt Hnone].
    unfold Py.basename, Py.rfind. rewrite H.
    replace (Z.of_nat j + 1) with (Z.of_nat (S j)) by lia.
    rewrite slice_from_nat by lia. exact Hnone.
  - now rewrite basename_without_slash.
Qed.

Lemma basename_idempotent (p : string) :
  Py.basename (Py.basename p) = Py.basename p.
Proof. apply basename_without_slash, basename_has_no_slash. Qed.

Lemma path_join_stars (b : string) :
  Py.path_join "**" b
  = if String.prefix "/" b then b else String "*" (String "*" (String "/" b)).
Proof. reflexivity. Qed.

Lemma prefix_slash (b : string) :
  String.prefix "/" b = true -> exists b', b = String "/" b'.
Proof.
  intros H. apply String.prefix_correct in H.
  destruct b as [|c b]; [discriminate H|].
  cbn [String.length String.substring] in H. injection H as -> _. now exists b.
Qed.

Lemma path_join_stars_inj (b b' : string) :
  Py.path_join "**" b = Py.path_join "**" b' -> b = b'.
Proof.
  rewrite !path_join_stars.
  destruct (String.prefix "/" b) eqn:E; destruct (String.prefix "/" b') eqn:E'.
  - auto.
  - apply prefix_slash in E. destruct E as [x ->]. intros H. discriminate H.
  - apply prefix_slash in E'. destruct E' as [x ->]. intros H. discriminate H.
  - intros H. now injection H.
Qed.

End PyProofs.

(** ** The latest datetime of each task *)

Module LatestProofs.

Import Py Card PyProofs.

Lemma latest_step_unfold (latest : gmap string string) (f : string) :
  latest_step latest f
  = <[task_of f := max (latest_of latest (task_of f)) (date_of f)]> latest.
Proof. reflexivity. Qed.

Lemma latest_of_insert (latest : gmap string string) (t t' v : string) :
  latest_of (<[t := v]> latest) t'
  = if decide (t = t') then v else latest_of latest t'.
Proof.
  unfold latest_of. rewrite lookup_insert. now destruct (decide (t = t')).
Qed.

Lemma latest_step_commute (latest : gmap string string) (f g : string) :
  latest_step (latest_step latest f) g = latest_step (latest_step latest g) f.
Proof.
  rewrite !latest_step_unfold, !latest_of_insert.
  destruct (decide (task_of f = task_of g)) as [E|N];
    destruct (decide (task_of g = task_of f)) as [E'|N']; try congruence.
  - rewrite E. rewrite !insert_insert_eq. f_equal. apply max_right_comm.
  - now apply insert_insert_ne.
Qed.

(** A fold whose steps commute does not see the order of the list. *)
Lemma fold_left_commute_permutation {A B} (step : A -> B -> A) (l l' : list B) :
  (forall a x y, step (step a x) y = step (step a y) x) ->
  Permutation l l' -> forall a, fold_left step l a = fold_left step l' a.
Proof.
  intros Hc. induction 1 as [|x l l' _ IH|x y l|l l1 l2 _ IH1 _ IH2];
    intros a; simpl.
  - reflexivity.
  - apply IH.
  - now rewrite Hc.
  - now rewrite IH1.
Qed.

Lemma latest_permutation (fs fs' : list string) :
  Permutation fs fs' ->
  latest_task_results_datetime fs = latest_task_results_datetime fs'.
Proof.
  intros H. unfold latest_task_results_datetime.
  apply fold_left_commute_permutation; [|exact H].
  intros a x y. apply latest_step_commute.
Qed.

Lemma dates_of_cons (t f : string) (fs : list string) :
  dates_of t (f :: fs)
  = if String.eqb (task_of f) t then date_of f :: dates_of t fs
    else dates_of t fs.
Proof. unfold dates_of. simpl. now destruct (String.eqb (task_of f) t). Qed.

(** Reading the dict after the loop: the fold of [max] over the task's
    timestamps, started from what the dict gave before. *)
Lemma latest_of_fold (fs : list string) (latest : gmap string string) (t : string) :
  latest_of (fold_left latest_step fs latest) t
  = fold_left max (dates_of t fs) (latest_of latest t).
Proof.
  revert latest. induction fs as [|f fs IH]; intros latest; [reflexivity|].
  simpl fold_left. rewrite IH, dates_of_cons, latest_step_unfold, latest_of_insert.
  destruct (String.eqb_spec (task_of f) t) as [E|N].
  - rewrite decide_True by exact E. now rewrite E.
  - now rewrite decide_False by exact N.
Qed.

Lemma latest_of_empty (t : string) : latest_of ∅ t = datetime_min_isoformat.
Proof. unfold latest_of. now rewrite lookup_empty. Qed.

(** A task of the listing has an entry in the dict. *)
Lemma latest_lookup_fold (fs : list string) (latest : gmap string string) (t : string) :
  is_Some (fold_left latest_step fs latest !! t)
  <-> is_Some (latest !! t) \/ exists f, In f fs /\ task_of f = t.
Proof.
  revert latest. induction fs as [|f fs IH]; intros latest; simpl fold_left.
  - split; [now left|]. intros [H|(f & [] & _)]. exact H.
  - rewrite IH, latest_step_unfold, lookup_insert_is_Some'. split.
    + intros [[E|H]|(g & Hg & E)].
      * right. exists f. split; [now left|exact E].
      * now left.
      * right. exists g. split; [now right|exact E].
    + intros [H|(g & [<-|Hg] & E)].
      * left. now right.
      * left. now left.
      * right. now exists g.
Qed.

Lemma values_nonempty (latest : gmap string string) (t : string) :
  is_Some (latest !! t) -> values latest <> [].
Proof.
  intros [v Hv] Hnil. unfold values in Hnil.
  apply map_eq_nil, map_to_list_empty_iff in Hnil. subst.
  now rewrite lookup_empty in Hv.
Qed.

(** [max] over the values of the dict succeeds exactly when the listing has
    a sample file. *)
Lemma max_of_values (fs : list string) :
  match max_of (values (latest_task_results_datetime fs)) with
  | Ok _ => fs <> []
  | Raise e => e = ValueError /\ fs = []
  end.
Proof.
  destruct fs as [|f fs].
  - unfold latest_task_results_datetime, values. simpl.
    rewrite map_to_list_empty. simpl. auto.
  - assert (H : values (latest_task_results_datetime (f :: fs)) <> []).
    { apply (values_nonempty _ (task_of f)).
      apply latest_lookup_fold. right. exists f. split; [now left|reflexivity]. }
    destruct (values _) as [|v vs]; [congruence|]. simpl. congruence.
Qed.

End LatestProofs.

(** ** The catalog *)

Module CatalogProofs.

Import Py Card PyProofs LatestProofs.

(** *** Splits of one config *)

Lemma splits_named_cons (name : string) (e : data_file) (l : list data_file) :
  splits_named name (e :: l)
  = ((if String.eqb (split e) name then [(0%nat, e)] else [])
       ++ List.map (fun ie => (S (fst ie), snd ie)) (splits_named name l))%list.
Proof.
  unfold splits_named. rewrite imap_cons. simpl List.filter.
  assert (H : imap (pair ∘ S) l
              = List.map (fun ie : nat * data_file => (S (fst ie), snd ie))
                  (imap pair l)).
  { change (List.map ?f ?x) with (f <$> x). rewrite fmap_imap.
    apply imap_ext. reflexivity. }
  rewrite H, filter_map_swap. simpl.
  now destruct (String.eqb (split e) name).
Qed.

(** [upsert_split] walks the data files up to the first split called
    [name]. *)
Lemma upsert_split_nil (name p : string) :
  upsert_split name p [] = [DataFile name [p]].
Proof. reflexivity. Qed.

Lemma upsert_split_cons (name p : string) (e : data_file) (l : list data_file) :
  upsert_split name p (e :: l)
  = if String.eqb (split e) name then append_path p e :: l
    else e :: upsert_split name p l.
Proof.
  unfold upsert_split. rewrite splits_named_cons.
  destruct (String.eqb (split e) name); [reflexivity|].
  simpl. destruct (splits_named name l) as [|[i x] rest]; reflexivity.
Qed.

Lemma listed_in_nil (s p : string) : listed_in [] s p <-> False.
Proof. split; [intros (e & [] & _)|intros []]. Qed.

Lemma listed_in_cons (e : data_file) (l : list data_file) (s p : string) :
  listed_in (e :: l) s p <-> (split e = s /\ In p (path e)) \/ listed_in l s p.
Proof.
  unfold listed_in. split.
  - intros (x & [<-|Hx] & Hs & Hp); [now left|right; now exists x].
  - intros [[Hs Hp]|(x & Hx & Hs & Hp)].
    + exists e. split; [now left|auto].
    + exists x. split; [now right|auto].
Qed.

Lemma listed_in_app (l l' : list data_file) (s p : string) :
  listed_in (l ++ l') s p <-> listed_in l s p \/ listed_in l' s p.
Proof.
  induction l as [|e l IH]; simpl.
  - rewrite listed_in_nil. tauto.
  - rewrite !listed_in_cons, IH. tauto.
Qed.

Lemma listed_in_append_split (name q : string) (l : list data_file) (s p : string) :
  listed_in (append_split name q l) s p
  <-> listed_in l s p \/ (s = name /\ p = q).
Proof.
  unfold append_split. rewrite listed_in_app, listed_in_cons, listed_in_nil.
  simpl. intuition congruence.
Qed.

Lemma listed_in_upsert_split (name q : string) (l : list data_file) (s p : string) :
  listed_in (upsert_split name q l) s p
  <-> listed_in l s p \/ (s = name /\ p = q).
Proof.
  induction l as [|e l IH].
  - rewrite upsert_split_nil, listed_in_cons, listed_in_nil. simpl.
    intuition congruence.
  - rewrite upsert_split_cons.
    destruct (String.eqb_spec (split e) name) as [E|N].
    + rewrite !listed_in_cons. simpl. rewrite in_app_iff. simpl.
      intuition congruence.
    + rewrite !listed_in_cons, IH. tauto.
Qed.

Lemma listed_in_add_results_file (max_latest f : string) (l : list data_file)
    (s p : string) :
  listed_in (add_results_file max_latest f l) s p
  <-> listed_in l s p \/ from_results max_latest f s p.
Proof.
  unfold add_results_file, from_results.
  destruct (String.eqb_spec (split_name f) (sanitize_date max_latest)) as [E|N];
    rewrite ?listed_in_append_split; intuition congruence.
Qed.

Lemma listed_in_add_sample_file (latest : gmap string string) (f : string)
    (l : list data_file) (s p : string) :
  listed_in (add_sample_file latest f l) s p
  <-> listed_in l s p \/ from_sample latest f s p.
Proof.
  unfold add_sample_file, from_sample.
  destruct (is_latest latest f);
    rewrite ?listed_in_append_split; intuition congruence.
Qed.

Lemma listed_in_merge_sample_file (latest : gmap string string) (f : string)
    (l : list data_file) (s p : string) :
  listed_in (merge_sample_file latest f l) s p
  <-> listed_in l s p \/ from_sample latest f s p.
Proof.
  unfold merge_sample_file, from_sample.
  destruct (is_latest latest f);
    rewrite ?listed_in_upsert_split; intuition congruence.
Qed.

Lemma split_names_append_split (name p : string) (l : list data_file) :
  split_names (append_split name p l) = (split_names l ++ [name])%list.
Proof. unfold split_names, append_split. now rewrite List.map_app. Qed.

(** A split already there takes the path; otherwise a split is added. *)
Lemma split_names_upsert_split (name p : string) (l : list data_file) :
  split_names (upsert_split name p l)
  = if bool_decide (name ∈ split_names l) then split_names l
    else (split_names l ++ [name])%list.
Proof.
  induction l as [|e l IH].
  - reflexivity.
  - rewrite upsert_split_cons. simpl split_names at 2 3 4.
    destruct (String.eqb_spec (split e) name) as [E|N].
    + rewrite bool_decide_eq_true_2 by (rewrite E; now left). reflexivity.
    + change (split_names (e :: upsert_split name p l))
        with (split e :: split_names (upsert_split name p l)).
      rewrite IH. repeat case_bool_decide; try reflexivity.
      * exfalso. apply H0. now right.
      * exfalso. apply elem_of_cons in H0. destruct H0; congruence.
Qed.

Lemma NoDup_split_names_upsert_split (name p : string) (l : list data_file) :
  NoDup (split_names l) -> NoDup (split_names (upsert_split name p l)).
Proof.
  intros H. rewrite split_names_upsert_split. case_bool_decide; [exact H|].
  apply NoDup_app. split; [exact H|]. split; [|apply NoDup_singleton].
  intros x Hx Hx'. apply list_elem_of_singleton in Hx'. congruence.
Qed.

Lemma NoDup_split_names_merge_sample_file (latest : gmap string string)
    (f : string) (l : list data_file) :
  NoDup (split_names l) -> NoDup (split_names (merge_sample_file latest f l)).
Proof.
  intros H. unfold merge_sample_file.
  destruct (is_latest latest f); auto using NoDup_split_names_upsert_split.
Qed.

(** With no split called [name] a new one is appended. *)
Lemma upsert_split_absent (name p : string) (l : list data_file) :
  name ∉ split_names l ->
  upsert_split name p l = (l ++ [DataFile name [p]])%list.
Proof.
  induction l as [|e l IH]; intros Hn; [reflexivity|].
  rewrite upsert_split_cons.
  destruct (String.eqb_spec (split e) name) as [E|N].
  - exfalso. apply Hn. rewrite <- E. now left.
  - simpl. rewrite IH; [reflexivity|]. intros H. apply Hn. now right.
Qed.

(** Otherwise the first split called [name] takes the path, and nothing
    else changes. *)
Lemma upsert_split_present (name p : string) (l : list data_file) :
  name ∈ split_names l ->
  exists l1 e l2,
    l = (l1 ++ e :: l2)%list /\ split e = name /\ (name ∉ split_names l1)
    /\ upsert_split name p l = (l1 ++ append_path p e :: l2)%list.
Proof.
  induction l as [|e l IH]; intros Hn.
  - apply elem_of_nil in Hn. destruct Hn.
  - destruct (String.eqb_spec (split e) name) as [E|N].
    + exists [], e, l. split; [reflexivity|]. split; [exact E|].
      split; [apply not_elem_of_nil|].
      rewrite upsert_split_cons. now rewrite (proj2 (String.eqb_eq _ _) E).
    + apply elem_of_cons in Hn. destruct Hn as [Hn|Hn]; [congruence|].
      destruct (IH Hn) as (l1 & x & l2 & -> & Hx & Hl1 & Hup).
      exists (e :: l1), x, l2. split; [reflexivity|]. split; [exact Hx|].
      split.
      * intros H. apply elem_of_cons in H. destruct H as [H|H]; [congruence|].
        now apply Hl1.
      * rewrite upsert_split_cons.
        rewrite (proj2 (String.eqb_neq _ _) N). simpl. now rewrite Hup.
Qed.

(** *** One config at a time *)

Lemma config_of_empty (c : string) : config_of ∅ c = [].
Proof. unfold config_of. now rewrite lookup_empty. Qed.

Lemma config_of_update (c c' : string) g (cm : MetadataConfigs) :
  config_of (update c g cm) c'
  = if decide (c = c') then g (config_of cm c) else config_of cm c'.
Proof.
  unfold update, config_of at 1. rewrite lookup_insert.
  now destruct (decide (c = c')).
Qed.

Lemma results_step_update (max_latest : string) (cm : MetadataConfigs) (f : string) :
  results_step max_latest cm f = update "results" (add_results_file max_latest f) cm.
Proof.
  unfold results_step, update, add_results_file.
  fold (results_path f) (date_of f). fold (split_name f). fold (config_of cm "results").
  destruct (String.eqb (split_name f) (sanitize_date max_latest)).
  - now rewrite alter_insert_eq.
  - reflexivity.
Qed.

Lemma sample_step_update (latest : gmap string string) (cm : MetadataConfigs) (f : string) :
  sample_step latest cm f
  = fold_left
      (fun cm c => if contains c (config_name f)
                   then update c (merge_sample_file latest f) cm else cm)
      SPECIAL_TASKS
      (update (config_name f) (add_sample_file latest f) cm).
Proof.
  unfold sample_step.
  fold (task_of f) (date_of f) (sample_path f).
  fold (config_name f) (split_name f).
  fold (config_of cm (config_name f)).
  apply (f_equal (fold_left _ SPECIAL_TASKS)).
  unfold update, add_sample_file, is_latest.
  destruct (String.eqb (split_name f) _).
  - now rewrite alter_insert_eq.
  - reflexivity.
Qed.

Lemma config_of_specials g (st : string) (specials : list string)
    (cm : MetadataConfigs) (c : string) :
  NoDup specials ->
  config_of
    (fold_left (fun cm c => if contains c st then update c g cm else cm)
       specials cm) c
  = if existsb (String.eqb c) specials && contains c st
    then g (config_of cm c) else config_of cm c.
Proof.
  intros Hnd. revert cm. induction Hnd as [|x specials Hx Hnd IH]; intros cm.
  - reflexivity.
  - simpl fold_left. rewrite IH. simpl existsb.
    destruct (String.eqb_spec c x) as [->|Hcx]; simpl.
    + assert (Hex : existsb (String.eqb x) specials = false).
      { apply not_true_is_false. intros H. apply existsb_exists in H.
        destruct H as (y & Hy & E). apply String.eqb_eq in E. subst y.
        apply Hx. now apply list_elem_of_In. }
      rewrite Hex. simpl. destruct (contains x st); [|reflexivity].
      rewrite config_of_update. now rewrite decide_True.
    + assert (Hc : config_of (if contains x st then update x g cm else cm) c
                   = config_of cm c).
      { destruct (contains x st); [|reflexivity].
        rewrite config_of_update. now rewrite decide_False by congruence. }
      now rewrite Hc.
Qed.

Lemma NoDup_SPECIAL_TASKS : NoDup SPECIAL_TASKS.
Proof. apply (bool_decide_unpack _). vm_compute. reflexivity. Qed.

(** The data files of a config after the body of the sample loop. *)
Lemma config_of_sample_step (latest : gmap string string) (cm : MetadataConfigs)
    (f c : string) :
  config_of (sample_step latest cm f) c
  = let l := config_of cm c in
    let l := if decide (config_name f = c) then add_sample_file latest f l else l in
    if is_special c && contains c (config_name f)
    then merge_sample_file latest f l else l.
Proof.
  rewrite sample_step_update, config_of_specials by apply NoDup_SPECIAL_TASKS.
  rewrite config_of_update. fold (is_special c). cbv zeta.
  now destruct (decide (config_name f = c)) as [->|].
Qed.

Lemma config_of_results_step (max_latest : string) (cm : MetadataConfigs)
    (f c : string) :
  config_of (results_step max_latest cm f) c
  = if decide ("results" = c)
    then add_results_file max_latest f (config_of cm c) else config_of cm c.
Proof.
  rewrite results_step_update, config_of_update.
  now destruct (decide ("results" = c)) as [<-|].
Qed.

Lemma fill_snoc (latest : gmap string string) (max_latest : string)
    (rs ss : list string) (f : string) :
  fill_card_metadata latest max_latest rs (ss ++ [f])
  = sample_step latest (fill_card_metadata latest max_latest rs ss) f.
Proof. unfold fill_card_metadata. now rewrite fold_left_app. Qed.

Lemma fill_results_snoc (latest : gmap string string) (max_latest : string)
    (rs : list string) (f : string) :
  fill_card_metadata latest max_latest (rs ++ [f]) []
  = results_step max_latest (fill_card_metadata latest max_latest rs []) f.
Proof. unfold fill_card_metadata. simpl. now rewrite fold_left_app. Qed.

(** An invariant of every config: it holds of no data files, and the three
    ways a file is entered keep it. *)
Lemma fill_config_ind (P : string -> list data_file -> Prop)
    (latest : gmap string string) (max_latest : string) (rs ss : list string) :
  (forall c, P c []) ->
  (forall f l, In f rs -> P "results" l ->
               P "results" (add_results_file max_latest f l)) ->
  (forall f l, In f ss -> P (config_name f) l ->
               P (config_name f) (add_sample_file latest f l)) ->
  (forall f c l, In f ss -> is_special c = true ->
                 contains c (config_name f) = true ->
                 P c l -> P c (merge_sample_file latest f l)) ->
  forall c, P c (config_of (fill_card_metadata latest max_latest rs ss) c).
Proof.
  intros Hnil Hres Hadd Hmerge.
  induction ss as [|f ss IHs] using rev_ind.
  - induction rs as [|f rs IHr] using rev_ind; intros c.
    + unfold fill_card_metadata. simpl. rewrite config_of_empty. apply Hnil.
    + rewrite fill_results_snoc, config_of_results_step.
      destruct (decide ("results" = c)) as [<-|].
      * apply Hres; [apply in_or_app; right; now left|].
        apply IHr. intros g l Hg. apply Hres. apply in_or_app. now left.
      * apply IHr. intros g l Hg. apply Hres. apply in_or_app. now left.
  - intros c. rewrite fill_snoc, config_of_sample_step. cbv zeta.
    assert (Hf : In f (ss ++ [f])) by (apply in_or_app; right; now left).
    assert (IH : forall c, P c (config_of (fill_card_metadata latest max_latest rs ss) c)).
    { apply IHs.
      - intros g l Hg. apply Hadd. apply in_or_app. now left.
      - intros g c' l Hg. apply Hmerge. apply in_or_app. now left. }
    assert (H1 : P c (if decide (config_name f = c)
                      then add_sample_file latest f
                             (config_of (fill_card_metadata latest max_latest rs ss) c)
                      else config_of (fill_card_metadata latest max_latest rs ss) c)).
    { destruct (decide (config_name f = c)) as [<-|]; [|apply IH].
      apply Hadd; [exact Hf|apply IH]. }
    destruct (is_special c) eqn:Hsp; simpl; [|exact H1].
    destruct (contains c (config_name f)) eqn:Hc; [|exact H1].
    now apply Hmerge.
Qed.

(** *** What the catalog lists *)

(** A path stands in a split of a config exactly when a results file or a
    sample file of the listing puts it there. *)
Lemma listed_fill (latest : gmap string string) (max_latest : string)
    (rs ss : list string) (c s p : string) :
  listed (fill_card_metadata latest max_latest rs ss) c s p
  <-> (c = "results" /\ exists f, In f rs /\ from_results max_latest f s p)
      \/ (exists f, In f ss /\ in_config f c /\ from_sample latest f s p).
Proof.
  unfold listed.
  induction ss as [|f ss IHs] using rev_ind.
  - induction rs as [|f rs IHr] using rev_ind.
    + unfold fill_card_metadata. simpl. rewrite config_of_empty, listed_in_nil.
      split; [intros []|]. intros [(_ & f & [] & _)|(f & [] & _)].
    + rewrite fill_results_snoc, config_of_results_step.
      destruct (decide ("results" = c)) as [<-|N].
      * rewrite listed_in_add_results_file, IHr. split.
        -- intros [[(_ & g & Hg & H)|(g & [] & _)]|H].
           ++ left. split; [reflexivity|]. exists g. split; [|exact H].
              apply in_or_app. now left.
           ++ left. split; [reflexivity|]. exists f. split; [|exact H].
              apply in_or_app. right. now left.
        -- intros [(_ & g & Hg & H)|(g & [] & _)].
           apply in_app_or in Hg. destruct Hg as [Hg|[<-|[]]].
           ++ left. left. split; [reflexivity|]. now exists g.
           ++ now right.
      * rewrite IHr. split.
        -- intros [(E & _)|(g & [] & _)]. congruence.
        -- intros [(E & _)|(g & [] & _)]. congruence.
  - rewrite fill_snoc, config_of_sample_step. cbv zeta.
    set (l := config_of (fill_card_metadata latest max_latest rs ss) c) in *.
    assert (Hstep :
      listed_in
        (if is_special c && contains c (config_name f)
         then merge_sample_file latest f
                (if decide (config_name f = c)
                 then add_sample_file latest f l else l)
         else if decide (config_name f = c)
              then add_sample_file latest f l else l) s p
      <-> listed_in l s p \/ (in_config f c /\ from_sample latest f s p)).
    { unfold in_config.
      destruct (is_special c); destruct (contains c (config_name f)); simpl;
        destruct (decide (config_name f = c)) as [E|N];
        rewrite ?listed_in_merge_sample_file, ?listed_in_add_sample_file;
        intuition congruence. }
    rewrite Hstep, IHs. split.
    + intros [[H|(g & Hg & H)]|H].
      * now left.
      * right. exists g. split; [apply in_or_app; now left|exact H].
      * right. exists f. split; [apply in_or_app; right; now left|exact H].
    + intros [H|(g & Hg & H)]; [now left; left|].
      apply in_app_or in Hg. destruct Hg as [Hg|[<-|[]]].
      * left. right. now exists g.
      * now right.
Qed.

End CatalogProofs.

(** ** Building the catalog from a listing *)

Module BuildProofs.

Import Py Card PyProofs LatestProofs CatalogProofs.

(** The two outcomes of [build_card_metadata]. *)
Lemma build_card_metadata_cases (files : list string) :
  (sample_files files = [] /\ build_card_metadata files = Raise ValueError)
  \/ (sample_files files <> []
      /\ exists max_latest,
          max_of (values (latest_task_results_datetime (sample_files files)))
          = Ok max_latest
          /\ build_card_metadata files
             = Ok (fill_card_metadata
                     (latest_task_results_datetime (sample_files files))
                     max_latest (results_files files) (sample_files files))).
Proof.
  unfold build_card_metadata.
  pose proof (max_of_values (sample_files files)) as H.
  destruct (max_of _) as [m|e].
  - right. split; [exact H|]. now exists m.
  - left. destruct H as [-> H]. now split.
Qed.

Lemma build_card_metadata_ok (files : list string) :
  sample_files files <> [] -> exists cm, build_card_metadata files = Ok cm.
Proof.
  intros H. destruct (build_card_metadata_cases files) as [[E _]|(_ & m & _ & E)];
    [contradiction|eauto].
Qed.

(** A path that the two filters reject changes nothing. *)
Lemma results_files_skip (l1 l2 : list string) (f : string) :
  contains "/results_" f && contains ".json" f = false ->
  results_files (l1 ++ f :: l2) = results_files (l1 ++ l2).
Proof.
  intros H. unfold results_files. rewrite !List.filter_app. simpl. now rewrite H.
Qed.

Lemma sample_files_skip (l1 l2 : list string) (f : string) :
  contains "/samples_" f && contains ".json" f = false ->
  sample_files (l1 ++ f :: l2) = sample_files (l1 ++ l2).
Proof.
  intros H. unfold sample_files. rewrite !List.filter_app. simpl. now rewrite H.
Qed.

Lemma build_card_metadata_skip (l1 l2 : list string) (f : string) :
  contains "/results_" f && contains ".json" f = false ->
  contains "/samples_" f && contains ".json" f = false ->
  build_card_metadata (l1 ++ f :: l2) = build_card_metadata (l1 ++ l2).
Proof.
  intros Hr Hs. unfold build_card_metadata.
  now rewrite results_files_skip, sample_files_skip.
Qed.

Lemma sample_files_In (files : list string) (f : string) :
  In f (sample_files files)
  <-> In f files /\ contains "/samples_" f && contains ".json" f = true.
Proof. unfold sample_files. apply filter_In. Qed.

Lemma results_files_In (files : list string) (f : string) :
  In f (results_files files)
  <-> In f files /\ contains "/results_" f && contains ".json" f = true.
Proof. unfold results_files. apply filter_In. Qed.

Lemma built_config_lookup (files : list string) (cm : MetadataConfigs)
    (c : string) (l : list data_file) :
  build_card_metadata files = Ok cm -> built_config files c = Some l ->
  cm !! c = Some l /\ config_of cm c = l.
Proof.
  unfold built_config, config_of. intros -> H. rewrite H. now split.
Qed.

(** C8, as stated, fails: the name [results_2024-01-01T00-00-00.json.bak]
    is not of the form [results_<timestamp>.json], yet the catalog is built
    and lists the file as a split of config ["results"]. *)
Lemma malformed_filename_is_grouped :
  well_formed_filename (basename "m/results_2024-01-01T00-00-00.json.bak") = false
  /\ built_config listing_with_backup "results"
     = Some [DataFile "2024_01_01T00_00_00.bak"
               ["**/results_2024-01-01T00-00-00.json.bak"];
             DataFile "2024_01_01T00_00_00"
               ["**/results_2024-01-01T00-00-00.json"];
             DataFile "latest"
               ["**/results_2024-01-01T00-00-00.json"]].
Proof. split; vm_compute; reflexivity. Qed.

(** C8, amended: no file name makes the parsing fail. A listed path is
    skipped when it lacks [".json"] or both ["/results_"] and ["/samples_"];
    every other path, whatever the shape of its name, is parsed and entered
    in the catalog under the config and split read off its name; and the
    catalog fails to build only when the listing has no sample file. *)
Theorem every_listed_file_is_grouped (files : list string) :
  (forall e, build_card_metadata files = Raise e ->
             e = ValueError /\ sample_files files = [])
  /\ (forall f, In f (sample_files files) ->
        exists cm, build_card_metadata files = Ok cm
                   /\ listed cm (config_name f) (split_name f) (sample_path f))
  /\ (forall f, In f (results_files files) -> sample_files files <> [] ->
        exists cm, build_card_metadata files = Ok cm
                   /\ listed cm "results" (split_name f) (results_path f))
  /\ (forall l1 l2 f, files = (l1 ++ f :: l2)%list ->
        contains "/results_" f && contains ".json" f = false ->
        contains "/samples_" f && contains ".json" f = false ->
        build_card_metadata files = build_card_metadata (l1 ++ l2)).
Proof.
  destruct (build_card_metadata_cases files) as [[E H]|(N & m & Hm & H)].
  - split; [|split; [|split]].
    + intros e He. rewrite H in He. injection He as <-. now split.
    + intros f Hf. rewrite E in Hf. destruct Hf.
    + intros f _ Hne. contradiction.
    + intros l1 l2 f -> Hr Hs. now apply build_card_metadata_skip.
  - split; [|split; [|split]].
    + intros e He. rewrite H in He. discriminate He.
    + intros f Hf. eexists. split; [exact H|].
      apply listed_fill. right. exists f. split; [exact Hf|].
      split; [now left|]. split; [reflexivity|now left].
    + intros f Hf _. eexists. split; [exact H|].
      apply listed_fill. left. split; [reflexivity|]. exists f.
      split; [exact Hf|]. split; [reflexivity|now left].
    + intros l1 l2 f -> Hr Hs. now apply build_card_metadata_skip.
Qed.

(** The theorem on the listing with the backup copy. *)
Lemma every_listed_file_is_grouped_witness :
  In "m/results_2024-01-01T00-00-00.json.bak" (results_files listing_with_backup)
  /\ sample_files listing_with_backup <> []
  /\ exists cm,
      build_card_metadata listing_with_backup = Ok cm
      /\ listed cm "results" "2024_01_01T00_00_00.bak"
           "**/results_2024-01-01T00-00-00.json.bak".
Proof.
  assert (H1 : In "m/results_2024-01-01T00-00-00.json.bak"
                 (results_files listing_with_backup)) by (vm_compute; auto).
  assert (H2 : sample_files listing_with_backup <> []) by (vm_compute; discriminate).
  split; [exact H1|]. split; [exact H2|].
  exact (proj1 (proj2 (proj2 (every_listed_file_is_grouped listing_with_backup)))
           "m/results_2024-01-01T00-00-00.json.bak" H1 H2).
Defined.

End BuildProofs.

(** ** The dataset card *)

Module CardProofs.

Import Py Card PyProofs LatestProofs CatalogProofs BuildProofs.

Section WithExternals.

Variable hf_hub_url : string -> string -> string.
Variable load_results : string -> result (list (string * json)).
Variable json_dumps : json -> string.

Abbreviation assemble := (assemble_card hf_hub_url load_results json_dumps).
Abbreviation recreate := (recreate_metadata_card hf_hub_url load_results json_dumps).

Lemma assemble_card_no_samples (self : Tracker) (repo_id : string)
    (files : list string) :
  sample_files files = [] -> assemble self repo_id files = Raise ValueError.
Proof.
  intros E. unfold assemble_card. rewrite E.
  unfold latest_task_results_datetime, values. simpl.
  now rewrite map_to_list_empty.
Qed.

Lemma assemble_card_no_results (self : Tracker) (repo_id : string)
    (files : list string) :
  sample_files files <> [] -> results_files files = [] ->
  assemble self repo_id files = Raise IndexError.
Proof.
  intros N E. unfold assemble_card. rewrite E.
  pose proof (max_of_values (sample_files files)) as H.
  destruct (max_of _) as [m|e]; [reflexivity|].
  destruct H as [_ H]. contradiction.
Qed.

(** The configs of the card are the catalog of the listing. *)
Lemma assemble_card_configs (self : Tracker) (repo_id : string)
    (files : list string) (card : DatasetCard) :
  assemble self repo_id files = Ok card ->
  build_card_metadata files = Ok (configs card).
Proof.
  unfold assemble_card, build_card_metadata.
  destruct (max_of _) as [m|e]; simpl; [|discriminate].
  destruct (first_item _) as [last|e]; simpl; [|discriminate].
  destruct (load_results _) as [d|e]; simpl; [|discriminate].
  intros H. injection H as <-. reflexivity.
Qed.

(** The card depends on the listing through the two filtered lists only. *)
Lemma assemble_card_ext (self : Tracker) (repo_id : string)
    (files files' : list string) :
  results_files files = results_files files' ->
  sample_files files = sample_files files' ->
  assemble self repo_id files = assemble self repo_id files'.
Proof. intros Hr Hs. unfold assemble_card. now rewrite Hr, Hs. Qed.

Lemma recreate_raises (w : World) (repo : Repo) (e : exn) :
  hub w !! repo_id_of (self w) = Some repo ->
  assemble (self w) (repo_id_of (self w)) (repo_files repo) = Raise e ->
  recreate w = (w, Raise e).
Proof. intros H E. unfold recreate_metadata_card. now rewrite H, E. Qed.

(** C1, amended: with no sample file in the listing the method raises
    [ValueError] ([max] of no value) before any config is built; with
    sample files and no results file the configs are built, none of their
    splits coming from a results file, and the method then raises
    [IndexError] when it picks the latest results file. Either way the hub
    is left as it was and no card is written. *)
Theorem empty_listings_raise (w : World) (repo : Repo) :
  hub w !! repo_id_of (self w) = Some repo ->
  (sample_files (repo_files repo) = [] ->
   build_card_metadata (repo_files repo) = Raise ValueError
   /\ recreate w = (w, Raise ValueError))
  /\ (sample_files (repo_files repo) <> [] ->
      results_files (repo_files repo) = [] ->
      recreate w = (w, Raise IndexError)
      /\ exists cm,
          build_card_metadata (repo_files repo) = Ok cm
          /\ forall c s p, listed cm c s p ->
               exists f, In f (sample_files (repo_files repo))
                         /\ in_config f c
                         /\ from_sample
                              (latest_task_results_datetime
                                 (sample_files (repo_files repo))) f s p).
Proof.
  intros Hrepo. split.
  - intros E. split.
    + destruct (build_card_metadata_cases (repo_files repo)) as [[_ H]|[N _]];
        [exact H|contradiction].
    + apply (recreate_raises w repo); [exact Hrepo|].
      now apply assemble_card_no_samples.
  - intros N E. split.
    + apply (recreate_raises w repo); [exact Hrepo|].
      now apply assemble_card_no_results.
    + destruct (build_card_metadata_cases (repo_files repo))
        as [[E' _]|(_ & m & _ & H)]; [contradiction|].
      eexists. split; [exact H|]. intros c s p Hl.
      apply listed_fill in Hl. rewrite E in Hl.
      destruct Hl as [(_ & f & [] & _)|Hl]. exact Hl.
Qed.

(** Lines 435-439 and 443-446 never reach the summary: it is the same
    whatever the configs, the results files, the latest datetime, the URL
    of the latest results file and the rendered results are. *)
Lemma dataset_summary_text_drops (self : Tracker) (repo_id task : string)
    (cm cm' : MetadataConfigs) (rf rf' : list string)
    (latest latest' url url' results_string results_string' : string) :
  dataset_summary_text self repo_id task cm rf latest url results_string
  = dataset_summary_text self repo_id task cm' rf' latest' url' results_string'.
Proof. reflexivity. Qed.

Lemma results_files_readme (files : list string) :
  results_files (files ++ ["README.md"]) = results_files files.
Proof. unfold results_files. rewrite List.filter_app. simpl. apply app_nil_r. Qed.

Lemma sample_files_readme (files : list string) :
  sample_files (files ++ ["README.md"]) = sample_files files.
Proof. unfold sample_files. rewrite List.filter_app. simpl. apply app_nil_r. Qed.

Lemma repo_files_push_to_hub (card : DatasetCard) (repo : Repo) :
  results_files (repo_files (push_to_hub card repo)) = results_files (repo_files repo)
  /\ sample_files (repo_files (push_to_hub card repo)) = sample_files (repo_files repo).
Proof.
  unfold push_to_hub. simpl. case_bool_decide; [now split|].
  split; [apply results_files_readme|apply sample_files_readme].
Qed.

Lemma push_to_hub_twice (card : DatasetCard) (repo : Repo) :
  push_to_hub card (push_to_hub card repo) = push_to_hub card repo.
Proof.
  unfold push_to_hub. simpl. f_equal.
  case_bool_decide as H; [reflexivity|]. exfalso. apply H.
  case_bool_decide as H'; [exact H'|]. apply elem_of_app. right. now left.
Qed.

(** C5: the configs of the card are the catalog of the listing, whatever
    the tracker holds and the external calls return; and a second call of
    the method, on the hub the first call leaves behind, yields the same
    outcome and the same hub, the tracker being untouched. *)
Theorem recreate_metadata_card_idempotent :
  (forall self repo_id files card,
      assemble self repo_id files = Ok card ->
      build_card_metadata files = Ok (configs card))
  /\ (forall w,
        recreate (fst (recreate w)) = (fst (recreate w), snd (recreate w))
        /\ self (fst (recreate w)) = self w).
Proof.
  split; [apply assemble_card_configs|].
  intros w. unfold recreate_metadata_card at 2 3 4 5.
  destruct (hub w !! repo_id_of (self w)) as [repo|] eqn:Hrepo.
  - destruct (assemble (self w) (repo_id_of (self w)) (repo_files repo))
      as [card|e] eqn:Hcard; simpl.
    + split; [|reflexivity].
      unfold recreate_metadata_card. simpl. rewrite lookup_insert_eq.
      destruct (repo_files_push_to_hub card repo) as [Hr Hs].
      rewrite (assemble_card_ext _ _ _ (repo_files repo)) by assumption.
      rewrite Hcard, insert_insert_eq, push_to_hub_twice. reflexivity.
    + split; [|reflexivity]. now apply (recreate_raises w repo).
  - simpl. split; [|reflexivity].
    unfold recreate_metadata_card. now rewrite Hrepo.
Qed.

End WithExternals.

(** C1, as stated, fails: with no file at all, and with results files
    only, the catalog is not built ([ValueError]); with sample files only
    the method raises [IndexError]. In each case the world is unchanged: no
    card reaches the hub. *)
Lemma empty_listing_fails :
  build_card_metadata [] = Raise ValueError
  /\ build_card_metadata listing_results_only = Raise ValueError
  /\ recreate_metadata_card example_hf_hub_url example_load_results
       example_json_dumps (example_world listing_results_only)
     = (example_world listing_results_only, Raise ValueError)
  /\ recreate_metadata_card example_hf_hub_url example_load_results
       example_json_dumps (example_world listing_samples_only)
     = (example_world listing_samples_only, Raise IndexError).
Proof. repeat split; vm_compute; reflexivity. Qed.

(** The theorem on the listings without sample files and without results
    files. *)
Lemma empty_listings_raise_witness :
  (recreate_metadata_card example_hf_hub_url example_load_results
     example_json_dumps (example_world listing_results_only)
   = (example_world listing_results_only, Raise ValueError))
  /\ (recreate_metadata_card example_hf_hub_url example_load_results
        example_json_dumps (example_world listing_samples_only)
      = (example_world listing_samples_only, Raise IndexError)).
Proof.
  split.
  - refine (proj2 (proj1 (empty_listings_raise example_hf_hub_url
             example_load_results example_json_dumps
             (example_world listing_results_only)
             {| repo_files := listing_results_only; readme := None |} _) _)).
    + vm_compute. reflexivity.
    + vm_compute. reflexivity.
  - refine (proj1 (proj2 (empty_listings_raise example_hf_hub_url
             example_load_results example_json_dumps
             (example_world listing_samples_only)
             {| repo_files := listing_samples_only; readme := None |} _) _ _)).
    + vm_compute. reflexivity.
    + vm_compute. discriminate.
    + vm_compute. reflexivity.
Defined.

(** The theorem on one run of one task: the card is assembled, and its
    configs are the catalog. *)
Lemma recreate_metadata_card_idempotent_witness :
  exists card,
    assemble_card example_hf_hub_url example_load_results example_json_dumps
      example_tracker "org/lm-eval-results-private" listing_one_run = Ok card
    /\ build_card_metadata listing_one_run = Ok (configs card).
Proof.
  eexists. split.
  - vm_compute. reflexivity.
  - refine (proj1 (recreate_metadata_card_idempotent example_hf_hub_url
             example_load_results example_json_dumps)
             example_tracker "org/lm-eval-results-private" listing_one_run _ _).
    vm_compute. reflexivity.
Defined.

(** C6 fails on the code: on one run of one task the summary of the card
    carries neither the number of configs, nor the number of runs, nor the
    results of the latest run; and no input changes that. *)
Theorem dataset_summary_lacks_counts_and_results :
  (exists card,
      assemble_card example_hf_hub_url example_load_results example_json_dumps
        example_tracker "org/lm-eval-results-private" listing_one_run = Ok card
      /\ contains "configuration(s)" (dataset_summary card) = false
      /\ contains "run(s)" (dataset_summary card) = false
      /\ contains "exact_match" (dataset_summary card) = false
      /\ example_json_dumps
           (JDict (dict_update [("all", JDict example_results)] example_results))
         = "{" ++ dq ++ "all" ++ dq ++ ": {" ++ dq ++ "gsm8k" ++ dq ++ ": {"
             ++ dq ++ "exact_match" ++ dq ++ ": 0.5}}, "
             ++ dq ++ "gsm8k" ++ dq ++ ": {" ++ dq ++ "exact_match" ++ dq
             ++ ": 0.5}}")
  /\ (forall self repo_id task cm cm' rf rf' latest latest' url url' rs rs',
        dataset_summary_text self repo_id task cm rf latest url rs
        = dataset_summary_text self repo_id task cm' rf' latest' url' rs').
Proof.
  split.
  - eexists. split; [vm_compute; reflexivity|].
    repeat split; vm_compute; reflexivity.
  - intros. apply dataset_summary_text_drops.
Qed.

End CardProofs.

(** ** Family configs and latest splits *)

Module SplitProofs.

Import Py Card PyProofs LatestProofs CatalogProofs BuildProofs.

(** The splits of a family config have distinct names, as long as no task
    is itself called like the family. *)
Lemma family_split_names_NoDup (latest : gmap string string) (max_latest : string)
    (rs ss : list string) (c : string) :
  is_special c = true ->
  (forall f, In f ss -> config_name f <> c) ->
  NoDup (split_names (config_of (fill_card_metadata latest max_latest rs ss) c)).
Proof.
  intros Hc Hne.
  apply (fill_config_ind (fun c' l => c' = c -> NoDup (split_names l))
           latest max_latest rs ss); [| | | |reflexivity].
  - intros c' _. apply NoDup_nil_2.
  - intros f l _ _ E. rewrite <- E in Hc. discriminate Hc.
  - intros f l Hf _ E. destruct (Hne f Hf E).
  - intros f c' l _ _ _ IH E. apply NoDup_split_names_merge_sample_file. auto.
Qed.

(** C4, as stated, fails: when a task is itself called [mmlu_] and a
    member of the family is listed before it, config ["mmlu_"] ends with a
    second split for the one timestamp (and a second ["latest"]): the step
    of the task's own config appends a split without looking for one of
    that name, and only then does the family step merge. *)
Lemma family_task_second_split :
  config_name "EleutherAI__pythia-70m/samples_mmlu__2024-01-01T00-00-00.json"
  = "mmlu_"
  /\ built_config listing_family_task "mmlu_"
     = Some [DataFile "2024_01_01T00_00_00"
               ["**/samples_mmlu_anatomy_2024-01-01T00-00-00.json";
                "**/samples_mmlu__2024-01-01T00-00-00.json"];
             DataFile "latest"
               ["**/samples_mmlu_anatomy_2024-01-01T00-00-00.json";
                "**/samples_mmlu__2024-01-01T00-00-00.json"];
             DataFile "2024_01_01T00_00_00"
               ["**/samples_mmlu__2024-01-01T00-00-00.json"];
             DataFile "latest"
               ["**/samples_mmlu__2024-01-01T00-00-00.json"]].
Proof. split; vm_compute; reflexivity. Qed.

(** C4, amended: the two [mmlu_] members of one run share one split of
    config ["mmlu_"], named by the sanitized timestamp and holding both
    paths (next to one ["latest"] split, filled likewise); entering a path
    under a name the config already has adds no split, the first split of
    that name taking the path; and a family config has no two splits of one
    name provided no task of the listing is itself called like the family,
    its sanitized name being the family prefix. *)
Theorem family_config_merges_splits :
  built_config listing_mmlu "mmlu_"
  = Some [DataFile "2024_01_01T00_00_00"
            ["**/samples_mmlu_abstract_algebra_2024-01-01T00-00-00.json";
             "**/samples_mmlu_world_religions_2024-01-01T00-00-00.json"];
          DataFile "latest"
            ["**/samples_mmlu_abstract_algebra_2024-01-01T00-00-00.json";
             "**/samples_mmlu_world_religions_2024-01-01T00-00-00.json"]]
  /\ (forall name p l,
        (name ∈ split_names l ->
         split_names (upsert_split name p l) = split_names l
         /\ exists l1 e l2,
             l = (l1 ++ e :: l2)%list /\ split e = name
             /\ (name ∉ split_names l1)
             /\ upsert_split name p l = (l1 ++ append_path p e :: l2)%list)
        /\ (name ∉ split_names l ->
            upsert_split name p l = (l ++ [DataFile name [p]])%list))
  /\ (forall files cm c,
        build_card_metadata files = Ok cm ->
        is_special c = true ->
        (forall f, In f (sample_files files) -> config_name f <> c) ->
        NoDup (split_names (config_of cm c))).
Proof.
  split; [|split].
  - vm_compute. reflexivity.
  - intros name p l. split.
    + intros Hn. split; [|now apply upsert_split_present].
      rewrite split_names_upsert_split. now rewrite bool_decide_eq_true_2.
    + apply upsert_split_absent.
  - intros files cm c Hb Hc Hne.
    destruct (build_card_metadata_cases files) as [[_ H]|(_ & m & _ & H)];
      rewrite H in Hb; [discriminate|].
    injection Hb as <-. now apply family_split_names_NoDup.
Qed.

(** The theorem on the two [mmlu_] members. *)
Lemma family_config_merges_splits_witness :
  exists cm,
    build_card_metadata listing_mmlu = Ok cm
    /\ is_special "mmlu_" = true
    /\ (forall f, In f (sample_files listing_mmlu) -> config_name f <> "mmlu_")
    /\ NoDup (split_names (config_of cm "mmlu_")).
Proof.
  assert (Hne : forall f, In f (sample_files listing_mmlu) ->
                          config_name f <> "mmlu_").
  { intros f Hf. vm_compute in Hf. destruct Hf as [<-|[<-|[]]];
      vm_compute; discriminate. }
  destruct (build_card_metadata_ok listing_mmlu) as [cm Hb];
    [vm_compute; discriminate|].
  exists cm. split; [exact Hb|]. split; [reflexivity|]. split; [exact Hne|].
  exact (proj2 (proj2 family_config_merges_splits)
           listing_mmlu cm "mmlu_" Hb eq_refl Hne).
Defined.

(** C3, as stated, fails: for a run stamped [0001-01-01T00-00-00] the dict
    holds [0001-01-01T00:00:00], the floor it starts from, which is none of
    the task's timestamps. *)
Lemma latest_is_not_a_timestamp :
  dates_of "gsm8k" listing_year_one = ["0001-01-01T00-00-00"]
  /\ latest_task_results_datetime listing_year_one !! "gsm8k"
     = Some "0001-01-01T00:00:00"
  /\ ~ greatest "0001-01-01T00:00:00" (dates_of "gsm8k" listing_year_one).
Proof.
  split; [reflexivity|]. split; [vm_compute; reflexivity|].
  intros [Hin _]. vm_compute in Hin. destruct Hin as [H|[]]. discriminate H.
Qed.

Lemma greatest_above_floor (v floor : string) (l : list string) :
  greatest v (floor :: l) ->
  (exists d, In d l /\ String.leb floor d = true) ->
  greatest v l.
Proof.
  intros [Hin Hub] (d & Hd & Hle). split.
  - destruct Hin as [<-|Hin]; [|exact Hin].
    assert (E : d = floor).
    { apply String.leb_antisym; [|exact Hle]. apply Hub. now right. }
    now rewrite <- E.
  - intros e He. apply Hub. now right.
Qed.

(** C3, amended: for every task of the listing the dict holds the
    greatest, in code-point order, of [0001-01-01T00:00:00] and the task's
    timestamps, hence the greatest timestamp as soon as one of them is no
    smaller than that floor; the dict does not depend on the order of the
    listing; and a path in a ["latest"] split of a config other than
    ["results"] is that of a sample file of the config whose sanitized
    timestamp equals the sanitized dict value of its task (or reads
    ["latest"] itself). With two runs of [gsm8k] only the later one is in
    split ["latest"]. *)
Theorem latest_split_holds_greatest_timestamp :
  (forall ss f, In f ss ->
      exists v,
        latest_task_results_datetime ss !! task_of f = Some v
        /\ greatest v (datetime_min_isoformat :: dates_of (task_of f) ss)
        /\ ((exists d, In d (dates_of (task_of f) ss)
                       /\ String.leb datetime_min_isoformat d = true) ->
            greatest v (dates_of (task_of f) ss)))
  /\ (forall ss ss', Permutation ss ss' ->
        latest_task_results_datetime ss = latest_task_results_datetime ss')
  /\ (forall files cm c p,
        build_card_metadata files = Ok cm ->
        c <> "results" ->
        listed cm c "latest" p ->
        exists f,
          In f (sample_files files) /\ in_config f c /\ p = sample_path f
          /\ (split_name f
              = sanitize_date
                  (latest_of (latest_task_results_datetime (sample_files files))
                     (task_of f))
              \/ split_name f = "latest"))
  /\ built_config listing_two_runs "gsm8k"
     = Some [DataFile "2024_01_01T00_00_00"
               ["**/samples_gsm8k_2024-01-01T00-00-00.json"];
             DataFile "2024_02_01T00_00_00"
               ["**/samples_gsm8k_2024-02-01T00-00-00.json"];
             DataFile "latest"
               ["**/samples_gsm8k_2024-02-01T00-00-00.json"]].
Proof.
  split; [|split; [|split]].
  - intros ss f Hf.
    assert (Hsome : is_Some (latest_task_results_datetime ss !! task_of f)).
    { apply latest_lookup_fold. right. now exists f. }
    destruct Hsome as [v Hv]. exists v. split; [exact Hv|].
    assert (Hg : greatest v (datetime_min_isoformat :: dates_of (task_of f) ss)).
    { assert (E : v = latest_of (latest_task_results_datetime ss) (task_of f)).
      { unfold latest_of. now rewrite Hv. }
      rewrite E. unfold latest_task_results_datetime.
      rewrite latest_of_fold, latest_of_empty. apply fold_max_greatest. }
    split; [exact Hg|]. now apply greatest_above_floor.
  - apply latest_permutation.
  - intros files cm c p Hb Hc Hl.
    destruct (build_card_metadata_cases files) as [[_ H]|(_ & m & _ & H)];
      rewrite H in Hb; [discriminate|].
    injection Hb as <-. apply listed_fill in Hl.
    destruct Hl as [[E _]|(f & Hf & Hin & -> & Hs)]; [contradiction|].
    exists f. split; [exact Hf|]. split; [exact Hin|]. split; [reflexivity|].
    destruct Hs as [Hs|[_ Hs]]; [now right|].
    left. now apply String.eqb_eq.
  - vm_compute. reflexivity.
Qed.

(** The theorem on the two runs of [gsm8k]: the dict holds the later
    timestamp, in either order of the listing, and the path in split
    ["latest"] is that of the later run. *)
Lemma latest_split_holds_greatest_timestamp_witness :
  (exists v,
      latest_task_results_datetime listing_two_runs !! "gsm8k" = Some v
      /\ greatest v (dates_of "gsm8k" listing_two_runs))
  /\ latest_task_results_datetime listing_two_runs
     = latest_task_results_datetime (rev listing_two_runs)
  /\ (exists cm f,
        build_card_metadata listing_two_runs = Ok cm
        /\ listed cm "gsm8k" "latest" "**/samples_gsm8k_2024-02-01T00-00-00.json"
        /\ In f (sample_files listing_two_runs)
        /\ "**/samples_gsm8k_2024-02-01T00-00-00.json" = sample_path f).
Proof.
  split; [|split].
  - assert (Hin : In "EleutherAI__pythia-70m/samples_gsm8k_2024-02-01T00-00-00.json"
                    listing_two_runs) by (vm_compute; auto).
    destruct (proj1 latest_split_holds_greatest_timestamp listing_two_runs _ Hin)
      as (v & Hv & _ & Hg).
    exists v. split; [exact Hv|]. apply Hg.
    exists "2024-02-01T00-00-00". split; vm_compute; auto.
  - apply (proj1 (proj2 latest_split_holds_greatest_timestamp)).
    apply Permutation_rev.
  - destruct (build_card_metadata_ok listing_two_runs) as [cm Hb];
      [vm_compute; discriminate|].
    assert (Hl : listed cm "gsm8k" "latest"
                   "**/samples_gsm8k_2024-02-01T00-00-00.json").
    { destruct (built_config_lookup listing_two_runs cm "gsm8k" _ Hb
                  (proj2 (proj2 (proj2 latest_split_holds_greatest_timestamp))))
        as [_ Hc].
      unfold listed. rewrite Hc. eexists.
      split; [right; right; left; reflexivity|].
      split; [reflexivity|]. left. reflexivity. }
    destruct (proj1 (proj2 (proj2 latest_split_holds_greatest_timestamp))
                listing_two_runs cm "gsm8k" _ Hb ltac:(discriminate) Hl)
      as (f & Hf & _ & Hp & _).
    exists cm, f. split; [exact Hb|]. split; [exact Hl|].
    split; [exact Hf|exact Hp].
Defined.

End SplitProofs.

(** ** Catalogs without duplicates *)

Module DistinctProofs.

Import Py Card PyProofs LatestProofs CatalogProofs BuildProofs.

(** *** Every split has a path *)

Lemma Forall_append_split (P : data_file -> Prop) (n p : string)
    (l : list data_file) :
  Forall P l -> P (DataFile n [p]) -> Forall P (append_split n p l).
Proof.
  intros Hl Hn. unfold append_split. apply Forall_app. split; [exact Hl|].
  now constructor.
Qed.

Lemma Forall_upsert_split (P : data_file -> Prop) (n p : string)
    (l : list data_file) :
  (forall e, In e l -> split e = n -> P e -> P (append_path p e)) ->
  P (DataFile n [p]) -> Forall P l -> Forall P (upsert_split n p l).
Proof.
  intros Happ Hn Hl. induction Hl as [|e l He Hl IH].
  - rewrite upsert_split_nil. now constructor.
  - rewrite upsert_split_cons.
    destruct (String.eqb_spec (split e) n) as [E|N].
    + constructor; [|exact Hl]. apply Happ; [now left|exact E|exact He].
    + constructor; [exact He|]. apply IH.
      intros x Hx. apply Happ. now right.
Qed.

Lemma paths_nonempty (latest : gmap string string) (max_latest : string)
    (rs ss : list string) (c : string) :
  Forall (fun e => path e <> [])
    (config_of (fill_card_metadata latest max_latest rs ss) c).
Proof.
  apply (fill_config_ind (fun _ l => Forall (fun e => path e <> []) l)).
  - intros _. constructor.
  - intros f l _ H. unfold add_results_file.
    destruct (String.eqb _ _); repeat apply Forall_append_split;
      try exact H; discriminate.
  - intros f l _ H. unfold add_sample_file.
    destruct (is_latest _ _); repeat apply Forall_append_split;
      try exact H; discriminate.
  - intros f c' l _ _ _ H. unfold merge_sample_file.
    assert (Happ : forall (q : string) e,
               path e <> [] -> path (append_path q e) <> []).
    { intros q e _. simpl. now destruct (path e). }
    destruct (is_latest _ _); repeat apply Forall_upsert_split;
      try exact H; try discriminate; intros; now apply Happ.
Qed.

(** A split name of a config is the name of a split with a path in it. *)
Lemma named_listed (latest : gmap string string) (max_latest : string)
    (rs ss : list string) (c s : string) :
  s ∈ split_names (config_of (fill_card_metadata latest max_latest rs ss) c) ->
  exists p, listed (fill_card_metadata latest max_latest rs ss) c s p.
Proof.
  intros Hs. apply list_elem_of_In, in_map_iff in Hs.
  destruct Hs as (e & Hse & He).
  pose proof (paths_nonempty latest max_latest rs ss c) as Hne.
  rewrite Forall_forall in Hne. specialize (Hne e (proj2 (list_elem_of_In _ _) He)).
  destruct (path e) as [|p ps] eqn:Hp; [congruence|].
  exists p, e. split; [exact He|]. split; [exact Hse|]. rewrite Hp. now left.
Qed.

(** *** Adding splits and paths without duplicates *)

Lemma NoDup_split_names_append_split (n p : string) (l : list data_file) :
  NoDup (split_names l) -> n ∉ split_names l ->
  NoDup (split_names (append_split n p l)).
Proof.
  intros Hl Hn. rewrite split_names_append_split. apply NoDup_app.
  split; [exact Hl|]. split; [|apply NoDup_singleton].
  intros x Hx Hx'. apply list_elem_of_singleton in Hx'. congruence.
Qed.

(** The shape of [add_results_file] and [add_sample_file]: a split called
    [n], and a split ["latest"] when [b] holds. *)
Lemma NoDup_split_names_add (n p : string) (b : bool) (l : list data_file) :
  NoDup (split_names l) -> n ∉ split_names l -> n <> "latest" ->
  (b = true -> "latest" ∉ split_names l) ->
  NoDup (split_names (if b then append_split "latest" p (append_split n p l)
                      else append_split n p l)).
Proof.
  intros Hl Hn Hnl Hb.
  assert (H1 : NoDup (split_names (append_split n p l)))
    by now apply NoDup_split_names_append_split.
  destruct b; [|exact H1].
  apply NoDup_split_names_append_split; [exact H1|].
  rewrite split_names_append_split. intros H. apply elem_of_app in H.
  destruct H as [H|H]; [now apply Hb|].
  apply list_elem_of_singleton in H. congruence.
Qed.

Lemma NoDup_paths_add (n p : string) (b : bool) (l : list data_file) :
  Forall (fun e => NoDup (path e)) l ->
  Forall (fun e => NoDup (path e))
    (if b then append_split "latest" p (append_split n p l)
     else append_split n p l).
Proof.
  intros Hl. destruct b; repeat apply Forall_append_split;
    try exact Hl; apply NoDup_singleton.
Qed.

Lemma NoDup_paths_upsert_split (n p : string) (l : list data_file) :
  Forall (fun e => NoDup (path e)) l -> ~ listed_in l n p ->
  Forall (fun e => NoDup (path e)) (upsert_split n p l).
Proof.
  intros Hl Hp. apply Forall_upsert_split; [|apply NoDup_singleton|exact Hl].
  intros e He Hse Hnd. simpl. apply NoDup_app.
  split; [exact Hnd|]. split; [|apply NoDup_singleton].
  intros x Hx Hx'. apply list_elem_of_singleton in Hx'. subst x.
  apply Hp. exists e. split; [exact He|]. split; [exact Hse|].
  now apply list_elem_of_In.
Qed.

Lemma NoDup_paths_merge_sample_file (latest : gmap string string) (f : string)
    (l : list data_file) :
  Forall (fun e => NoDup (path e)) l ->
  (forall s, ~ listed_in l s (sample_path f)) ->
  split_name f <> "latest" ->
  Forall (fun e => NoDup (path e)) (merge_sample_file latest f l).
Proof.
  intros Hl Hfresh Hnl. unfold merge_sample_file.
  assert (H1 : Forall (fun e => NoDup (path e))
                 (upsert_split (split_name f) (sample_path f) l))
    by (apply NoDup_paths_upsert_split; [exact Hl|apply Hfresh]).
  destruct (is_latest latest f); [|exact H1].
  apply NoDup_paths_upsert_split; [exact H1|].
  rewrite listed_in_upsert_split. intros [H|[H _]]; [now apply (Hfresh "latest")|].
  congruence.
Qed.

(** *** Files that claim different places *)

Lemma sample_path_key (f g : string) :
  sample_path f = sample_path g -> sample_key f = sample_key g.
Proof.
  unfold sample_path. intros H. apply path_join_stars_inj in H.
  rewrite !basename_idempotent in H.
  unfold sample_key, config_name, split_name, task_of, date_of. now rewrite H.
Qed.

Lemma distinct_listing_results_only (rs ss : list string) :
  distinct_listing rs ss -> distinct_listing rs [].
Proof.
  intros [H1 H2 H3 H4 H5]. split.
  - exact H1.
  - constructor.
  - intros f g [].
  - intros f Hf. apply H4. rewrite app_nil_r in Hf. apply in_or_app. now left.
  - intros f [].
Qed.

Lemma distinct_listing_results_snoc (rs : list string) (f : string) :
  distinct_listing (rs ++ [f]) [] ->
  distinct_listing rs []
  /\ (split_name f ∉ List.map split_name rs)
  /\ split_name f <> "latest".
Proof.
  intros [H1 H2 H3 H4 H5]. rewrite List.map_app in H1. apply NoDup_app in H1.
  destruct H1 as (H1 & Hd & _). split; [|split].
  - split; [exact H1|exact H2|exact H3| |exact H5].
    intros g Hg. apply H4. rewrite app_nil_r in *. apply in_or_app. now left.
  - intros Hf. apply (Hd _ Hf). now left.
  - apply H4. rewrite app_nil_r. apply in_or_app. right. now left.
Qed.

Lemma distinct_listing_samples_snoc (rs ss : list string) (f : string) :
  distinct_listing rs (ss ++ [f]) ->
  distinct_listing rs ss
  /\ (sample_key f ∉ List.map sample_key ss)
  /\ split_name f <> "latest"
  /\ config_name f <> "results"
  /\ is_special (config_name f) = false
  /\ (forall g, In g ss -> config_name f = config_name g ->
                task_of f = task_of g).
Proof.
  intros [H1 H2 H3 H4 H5]. rewrite List.map_app in H2. apply NoDup_app in H2.
  destruct H2 as (H2 & Hd & _).
  assert (Hf : In f (ss ++ [f])) by (apply in_or_app; right; now left).
  split; [|split; [|split; [|split; [|split]]]].
  - split; [exact H1|exact H2| | |].
    + intros g h Hg Hh. apply H3; apply in_or_app; now left.
    + intros g Hg. apply H4. apply in_app_or in Hg.
      apply in_or_app. destruct Hg as [Hg|Hg]; [now left|].
      right. apply in_or_app. now left.
    + intros g Hg. apply H5. apply in_or_app. now left.
  - intros Hk. apply (Hd _ Hk). now left.
  - apply H4. apply in_or_app. now right.
  - apply (H5 f Hf).
  - apply (H5 f Hf).
  - intros g Hg. apply H3; [exact Hf|]. apply in_or_app. now left.
Qed.

(** Where a split name of a config comes from. *)
Lemma named_origin (latest : gmap string string) (max_latest : string)
    (rs ss : list string) (c s : string) :
  s ∈ split_names (config_of (fill_card_metadata latest max_latest rs ss) c) ->
  (c = "results"
   /\ exists f, In f rs
        /\ (s = split_name f
            \/ (s = "latest" /\ split_name f = sanitize_date max_latest)))
  \/ (exists f, In f ss /\ in_config f c
        /\ (s = split_name f \/ (s = "latest" /\ is_latest latest f = true))).
Proof.
  intros Hs. apply named_listed in Hs. destruct Hs as [p Hp].
  apply listed_fill in Hp.
  destruct Hp as [(E & f & Hf & _ & H)|(f & Hf & Hc & _ & H)].
  - left. split; [exact E|]. now exists f.
  - right. now exists f.
Qed.

Lemma in_map_elem_of {A B} (h : A -> B) (x : A) (l : list A) :
  In x l -> h x ∈ List.map h l.
Proof. intros H. apply list_elem_of_In. now apply in_map. Qed.

(** *** The results loop *)

Lemma without_duplicates_results (latest : gmap string string)
    (max_latest : string) (rs : list string) :
  distinct_listing rs [] ->
  without_duplicates (fill_card_metadata latest max_latest rs []).
Proof.
  induction rs as [|f rs IH] using rev_ind; intros Hd c.
  - unfold fill_card_metadata. simpl. rewrite config_of_empty.
    split; constructor.
  - apply distinct_listing_results_snoc in Hd.
    destruct Hd as (Hd & Hfresh & Hnl). specialize (IH Hd).
    rewrite fill_results_snoc, config_of_results_step.
    destruct (decide ("results" = c)) as [<-|N]; [|apply IH].
    destruct (IH "results") as [Hnames Hpaths].
    unfold add_results_file. cbv zeta. split.
    + apply NoDup_split_names_add; [exact Hnames| |exact Hnl|].
      * intros Hin. apply named_origin in Hin.
        destruct Hin as [(_ & g & Hg & [E|[E _]])|(g & [] & _)].
        -- apply Hfresh. rewrite E. now apply in_map_elem_of.
        -- congruence.
      * intros Hb Hin. apply String.eqb_eq in Hb. apply named_origin in Hin.
        destruct Hin as [(_ & g & Hg & [E|[_ E]])|(g & [] & _)].
        -- destruct Hd as [_ _ _ H4 _]. apply (H4 g); [|now symmetry].
           apply in_or_app. now left.
        -- apply Hfresh. rewrite Hb, <- E. now apply in_map_elem_of.
    + now apply NoDup_paths_add.
Qed.

(** *** The sample loop *)

Lemma without_duplicates_fill (latest : gmap string string)
    (max_latest : string) (rs ss : list string) :
  distinct_listing rs ss ->
  without_duplicates (fill_card_metadata latest max_latest rs ss).
Proof.
  induction ss as [|f ss IH] using rev_ind; intros Hd.
  - apply without_duplicates_results. exact Hd.
  - apply distinct_listing_samples_snoc in Hd.
    destruct Hd as (Hd & Hfresh & Hnl & Hres & Hsp & Htask).
    specialize (IH Hd). intros c.
    rewrite fill_snoc, config_of_sample_step. cbv zeta.
    destruct (IH c) as [Hnames Hpaths].
    destruct (decide (config_name f = c)) as [<-|N].
    + (* the config of the task: never a family, by the listing *)
      rewrite Hsp. simpl. unfold add_sample_file. cbv zeta. split.
      * apply NoDup_split_names_add; [exact Hnames| |exact Hnl|].
        -- intros Hin. apply named_origin in Hin.
           destruct Hin as [(E & _)|(g & Hg & [Hc|[Hc _]] & [E|[E _]])];
             try congruence.
           apply Hfresh. unfold sample_key. rewrite Hc, E.
           now apply (in_map_elem_of sample_key).
        -- intros Hb Hin. apply named_origin in Hin.
           destruct Hin as [(E & _)|(g & Hg & [Hc|[Hc _]] & [E|[_ E]])];
             try congruence.
           ++ destruct Hd as [_ _ _ H4 _]. apply (H4 g); [|now symmetry].
              apply in_or_app. now right.
           ++ apply Hfresh. unfold sample_key. rewrite Hc.
              unfold is_latest in Hb, E.
              apply String.eqb_eq in Hb, E.
              rewrite Hb, (Htask g Hg Hc), <- E.
              now apply (in_map_elem_of sample_key).
      * now apply NoDup_paths_add.
    + destruct (is_special c) eqn:Hc; simpl; [|now split].
      destruct (contains c (config_name f)) eqn:Hin; [|now split].
      split.
      * now apply NoDup_split_names_merge_sample_file.
      * apply NoDup_paths_merge_sample_file; [exact Hpaths| |exact Hnl].
        intros s Hl.
        change (listed (fill_card_metadata latest max_latest rs ss) c s
                  (sample_path f)) in Hl.
        apply listed_fill in Hl.
        destruct Hl as [(E & _)|(g & Hg & _ & E & _)].
        -- rewrite E in Hc. discriminate Hc.
        -- apply Hfresh. rewrite (sample_path_key f g E).
           now apply (in_map_elem_of sample_key).
Qed.

(** *** The names of configs and splits *)

Lemma lookup_update_is_Some (c c' : string) g (cm : MetadataConfigs) :
  is_Some (update c g cm !! c') <-> c = c' \/ is_Some (cm !! c').
Proof.
  unfold update. rewrite lookup_insert_is_Some'. tauto.
Qed.

Lemma lookup_specials_is_Some g (st : string) (specials : list string)
    (cm : MetadataConfigs) (c : string) :
  is_Some
    (fold_left (fun cm c => if contains c st then update c g cm else cm)
       specials cm !! c) ->
  is_Some (cm !! c)
  \/ (existsb (String.eqb c) specials = true /\ contains c st = true).
Proof.
  revert cm. induction specials as [|x specials IH]; intros cm; simpl fold_left.
  - now left.
  - intros H. apply IH in H. simpl existsb.
    destruct H as [H|[H1 H2]].
    + destruct (contains x st) eqn:E; [|now left].
      apply lookup_update_is_Some in H. destruct H as [->|H]; [|now left].
      right. now rewrite String.eqb_refl.
    + right. rewrite H1. split; [apply orb_true_r|exact H2].
Qed.

(** The configs of the catalog: ["results"], the tasks and the families. *)
Lemma lookup_fill_is_Some (latest : gmap string string) (max_latest : string)
    (rs ss : list string) (c : string) :
  is_Some (fill_card_metadata latest max_latest rs ss !! c) ->
  c = "results" \/ exists f, In f ss /\ in_config f c.
Proof.
  induction ss as [|f ss IHs] using rev_ind.
  - induction rs as [|f rs IHr] using rev_ind.
    + unfold fill_card_metadata. simpl. rewrite lookup_empty.
      intros [x Hx]. discriminate Hx.
    + rewrite fill_results_snoc, results_step_update, lookup_update_is_Some.
      intros [<-|H]; [now left|now apply IHr].
  - rewrite fill_snoc, sample_step_update. intros H.
    apply lookup_specials_is_Some in H.
    assert (Hf : In f (ss ++ [f])) by (apply in_or_app; right; now left).
    destruct H as [H|[H1 H2]].
    + apply lookup_update_is_Some in H. destruct H as [<-|H].
      * right. exists f. split; [exact Hf|now left].
      * destruct (IHs H) as [E|(g & Hg & Hc)]; [now left|].
        right. exists g. split; [apply in_or_app; now left|exact Hc].
    + right. exists f. split; [exact Hf|]. right. now split.
Qed.

Lemma is_special_sanitized (c : string) :
  is_special c = true -> sanitize_task c = c.
Proof.
  unfold is_special, SPECIAL_TASKS. simpl existsb.
  destruct (String.eqb_spec c "mmlu_") as [->|_]; [reflexivity|].
  destruct (String.eqb_spec c "gpqa_") as [->|_]; [reflexivity|].
  destruct (String.eqb_spec c "math_") as [->|_]; [reflexivity|].
  discriminate.
Qed.

Lemma config_name_sanitized (f : string) :
  sanitize_task (config_name f) = config_name f.
Proof. apply sub_nonword_idempotent. Qed.

Lemma split_name_sanitized (f : string) :
  sanitize_date (split_name f) = split_name f.
Proof. apply sub_nonword_nondot_idempotent. Qed.

(** C2, as stated, fails: with two models evaluated on one task and their
    runs stamped alike, config ["mmlu_anatomy"] has two splits of each name
    and the splits of config ["mmlu_"] hold one path twice; and the split of
    a run stamped with microseconds keeps its dot, which is not a word
    character. *)
Lemma catalog_with_duplicates :
  built_config listing_two_models "mmlu_anatomy"
  = Some [DataFile "2024_01_01T00_00_00"
            ["**/samples_mmlu_anatomy_2024-01-01T00-00-00.json"];
          DataFile "latest"
            ["**/samples_mmlu_anatomy_2024-01-01T00-00-00.json"];
          DataFile "2024_01_01T00_00_00"
            ["**/samples_mmlu_anatomy_2024-01-01T00-00-00.json"];
          DataFile "latest"
            ["**/samples_mmlu_anatomy_2024-01-01T00-00-00.json"]]
  /\ built_config listing_two_models "mmlu_"
     = Some [DataFile "2024_01_01T00_00_00"
               ["**/samples_mmlu_anatomy_2024-01-01T00-00-00.json";
                "**/samples_mmlu_anatomy_2024-01-01T00-00-00.json"];
             DataFile "latest"
               ["**/samples_mmlu_anatomy_2024-01-01T00-00-00.json";
                "**/samples_mmlu_anatomy_2024-01-01T00-00-00.json"]]
  /\ (forall cm,
        build_card_metadata listing_two_models = Ok cm ->
        ~ NoDup (split_names (config_of cm "mmlu_anatomy"))
        /\ ~ Forall (fun e => NoDup (path e)) (config_of cm "mmlu_"))
  /\ built_config listing_microseconds "gsm8k"
     = Some [DataFile "2024_01_01T00_00_00.123456"
               ["**/samples_gsm8k_2024-01-01T00-00-00.123456.json"];
             DataFile "latest"
               ["**/samples_gsm8k_2024-01-01T00-00-00.123456.json"]]
  /\ sub_nonword "2024_01_01T00_00_00.123456" = "2024_01_01T00_00_00_123456".
Proof.
  assert (H1 : built_config listing_two_models "mmlu_anatomy"
               = Some [DataFile "2024_01_01T00_00_00"
                         ["**/samples_mmlu_anatomy_2024-01-01T00-00-00.json"];
                       DataFile "latest"
                         ["**/samples_mmlu_anatomy_2024-01-01T00-00-00.json"];
                       DataFile "2024_01_01T00_00_00"
                         ["**/samples_mmlu_anatomy_2024-01-01T00-00-00.json"];
                       DataFile "latest"
                         ["**/samples_mmlu_anatomy_2024-01-01T00-00-00.json"]])
    by (vm_compute; reflexivity).
  assert (H2 : built_config listing_two_models "mmlu_"
               = Some [DataFile "2024_01_01T00_00_00"
                         ["**/samples_mmlu_anatomy_2024-01-01T00-00-00.json";
                          "**/samples_mmlu_anatomy_2024-01-01T00-00-00.json"];
                       DataFile "latest"
                         ["**/samples_mmlu_anatomy_2024-01-01T00-00-00.json";
                          "**/samples_mmlu_anatomy_2024-01-01T00-00-00.json"]])
    by (vm_compute; reflexivity).
  split; [exact H1|]. split; [exact H2|]. split; [|split].
  - intros cm Hb.
    destruct (built_config_lookup _ cm _ _ Hb H1) as [_ E1].
    destruct (built_config_lookup _ cm _ _ Hb H2) as [_ E2].
    rewrite E1, E2. split.
    + intros H. apply NoDup_cons in H. destruct H as [H _].
      apply H. right. left.
    + intros H. apply Forall_cons in H. destruct H as [H _].
      apply NoDup_cons in H. destruct H as [H _]. apply H. left.
  - vm_compute. reflexivity.
  - vm_compute. reflexivity.
Qed.

(** C2, amended: the name of every config is left unchanged by the
    substitution of ['_'] for non-word characters; the name of every split
    is ["latest"] or the timestamp of a listed file in which every character
    other than a word character and ['.'] is replaced by ['_']; and in the
    catalog of a listing whose files claim different places no config has
    two splits of one name and no split holds a path twice. *)
Theorem catalog_names_and_duplicates (files : list string) (cm : MetadataConfigs) :
  build_card_metadata files = Ok cm ->
  (forall c, is_Some (cm !! c) -> sanitize_task c = c)
  /\ (forall c e, In e (config_of cm c) ->
        sanitize_date (split e) = split e
        /\ (split e = "latest" \/ exists f, In f files /\ split e = split_name f))
  /\ (distinct_listing (results_files files) (sample_files files) ->
      without_duplicates cm).
Proof.
  intros Hb.
  destruct (build_card_metadata_cases files) as [[_ H]|(_ & m & _ & H)];
    rewrite H in Hb; [discriminate|].
  injection Hb as <-. split; [|split].
  - intros c Hc. apply lookup_fill_is_Some in Hc.
    destruct Hc as [->|(f & _ & [->|[Hsp _]])].
    + reflexivity.
    + apply config_name_sanitized.
    + now apply is_special_sanitized.
  - intros c e He.
    assert (Hn : split e ∈ split_names
                   (config_of (fill_card_metadata
                      (latest_task_results_datetime (sample_files files)) m
                      (results_files files) (sample_files files)) c)).
    { apply list_elem_of_In. now apply in_map. }
    apply named_origin in Hn.
    destruct Hn as [(_ & f & Hf & Hs)|(f & Hf & _ & Hs)];
      [apply results_files_In in Hf|apply sample_files_In in Hf];
      destruct Hf as [Hf _];
      (destruct Hs as [Hs|[Hs _]]; rewrite Hs;
       [split; [apply split_name_sanitized|right; now exists f]
       |split; [reflexivity|now left]]).
  - apply without_duplicates_fill.
Qed.

(** The theorem on two runs: the listing's files claim different places,
    and the catalog has no duplicates. *)
Lemma catalog_names_and_duplicates_witness :
  exists cm,
    build_card_metadata listing_two_full_runs = Ok cm
    /\ distinct_listing (results_files listing_two_full_runs)
         (sample_files listing_two_full_runs)
    /\ without_duplicates cm.
Proof.
  assert (Hd : distinct_listing (results_files listing_two_full_runs)
                 (sample_files listing_two_full_runs)).
  { split.
    - apply (bool_decide_unpack _). vm_compute. reflexivity.
    - apply (bool_decide_unpack _). vm_compute. reflexivity.
    - intros f g Hf Hg. vm_compute in Hf, Hg.
      repeat (destruct Hf as [<-|Hf]); try destruct Hf;
        repeat (destruct Hg as [<-|Hg]); try destruct Hg;
        vm_compute; intros H; first [reflexivity|discriminate H].
    - intros f Hf. vm_compute in Hf.
      repeat (destruct Hf as [<-|Hf]); try destruct Hf;
        vm_compute; discriminate.
    - intros f Hf. vm_compute in Hf.
      repeat (destruct Hf as [<-|Hf]); try destruct Hf;
        vm_compute; split; first [reflexivity|discriminate]. }
  destruct (build_card_metadata_ok listing_two_full_runs) as [cm Hb];
    [vm_compute; discriminate|].
  exists cm. split; [exact Hb|]. split; [exact Hd|].
  exact (proj2 (proj2 (catalog_names_and_duplicates listing_two_full_runs cm Hb)) Hd).
Defined.

End DistinctProofs.

(** ** More on Python's strings *)

Module StringProofs.

Import Py PyProofs.

Lemma append_cons (c : ascii) (s t : string) :
  String c s ++ t = String c (s ++ t).
Proof. reflexivity. Qed.

Lemma append_nil_l (s : string) : "" ++ s = s.
Proof. reflexivity. Qed.

Lemma append_nil_r (s : string) : s ++ "" = s.
Proof.
  induction s as [|c s IH]; [reflexivity|]. now rewrite append_cons, IH.
Qed.

Lemma append_assoc (a b c : string) : (a ++ b) ++ c = a ++ (b ++ c).
Proof.
  induction a as [|x a IH]; [reflexivity|]. now rewrite !append_cons, IH.
Qed.

Lemma length_append (a b : string) :
  String.length (a ++ b) = (String.length a + String.length b)%nat.
Proof.
  induction a as [|x a IH]; [reflexivity|].
  rewrite append_cons. cbn [String.length]. now rewrite IH.
Qed.

Lemma append_inv_length (a a' b b' : string) :
  String.length a = String.length a' -> a ++ b = a' ++ b' -> a = a' /\ b = b'.
Proof.
  revert a'. induction a as [|x a IH]; intros [|x' a'] Hlen H;
    try discriminate Hlen.
  - now split.
  - rewrite !append_cons in H. injection H as -> H.
    injection Hlen as Hlen. destruct (IH a' Hlen H) as [-> ->]. now split.
Qed.

(** *** Prefixes and occurrences *)

Lemma prefix_nil (s : string) : String.prefix "" s = true.
Proof. now destruct s. Qed.

Lemma prefix_cons (a c : ascii) (t s : string) :
  String.prefix (String a t) (String c s) = Ascii.eqb a c && String.prefix t s.
Proof.
  cbn [String.prefix]. destruct (Ascii.ascii_dec a c) as [->|N].
  - now rewrite Ascii.eqb_refl.
  - now rewrite (proj2 (Ascii.eqb_neq a c) N).
Qed.

Lemma prefix_empty (a : ascii) (t : string) :
  String.prefix (String a t) "" = false.
Proof. reflexivity. Qed.

Lemma prefix_append (sub r : string) : String.prefix sub (sub ++ r) = true.
Proof.
  induction sub as [|a sub IH]; [apply prefix_nil|].
  now rewrite append_cons, prefix_cons, Ascii.eqb_refl, IH.
Qed.

Lemma index_cons (sub : string) (c : ascii) (s : string) :
  String.index 0 sub (String c s)
  = if String.prefix sub (String c s) then Some 0%nat
    else option_map S (String.index 0 sub s).
Proof.
  cbn [String.index]. destruct (String.prefix sub (String c s)); [reflexivity|].
  now destruct (String.index 0 sub s).
Qed.

Lemma contains_prefix (sub s : string) :
  String.prefix sub s = true -> contains sub s = true.
Proof.
  unfold contains. destruct s as [|c s].
  - destruct sub; [reflexivity|discriminate].
  - intros H. now rewrite index_cons, H.
Qed.

Lemma contains_app_r (sub a b : string) :
  contains sub b = true -> contains sub (a ++ b) = true.
Proof.
  intros H. induction a as [|c a IH]; [exact H|].
  unfold contains in *. rewrite append_cons, index_cons.
  destruct (String.prefix sub (String c (a ++ b))); [reflexivity|].
  now destruct (String.index 0 sub (a ++ b)).
Qed.

Lemma contains_app_l (sub r : string) :
  contains sub (sub ++ r) = true.
Proof. apply contains_prefix, prefix_append. Qed.

(** *** Characters *)

Lemma all_chars_nil (P : ascii -> bool) : all_chars P "" = true.
Proof. reflexivity. Qed.

Lemma all_chars_cons (P : ascii -> bool) (c : ascii) (s : string) :
  all_chars P (String c s) = P c && all_chars P s.
Proof. reflexivity. Qed.

Lemma all_chars_app (P : ascii -> bool) (a b : string) :
  all_chars P (a ++ b) = all_chars P a && all_chars P b.
Proof.
  induction a as [|c a IH]; [reflexivity|].
  now rewrite append_cons, !all_chars_cons, IH, andb_assoc.
Qed.

Lemma all_chars_impl (P Q : ascii -> bool) (s : string) :
  (forall c, P c = true -> Q c = true) ->
  all_chars P s = true -> all_chars Q s = true.
Proof.
  intros HPQ. induction s as [|c s IH]; [reflexivity|].
  rewrite !all_chars_cons, !andb_true_iff. intros [Hc Hs]. auto.
Qed.

Lemma index_char_none (ch : ascii) (s : string) :
  all_chars (is_not ch) s = true -> String.index 0 (String ch "") s = None.
Proof.
  induction s as [|c s IH]; [reflexivity|].
  rewrite all_chars_cons, andb_true_iff. intros [Hc Hs].
  rewrite index_cons, prefix_cons, (IH Hs).
  unfold is_not in Hc. apply negb_true_iff in Hc. now rewrite Hc.
Qed.

Lemma rindex_char_none (ch : ascii) (i : nat) (s : string) :
  all_chars (is_not ch) s = true -> rindex i (String ch "") s = None.
Proof.
  revert i. induction s as [|c s IH]; intros i; [reflexivity|].
  rewrite all_chars_cons, andb_true_iff. intros [Hc Hs].
  cbn [rindex]. rewrite (IH (S i) Hs), prefix_cons.
  unfold is_not in Hc. apply negb_true_iff in Hc. now rewrite Hc.
Qed.

(** The last occurrence of [ch] in [a ++ ch :: b], when [b] has none. *)
Lemma rindex_app_char (ch : ascii) (i : nat) (a b : string) :
  all_chars (is_not ch) b = true ->
  rindex i (String ch "") (a ++ String ch b) = Some (i + String.length a)%nat.
Proof.
  intros Hb. revert i. induction a as [|c a IH]; intros i.
  - rewrite append_nil_l. cbn [rindex String.length].
    rewrite (rindex_char_none ch (S i) b Hb), prefix_cons, Ascii.eqb_refl, prefix_nil.
    cbn [andb]. f_equal. lia.
  - rewrite append_cons. cbn [rindex String.length]. rewrite (IH (S i)).
    f_equal. lia.
Qed.

(** *** Substrings of a concatenation *)

Lemma substring_app_skip (a b : string) (n m : nat) :
  String.substring (String.length a + n) m (a ++ b) = String.substring n m b.
Proof.
  induction a as [|c a IH]; [reflexivity|].
  rewrite append_cons. cbn [String.length Nat.add String.substring]. exact IH.
Qed.

Lemma substring_app_prefix (a b : string) :
  String.substring 0 (String.length a) (a ++ b) = a.
Proof.
  induction a as [|c a IH].
  - cbn [String.length]. now destruct (""  ++ b).
  - rewrite append_cons. cbn [String.length String.substring]. now rewrite IH.
Qed.

(** [(a ++ b)[len(a):]] and [(a ++ b ++ c)[len(a):len(a)+len(b)]] *)
Lemma slice_from_app (a b : string) :
  slice_from (a ++ b) (Z.of_nat (String.length a)) = b.
Proof.
  rewrite slice_from_nat by (rewrite length_append; lia).
  rewrite length_append.
  replace (String.length a + String.length b - String.length a)%nat
    with (String.length b) by lia.
  rewrite <- (Nat.add_0_r (String.length a)) at 1.
  rewrite substring_app_skip. apply substring_all.
Qed.

Lemma slice_app (a b c : string) :
  slice (a ++ b ++ c) (Z.of_nat (String.length a))
    (Z.of_nat (String.length a + String.length b)) = b.
Proof.
  unfold slice, len. rewrite !length_append.
  rewrite !clamp_in_range by lia.
  replace (Z.to_nat (Z.of_nat (String.length a))) with (String.length a + 0)%nat
    by lia.
  replace (Z.to_nat (Z.of_nat (String.length a + String.length b)
                     - Z.of_nat (String.length a)))
    with (String.length b) by lia.
  rewrite substring_app_skip. apply substring_app_prefix.
Qed.

(** *** [replace] *)

Lemma replace_char (a b : ascii) (s : string) :
  replace s (String a "") (String b "")
  = map_chars (fun c => if Ascii.eqb a c then b else c) s.
Proof.
  unfold replace. induction s as [|c s IH]; [reflexivity|].
  cbn [replace_from map_chars String.length Nat.pred].
  rewrite prefix_cons, prefix_nil, andb_true_r.
  destruct (Ascii.eqb a c); rewrite IH; reflexivity.
Qed.

(** Removing the extension from a name whose stem has no [j]. *)
Lemma replace_json_suffix (d : string) :
  all_chars (is_not "j") d = true -> replace (d ++ ".json") ".json" "" = d.
Proof.
  unfold replace. induction d as [|c d IH]; [reflexivity|].
  rewrite all_chars_cons, andb_true_iff. intros [Hc Hd].
  rewrite append_cons. cbn [replace_from].
  assert (Hp : String.prefix ".json" (String c (d ++ ".json")) = false).
  { rewrite prefix_cons. destruct (Ascii.eqb "." c); [|reflexivity].
    cbn [andb]. destruct d as [|c' d].
    - reflexivity.
    - rewrite append_cons, prefix_cons.
      rewrite all_chars_cons, andb_true_iff in Hd. destruct Hd as [Hc' _].
      unfold is_not in Hc'. apply negb_true_iff in Hc'. now rewrite Hc'. }
  rewrite Hp. now rewrite (IH Hd).
Qed.

End StringProofs.

(** ** File names written and read back *)

Module FileNameProofs.

Import Py Card Tracker PyProofs StringProofs.

(** Case analysis on a character, for facts about character classes. *)
Ltac ascii_cases c :=
  destruct c as [[] [] [] [] [] [] [] []]; try reflexivity; try discriminate.

Lemma date_id_char_not_slash (c : ascii) :
  date_id_char c = true -> is_not "/" c = true.
Proof. ascii_cases c. Qed.

Lemma date_id_char_not_underscore (c : ascii) :
  date_id_char c = true -> is_not "_" c = true.
Proof. ascii_cases c. Qed.

Lemma date_id_char_not_j (c : ascii) :
  date_id_char c = true -> is_not "j" c = true.
Proof. ascii_cases c. Qed.

Lemma not_slash_is_not (c : ascii) : not_slash c = true -> is_not "/" c = true.
Proof. unfold not_slash, is_not. now rewrite Ascii.eqb_sym. Qed.

Lemma index_app_char (ch : ascii) (a b : string) :
  all_chars (is_not ch) a = true ->
  String.index 0 (String ch "") (a ++ String ch b) = Some (String.length a).
Proof.
  induction a as [|c a IH].
  - intros _. rewrite append_nil_l, index_cons, prefix_cons, Ascii.eqb_refl.
    now rewrite prefix_nil.
  - rewrite all_chars_cons, andb_true_iff. intros [Hc Ha].
    rewrite append_cons, index_cons, prefix_cons, (IH Ha).
    unfold is_not in Hc. apply negb_true_iff in Hc. now rewrite Hc.
Qed.

(** The base name of a path whose last component has no slash. *)
Lemma basename_path_in_repo (d name : string) :
  all_chars (is_not "/") name = true ->
  basename (path_in_repo d name) = name.
Proof.
  intros H. unfold path_in_repo, basename, rfind.
  change (d ++ "/" ++ name) with (d ++ String "/" name).
  rewrite (rindex_app_char "/" 0 d name H). cbn [Nat.add].
  replace (Z.of_nat (String.length d) + 1)
    with (Z.of_nat (String.length (d ++ "/")))
    by (rewrite length_append; cbn [String.length]; lia).
  change (d ++ String "/" name) with (d ++ "/" ++ name).
  rewrite <- append_assoc. apply slice_from_app.
Qed.

Lemma basename_no_slash (name : string) :
  all_chars (is_not "/") name = true -> basename name = name.
Proof.
  intros H. apply basename_without_slash. now apply rindex_char_none.
Qed.

(** *** Sample files *)

Lemma samples_name_no_slash (task_name date_id : string) :
  all_chars not_slash task_name = true ->
  all_chars date_id_char date_id = true ->
  all_chars (is_not "/") (file_results_samples task_name date_id) = true.
Proof.
  intros Ht Hd. unfold file_results_samples.
  rewrite !all_chars_app, !andb_true_iff. repeat split; try reflexivity.
  - revert Ht. apply all_chars_impl, not_slash_is_not.
  - revert Hd. apply all_chars_impl, date_id_char_not_slash.
Qed.

Lemma date_json_no_underscore (date_id : string) :
  all_chars date_id_char date_id = true ->
  all_chars (is_not "_") (date_id ++ ".json") = true.
Proof.
  intros Hd. rewrite all_chars_app, andb_true_iff. split; [|reflexivity].
  revert Hd. apply all_chars_impl, date_id_char_not_underscore.
Qed.

Lemma find_samples (task_name date_id : string) :
  String.index 0 "_" (file_results_samples task_name date_id) = Some 7%nat.
Proof.
  unfold file_results_samples.
  change ("samples_" ++ task_name ++ "_" ++ date_id ++ ".json")
    with ("samples" ++ String "_" (task_name ++ "_" ++ date_id ++ ".json")).
  now rewrite (index_app_char "_" "samples").
Qed.

Lemma samples_name_split (task_name date_id : string) :
  file_results_samples task_name date_id
  = ("samples_" ++ task_name) ++ String "_" (date_id ++ ".json").
Proof. unfold file_results_samples. now rewrite append_assoc. Qed.

Lemma rfind_samples (task_name date_id : string) :
  all_chars date_id_char date_id = true ->
  rindex 0 "_" (file_results_samples task_name date_id)
  = Some (8 + String.length task_name)%nat.
Proof.
  intros Hd. rewrite samples_name_split.
  rewrite (rindex_app_char "_" 0) by now apply date_json_no_underscore.
  now rewrite length_append.
Qed.

Lemma get_file_task_name_samples (task_name date_id : string) :
  all_chars date_id_char date_id = true ->
  get_file_task_name (file_results_samples task_name date_id) = task_name.
Proof.
  intros Hd. unfold get_file_task_name, find, rfind.
  rewrite find_samples, (rfind_samples _ _ Hd).
  apply (slice_app "samples_" task_name ("_" ++ date_id ++ ".json")).
Qed.

Lemma get_file_datetime_samples (task_name date_id : string) :
  all_chars date_id_char date_id = true ->
  get_file_datetime (file_results_samples task_name date_id) = date_id.
Proof.
  intros Hd. unfold get_file_datetime, rfind.
  rewrite (rfind_samples _ _ Hd), samples_name_split.
  replace (Z.of_nat (8 + String.length task_name) + 1)
    with (Z.of_nat (String.length (("samples_" ++ task_name) ++ "_")))
    by (rewrite !length_append; cbn [String.length]; lia).
  change (("samples_" ++ task_name) ++ String "_" (date_id ++ ".json"))
    with (("samples_" ++ task_name) ++ "_" ++ (date_id ++ ".json")).
  rewrite <- (append_assoc _ "_"), slice_from_app.
  apply replace_json_suffix. revert Hd.
  apply all_chars_impl, date_id_char_not_j.
Qed.

Lemma contains_json_suffix (s : string) : contains ".json" (s ++ ".json") = true.
Proof. apply contains_app_r. reflexivity. Qed.

(** X1: the sample file that [save_results_samples] writes for a task and a
    date id, uploaded under a directory, is kept by the sample filter of
    [recreate_metadata_card] and read back as that task and that date id;
    its card path is the file name under ["**/"]. The task name must have no
    slash and the date id only the characters of a date id. *)
Theorem sample_file_name_round_trip (d task_name date_id : string) :
  all_chars not_slash task_name = true ->
  all_chars date_id_char date_id = true ->
  sample_files [path_in_repo d (file_results_samples task_name date_id)]
  = [path_in_repo d (file_results_samples task_name date_id)]
  /\ task_of (path_in_repo d (file_results_samples task_name date_id)) = task_name
  /\ date_of (path_in_repo d (file_results_samples task_name date_id)) = date_id
  /\ sample_path (path_in_repo d (file_results_samples task_name date_id))
     = "**/" ++ file_results_samples task_name date_id.
Proof.
  intros Ht Hd.
  pose proof (samples_name_no_slash task_name date_id Ht Hd) as Hn.
  split; [|split; [|split]].
  - unfold sample_files. cbn [List.filter].
    assert (H1 : contains "/samples_"
                   (path_in_repo d (file_results_samples task_name date_id)) = true).
    { unfold path_in_repo, file_results_samples.
      apply contains_app_r.
      apply (contains_app_l "/samples_" (task_name ++ "_" ++ date_id ++ ".json")). }
    assert (H2 : contains ".json"
                   (path_in_repo d (file_results_samples task_name date_id)) = true).
    { unfold path_in_repo, file_results_samples.
      rewrite <- !append_assoc. apply contains_json_suffix. }
    now rewrite H1, H2.
  - unfold task_of. rewrite basename_path_in_repo by exact Hn.
    now apply get_file_task_name_samples.
  - unfold date_of. rewrite basename_path_in_repo by exact Hn.
    now apply get_file_datetime_samples.
  - unfold sample_path. rewrite basename_path_in_repo by exact Hn.
    rewrite basename_no_slash by exact Hn.
    rewrite path_join_stars. unfold file_results_samples.
    change ("samples_" ++ task_name ++ "_" ++ date_id ++ ".json")
      with (String "s" ("amples_" ++ task_name ++ "_" ++ date_id ++ ".json")).
    now rewrite prefix_cons.
Qed.

(** The theorem for the [mmlu_anatomy] samples of a run stamped with
    microseconds. *)
Lemma sample_file_name_round_trip_witness :
  task_of "EleutherAI__pythia-70m/samples_mmlu_anatomy_2024-01-01T00-00-00.123456.json"
  = "mmlu_anatomy"
  /\ date_of "EleutherAI__pythia-70m/samples_mmlu_anatomy_2024-01-01T00-00-00.123456.json"
     = "2024-01-01T00-00-00.123456".
Proof.
  pose proof (sample_file_name_round_trip "EleutherAI__pythia-70m"
                "mmlu_anatomy" "2024-01-01T00-00-00.123456" eq_refl eq_refl)
    as (_ & Ht & Hd & _).
  split; [exact Ht|exact Hd].
Defined.

(** *** Results files *)

Lemma results_name_no_slash (date_id : string) :
  all_chars date_id_char date_id = true ->
  all_chars (is_not "/") (file_results_aggregated date_id) = true.
Proof.
  intros Hd. unfold file_results_aggregated.
  rewrite !all_chars_app, !andb_true_iff. repeat split; try reflexivity.
  revert Hd. apply all_chars_impl, date_id_char_not_slash.
Qed.

Lemma get_file_datetime_results (date_id : string) :
  all_chars date_id_char date_id = true ->
  get_file_datetime (file_results_aggregated date_id) = date_id.
Proof.
  intros Hd. unfold get_file_datetime, rfind, file_results_aggregated.
  change ("results_" ++ date_id ++ ".json")
    with ("results" ++ String "_" (date_id ++ ".json")).
  rewrite (rindex_app_char "_" 0) by now apply date_json_no_underscore.
  change ("results" ++ String "_" (date_id ++ ".json"))
    with ("results_" ++ (date_id ++ ".json")).
  change (Z.of_nat (0 + String.length "results") + 1)
    with (Z.of_nat (String.length "results_")).
  rewrite slice_from_app.
  apply replace_json_suffix. revert Hd.
  apply all_chars_impl, date_id_char_not_j.
Qed.

(** X2: the results file that [save_results_aggregated] writes for a date
    id, uploaded under a directory, is kept by the results filter of
    [recreate_metadata_card] and read back as that date id; its card path
    is the file name under ["**/"]. *)
Theorem results_file_name_round_trip (d date_id : string) :
  all_chars date_id_char date_id = true ->
  results_files [path_in_repo d (file_results_aggregated date_id)]
  = [path_in_repo d (file_results_aggregated date_id)]
  /\ date_of (path_in_repo d (file_results_aggregated date_id)) = date_id
  /\ results_path (path_in_repo d (file_results_aggregated date_id))
     = "**/" ++ file_results_aggregated date_id.
Proof.
  intros Hd. pose proof (results_name_no_slash date_id Hd) as Hn.
  split; [|split].
  - unfold results_files. cbn [List.filter].
    assert (H1 : contains "/results_"
                   (path_in_repo d (file_results_aggregated date_id)) = true).
    { unfold path_in_repo, file_results_aggregated.
      apply contains_app_r.
      apply (contains_app_l "/results_" (date_id ++ ".json")). }
    assert (H2 : contains ".json"
                   (path_in_repo d (file_results_aggregated date_id)) = true).
    { unfold path_in_repo, file_results_aggregated.
      rewrite <- !append_assoc. apply contains_json_suffix. }
    now rewrite H1, H2.
  - unfold date_of. rewrite basename_path_in_repo by exact Hn.
    now apply get_file_datetime_results.
  - unfold results_path. rewrite basename_path_in_repo by exact Hn.
    rewrite path_join_stars. unfold file_results_aggregated.
    change ("results_" ++ date_id ++ ".json")
      with (String "r" ("esults_" ++ date_id ++ ".json")).
    now rewrite prefix_cons.
Qed.

(** The theorem for a run stamped with microseconds. *)
Lemma results_file_name_round_trip_witness :
  date_of "EleutherAI__pythia-70m/results_2024-01-01T00-00-00.123456.json"
  = "2024-01-01T00-00-00.123456".
Proof.
  exact (proj1 (proj2 (results_file_name_round_trip "EleutherAI__pythia-70m"
                         "2024-01-01T00-00-00.123456" eq_refl))).
Defined.

(** *** Date ids and split names *)

Lemma all_chars_map_chars (P Q : ascii -> bool) (h : ascii -> ascii) (s : string) :
  (forall c, P c = true -> Q (h c) = true) ->
  all_chars P s = true -> all_chars Q (map_chars h s) = true.
Proof.
  intros Hh. induction s as [|c s IH]; [reflexivity|].
  cbn [map_chars]. rewrite !all_chars_cons, !andb_true_iff.
  intros [Hc Hs]. auto.
Qed.

Lemma iso_char_date_id_char (c : ascii) :
  iso_char c = true -> date_id_char (if Ascii.eqb ":" c then "-"%char else c) = true.
Proof. ascii_cases c. Qed.

(** On the characters of a date id the sanitizer turns the dash into an
    underscore and keeps the rest. *)
Lemma sanitize_date_char (c : ascii) :
  date_id_char c = true ->
  (if is_word c || Ascii.eqb c dot then c else underscore)
  = (if Ascii.eqb "-" c then "_"%char else c).
Proof. ascii_cases c. Qed.

Lemma dash_to_underscore_inj (c c' : ascii) :
  date_id_char c = true -> date_id_char c' = true ->
  (if Ascii.eqb "-" c then "_"%char else c)
  = (if Ascii.eqb "-" c' then "_"%char else c') ->
  c = c'.
Proof.
  intros Hc Hc'.
  destruct (Ascii.eqb_spec "-" c) as [<-|N]; destruct (Ascii.eqb_spec "-" c') as [<-|N'].
  - reflexivity.
  - intros <-. discriminate Hc'.
  - intros ->. discriminate Hc.
  - auto.
Qed.

Lemma sanitize_date_date_id (d : string) :
  all_chars date_id_char d = true ->
  sanitize_date d = map_chars (fun c => if Ascii.eqb "-" c then "_"%char else c) d.
Proof.
  unfold sanitize_date, sub_nonword_nondot.
  induction d as [|c d IH]; [reflexivity|].
  rewrite all_chars_cons, andb_true_iff. intros [Hc Hd].
  cbn [map_chars]. now rewrite IH, sanitize_date_char.
Qed.

(** X3: the date id made from an ISO date and time has only digits, dashes,
    [T] and dots; the split name of a date id is the date id with its dashes
    turned into underscores; and two date ids with the same split name are
    the same. *)
Theorem date_id_split_names :
  (forall isoformat,
      all_chars iso_char isoformat = true ->
      all_chars date_id_char (date_id_of isoformat) = true)
  /\ (forall d,
        all_chars date_id_char d = true ->
        sanitize_date d
        = map_chars (fun c => if Ascii.eqb "-" c then "_"%char else c) d)
  /\ (forall d d',
        all_chars date_id_char d = true ->
        all_chars date_id_char d' = true ->
        sanitize_date d = sanitize_date d' -> d = d').
Proof.
  split; [|split].
  - intros iso H. unfold date_id_of. rewrite replace_char.
    revert H. apply all_chars_map_chars, iso_char_date_id_char.
  - apply sanitize_date_date_id.
  - intros d d' Hd Hd'. rewrite !sanitize_date_date_id by assumption.
    revert d' Hd'. induction d as [|c d IH]; intros [|c' d'] Hd'; cbn [map_chars];
      try discriminate; [reflexivity|].
    rewrite all_chars_cons, andb_true_iff in Hd, Hd'.
    destruct Hd as [Hc Hd], Hd' as [Hc' Hd'].
    intros H. injection H as Hcc Hdd.
    apply (dash_to_underscore_inj c c' Hc Hc') in Hcc. subst c'.
    f_equal. now apply IH.
Qed.

(** The theorem for two runs a second apart. *)
Lemma date_id_split_names_witness :
  all_chars date_id_char (date_id_of "2024-01-01T00:00:00.123456") = true
  /\ sanitize_date "2024-01-01T00-00-00.123456" = "2024_01_01T00_00_00.123456"
  /\ (sanitize_date "2024-01-01T00-00-00" = sanitize_date "2024-01-01T00-00-00" ->
      "2024-01-01T00-00-00" = "2024-01-01T00-00-00").
Proof.
  destruct date_id_split_names as (H1 & H2 & H3).
  split; [exact (H1 "2024-01-01T00:00:00.123456" eq_refl)|].
  split; [exact (H2 "2024-01-01T00-00-00.123456" eq_refl)|].
  exact (H3 "2024-01-01T00-00-00" "2024-01-01T00-00-00" eq_refl eq_refl).
Defined.

End FileNameProofs.

(** ** The model name *)

Module ModelNameProofs.

Import Py Tracker PyProofs StringProofs.

(** *** [split] *)

Lemma split_from_nonempty (sep : string) (skip : nat) (cur s : string) :
  exists x rest, split_from sep skip cur s = x :: rest.
Proof.
  revert skip cur. induction s as [|c s IH]; intros skip cur; cbn [split_from].
  - now exists cur, [].
  - destruct skip as [|k]; [|apply IH].
    destruct (String.prefix sep (String c s)); [|apply IH].
    now exists cur, (split_from sep (Nat.pred (String.length sep)) "" s).
Qed.

(** A separator that occurs gives at least two fields. *)
Lemma split_from_two_fields (sep cur s : string) :
  String.prefix sep "" = false ->
  contains sep s = true ->
  exists x y rest, split_from sep 0 cur s = x :: y :: rest.
Proof.
  intros Hsep. unfold contains. revert cur.
  induction s as [|c s IH]; intros cur.
  - cbn [String.index]. destruct sep; [discriminate Hsep|discriminate].
  - rewrite index_cons. cbn [split_from].
    destruct (String.prefix sep (String c s)).
    + intros _.
      destruct (split_from_nonempty sep (Nat.pred (String.length sep)) "" s)
        as (y & rest & ->).
      now exists cur, y, rest.
    + intros H. apply IH. now destruct (String.index 0 sep s).
Qed.

(** The first field of a split at a character does not have it. *)
Lemma split_from_head_char (ch : ascii) (cur s : string) :
  all_chars (is_not ch) cur = true ->
  exists x rest,
    split_from (String ch "") 0 cur s = x :: rest
    /\ all_chars (is_not ch) x = true.
Proof.
  revert cur. induction s as [|c s IH]; intros cur Hcur; cbn [split_from].
  - now exists cur, [].
  - rewrite prefix_cons, prefix_nil, andb_true_r.
    destruct (Ascii.eqb ch c) eqn:E.
    + now exists cur, (split_from (String ch "") (Nat.pred (String.length (String ch ""))) "" s).
    + apply IH. rewrite all_chars_app, Hcur, all_chars_cons.
      unfold is_not. now rewrite E.
Qed.

Lemma contains_char_false (ch : ascii) (s : string) :
  all_chars (is_not ch) s = true -> contains (String ch "") s = false.
Proof. intros H. unfold contains. now rewrite index_char_none. Qed.

(** *** [_get_model_name] *)

Lemma extract_model_name_ok (model_args : string) (a : ascii) (key : string) :
  contains (String a key) model_args = true ->
  exists name,
    extract_model_name model_args (String a key) = Ok name
    /\ contains "," name = false.
Proof.
  intros H. unfold extract_model_name, split.
  destruct (split_from_two_fields (String a key) "" model_args eq_refl H)
    as (x & y & rest & ->).
  cbn [bind item nth_error].
  destruct (split_from_head_char "," "" y eq_refl) as (f & fs & -> & Hf).
  cbn [bind item nth_error]. exists f. split; [reflexivity|].
  now apply contains_char_false.
Qed.

(** X4: [_get_model_name] never raises, whatever the model arguments are;
    the name it returns has no comma; and it is empty when none of the six
    prefixes occurs. *)
Theorem get_model_name_total (model_args : string) :
  exists name,
    _get_model_name model_args = Ok name
    /\ contains "," name = false
    /\ ((forall prefix, In prefix prefixes -> contains prefix model_args = false) ->
        name = "").
Proof.
  unfold _get_model_name, prefixes. cbn [get_model_name_from].
  repeat match goal with
         | |- context [if contains ?p model_args then _ else _] =>
             destruct (contains p model_args) eqn:?
         end;
    try (match goal with
         | H : contains (String ?a ?key) model_args = true |- _ =>
             destruct (extract_model_name_ok model_args a key H) as (name & -> & Hn);
             exists name; split; [reflexivity|]; split; [exact Hn|];
             intros Hall; rewrite Hall in H; [discriminate H|cbn; tauto]
         end).
  exists "". split; [reflexivity|]. split; [reflexivity|]. reflexivity.
Qed.

(** The theorem on arguments without a prefix. *)
Lemma get_model_name_total_witness :
  exists name,
    _get_model_name "dtype=float32" = Ok name /\ name = "".
Proof.
  destruct (get_model_name_total "dtype=float32") as (name & H & _ & Hempty).
  exists name. split; [exact H|]. apply Hempty.
  intros prefix Hp. cbn in Hp.
  repeat (destruct Hp as [<-|Hp]; [vm_compute; reflexivity|]). destruct Hp.
Defined.

(** *** [model_name_sanitized] *)

Lemma sub_runs_allowed (in_run : bool) (s : string) :
  all_chars (fun c => negb (forbidden c)) (sub_runs forbidden "__" in_run s) = true.
Proof.
  revert in_run. induction s as [|c s IH]; intros in_run; [reflexivity|].
  cbn [sub_runs]. destruct (forbidden c) eqn:E.
  - destruct in_run; [apply IH|].
    rewrite all_chars_app, IH. reflexivity.
  - rewrite all_chars_cons, E, IH. reflexivity.
Qed.

Lemma sub_runs_clean (in_run : bool) (s : string) :
  all_chars (fun c => negb (forbidden c)) s = true ->
  sub_runs forbidden "__" in_run s = s.
Proof.
  revert in_run. induction s as [|c s IH]; intros in_run; [reflexivity|].
  rewrite all_chars_cons, andb_true_iff. intros [Hc Hs].
  cbn [sub_runs]. apply negb_true_iff in Hc. now rewrite Hc, IH.
Qed.

Lemma allowed_not_slash (c : ascii) :
  negb (forbidden c) = true -> not_slash c = true.
Proof. destruct c as [[] [] [] [] [] [] [] []]; try reflexivity; try discriminate. Qed.

Lemma get_model_name_ok (model_args : string) :
  exists name, _get_model_name model_args = Ok name.
Proof.
  unfold _get_model_name, prefixes. cbn [get_model_name_from].
  repeat match goal with
         | |- context [if contains ?p model_args then _ else _] =>
             destruct (contains p model_args) eqn:?
         end;
    try (match goal with
         | H : contains (String ?a ?key) model_args = true |- _ =>
             destruct (extract_model_name_ok model_args a key H) as (name & -> & _);
             now exists name
         end).
  now exists "".
Qed.

(** X5: the sanitized model name has none of the characters of the class
    that [log_experiment_args] replaces, in particular no slash; a name
    without such a character is kept as it is, so sanitizing twice is
    sanitizing once; and [log_experiment_args] always succeeds and stores
    the sanitized form of the name it stores. *)
Theorem model_name_sanitized_safe :
  (forall m,
      all_chars (fun c => negb (forbidden c)) (sanitize_model_name m) = true
      /\ all_chars not_slash (sanitize_model_name m) = true)
  /\ (forall m,
        all_chars (fun c => negb (forbidden c)) m = true ->
        sanitize_model_name m = m)
  /\ (forall m,
        sanitize_model_name (sanitize_model_name m) = sanitize_model_name m)
  /\ (forall source model_args,
        exists config,
          log_experiment_args source model_args = Ok config
          /\ model_source config = source
          /\ _get_model_name model_args = Ok (model_name config)
          /\ model_name_sanitized config = sanitize_model_name (model_name config)).
Proof.
  split; [|split; [|split]].
  - intros m. split; [apply sub_runs_allowed|].
    apply (all_chars_impl (fun c => negb (forbidden c))); [apply allowed_not_slash|].
    apply sub_runs_allowed.
  - intros m. apply sub_runs_clean.
  - intros m. apply sub_runs_clean, sub_runs_allowed.
  - intros source model_args. unfold log_experiment_args.
    destruct (get_model_name_ok model_args) as [name ->]. cbn [bind].
    eexists. split; [reflexivity|]. cbn. auto.
Qed.

(** The theorem on a name without a character of the class. *)
Lemma model_name_sanitized_safe_witness :
  sanitize_model_name "pythia-70m" = "pythia-70m".
Proof.
  exact (proj1 (proj2 model_name_sanitized_safe) "pythia-70m" eq_refl).
Defined.

(** *** The repositories *)

Lemma append_neq_self (s t : string) (c : ascii) : s <> s ++ String c t.
Proof.
  intros H. apply (f_equal String.length) in H.
  rewrite length_append in H. cbn [String.length] in H. lia.
Qed.

(** X6: the private repository id is the public one followed by
    ["-private"], so the two always differ; and both default to
    [lm-eval-results] under the organisation when no name is given. *)
Theorem repository_ids_differ (org name : string) :
  hub_results_repo_private org name = hub_results_repo org name ++ "-private"
  /\ hub_results_repo org name <> hub_results_repo_private org name
  /\ hub_results_repo org "" = org ++ "/lm-eval-results".
Proof.
  assert (E : hub_results_repo_private org name
              = hub_results_repo org name ++ "-private").
  { unfold hub_results_repo_private, hub_results_repo.
    now rewrite !append_assoc. }
  split; [exact E|]. split; [|reflexivity].
  rewrite E. apply append_neq_self.
Qed.

End ModelNameProofs.

(** ** The dicts the tracker dumps *)

Module DictProofs.

Import Py Tracker PyProofs StringProofs.

(** *** [str] of an index *)

Lemma str_int_inj (a b : Z) : str_int a = str_int b -> a = b.
Proof.
  unfold str_int. intros H.
  assert (Hn : forall z, Z.to_int z <> Decimal.Pos Decimal.Nil
                         /\ Z.to_int z <> Decimal.Neg Decimal.Nil).
  { intros [|p|p]; cbn [Z.to_int]; split; try discriminate;
      intros E; injection E as E;
      now apply DecimalPos.Unsigned.to_uint_nonnil in E. }
  apply DecimalZ.to_int_inj.
  assert (E : Some (Z.to_int a) = Some (Z.to_int b)).
  { rewrite <- (NilZero.isi (Z.to_int a)) by apply Hn.
    rewrite <- (NilZero.isi (Z.to_int b)) by apply Hn. now rewrite H. }
  now injection E.
Qed.

Lemma append_inj_r (a x y : string) : a ++ x = a ++ y -> x = y.
Proof.
  induction a as [|c a IH]; [auto|].
  rewrite !append_cons. intros H. injection H as H. auto.
Qed.

Lemma index_key_inj (a : string) (i j : nat) :
  a ++ str_int (Z.of_nat i) = a ++ str_int (Z.of_nat j) -> i = j.
Proof.
  intros H. apply append_inj_r, str_int_inj in H. lia.
Qed.

(** Filling a dict under one key per index loses nothing. *)
Lemma fold_insert_lookup {A B} (key : nat -> string) (g : A -> B)
    (l : list A) (i : nat) :
  (forall i j, key i = key j -> i = j) ->
  fold_left (fun (d : gmap string B) (it : nat * A) =>
               <[key (fst it) := g (snd it)]> d)
    (imap pair l) ∅ !! key i
  = g <$> l !! i.
Proof.
  intros Hinj. induction l as [|x l IH] using rev_ind.
  - cbn. now rewrite lookup_empty.
  - rewrite imap_app, fold_left_app. cbn [imap fold_left fst snd].
    rewrite Nat.add_0_r.
    destruct (decide (i = length l)) as [->|N].
    + rewrite lookup_insert_eq, list_lookup_middle; reflexivity.
    + rewrite lookup_insert_ne by (intros E; apply Hinj in E; congruence).
      rewrite IH. destruct (decide (i < length l)%nat) as [Hlt|Hge].
      * now rewrite lookup_app_l.
      * rewrite !lookup_ge_None_2; [reflexivity| |lia].
        rewrite length_app. cbn [length]. lia.
Qed.

(** X7: in the [arguments] dict that [save_results_samples] dumps, the
    entry [gen_args_i] is there exactly when the sample has an [i]-th
    argument tuple, and its entry [arg_j] is the [j]-th element of that
    tuple: nothing is lost or overwritten. *)
Theorem arguments_dict_lookup (V : Type) (arguments : list (list V)) (i j : nat) :
  arguments_dict V arguments !! ("gen_args_" ++ str_int (Z.of_nat i))
  = arg_dict V <$> arguments !! i
  /\ (forall arg, arg_dict V arg !! ("arg_" ++ str_int (Z.of_nat j)) = arg !! j)
  /\ (arguments_dict V arguments !! ("gen_args_" ++ str_int (Z.of_nat i)))
       ≫= (fun d => d !! ("arg_" ++ str_int (Z.of_nat j)))
     = arguments !! i ≫= (fun arg => arg !! j).
Proof.
  assert (H1 : arguments_dict V arguments !! ("gen_args_" ++ str_int (Z.of_nat i))
               = arg_dict V <$> arguments !! i).
  { unfold arguments_dict.
    apply (fold_insert_lookup (fun n => "gen_args_" ++ str_int (Z.of_nat n))
             (arg_dict V)).
    intros a b. apply index_key_inj. }
  assert (H2 : forall arg,
             arg_dict V arg !! ("arg_" ++ str_int (Z.of_nat j)) = arg !! j).
  { intros arg. unfold arg_dict.
    transitivity (id <$> arg !! j); [|now destruct (arg !! j)].
    apply (fold_insert_lookup (fun n => "arg_" ++ str_int (Z.of_nat n)) id).
    intros a b. apply index_key_inj. }
  split; [exact H1|]. split; [exact H2|].
  rewrite H1. destruct (arguments !! i) as [arg|]; [|reflexivity].
  cbn. apply H2.
Qed.

(** *** [update] *)

Lemma dict_get_dict_set {V} (k k' : string) (v : V) (d : list (string * V)) :
  dict_get k (dict_set k' v d)
  = if String.eqb k' k then Some v else dict_get k d.
Proof.
  induction d as [|[k0 v0] d IH]; cbn [dict_set dict_get].
  - reflexivity.
  - destruct (String.eqb_spec k0 k') as [->|N]; cbn [dict_get].
    + now destruct (String.eqb k' k).
    + rewrite IH. destruct (String.eqb_spec k0 k) as [->|N0]; [|reflexivity].
      now rewrite (proj2 (String.eqb_neq k' k)) by congruence.
Qed.

(** After [d.update(other)] a key of [other] reads as in [other], any other
    key as in [d]. *)
Lemma dict_get_dict_update {V} (k : string) (d other : list (string * V)) :
  NoDup (List.map fst other) ->
  dict_get k (dict_update d other)
  = match dict_get k other with
    | Some v => Some v
    | None => dict_get k d
    end.
Proof.
  unfold dict_update. revert d.
  induction other as [|[k0 v0] other IH]; intros d Hnd; [reflexivity|].
  cbn [List.map fst] in Hnd. apply NoDup_cons in Hnd. destruct Hnd as [Hk0 Hnd].
  cbn [fold_left fst snd dict_get]. rewrite (IH _ Hnd), dict_get_dict_set.
  destruct (String.eqb_spec k0 k) as [->|N]; [|reflexivity].
  assert (Hnone : dict_get k other = None).
  { clear -Hk0. induction other as [|[k1 v1] other IH]; [reflexivity|].
    cbn [dict_get]. destruct (String.eqb_spec k1 k) as [->|N].
    - exfalso. apply Hk0. now left.
    - apply IH. intros H. apply Hk0. now right. }
  now rewrite Hnone.
Qed.

(** X8: after the two [update] calls of [save_results_aggregated], each
    field of the tracker reads as the tracker has it, whatever the results
    held under that name; ["task_hashes"] reads as the hashes just computed;
    and every other key reads as before. *)
Theorem updated_results_lookup (V : Type) (results : list (string * V))
    (task_hashes model_source model_name model_name_sanitized start_time
     end_time total_evaluation_time_seconds : V) (k : string) :
  dict_get k
    (updated_results V results task_hashes
       (tracker_fields V model_source model_name model_name_sanitized
          start_time end_time total_evaluation_time_seconds))
  = match
      dict_get k
        (tracker_fields V model_source model_name model_name_sanitized
           start_time end_time total_evaluation_time_seconds)
    with
    | Some v => Some v
    | None => if String.eqb "task_hashes" k then Some task_hashes
              else dict_get k results
    end.
Proof.
  unfold updated_results.
  rewrite dict_get_dict_update
    by (apply (bool_decide_unpack _); vm_compute; reflexivity).
  destruct (dict_get k (tracker_fields V _ _ _ _ _ _)); [reflexivity|].
  rewrite dict_get_dict_update by (repeat constructor; apply not_elem_of_nil).
  cbn [dict_get]. now destruct (String.eqb "task_hashes" k).
Qed.

(** X9: in the dict built from the latest results, every key of the
    results reads as in the results, and ["all"] reads as the whole results
    only when the results have no key ["all"] of their own. *)
Theorem new_dictionary_lookup (results_dict : list (string * Card.json))
    (k : string) :
  NoDup (List.map fst results_dict) ->
  dict_get k (Card.new_dictionary_of results_dict)
  = match dict_get k results_dict with
    | Some v => Some v
    | None => if String.eqb "all" k then Some (Card.JDict results_dict) else None
    end.
Proof.
  intros Hnd. unfold Card.new_dictionary_of.
  rewrite dict_get_dict_update by exact Hnd. reflexivity.
Qed.

(** The theorem on results that have a task called [all]. *)
Lemma new_dictionary_lookup_witness :
  dict_get "all"
    (Card.new_dictionary_of
       [("all", Card.JAtom "0.5"); ("gsm8k", Card.JAtom "0.25")])
  = Some (Card.JAtom "0.5").
Proof.
  refine (new_dictionary_lookup
            [("all", Card.JAtom "0.5"); ("gsm8k", Card.JAtom "0.25")] "all" _).
  apply (bool_decide_unpack _). vm_compute. reflexivity.
Defined.

End DictProofs.

(** ** Task hashes *)

Module TaskHashProofs.

Import RunHash StringProofs.

Lemma sample_hash_length (w : nat) (s : sample) :
  fixed_width w s ->
  String.length ((doc_hash s ++ prompt_hash s) ++ target_hash s) = (3 * w)%nat.
Proof. intros (H1 & H2 & H3). rewrite !length_append. lia. Qed.

Lemma sample_hash_inj (w : nat) (s s' : sample) :
  fixed_width w s -> fixed_width w s' ->
  (doc_hash s ++ prompt_hash s) ++ target_hash s
  = (doc_hash s' ++ prompt_hash s') ++ target_hash s' ->
  s = s'.
Proof.
  intros (H1 & H2 & H3) (H1' & H2' & H3') H.
  apply append_inv_length in H; [|rewrite !length_append; lia].
  destruct H as [H Ht]. apply append_inv_length in H; [|lia].
  destruct H as [Hd Hp]. destruct s, s'. cbn in *. now subst.
Qed.

(** Samples with hashes of one width are read off their concatenation. *)
Lemma concat_sample_hashes_inj (w : nat) (l l' : list sample) :
  (0 < w)%nat -> Forall (fixed_width w) l -> Forall (fixed_width w) l' ->
  String.concat "" (sample_hashes l) = String.concat "" (sample_hashes l') ->
  l = l'.
Proof.
  intros Hw Hl. revert l'. induction Hl as [|s l Hs Hl IH]; intros l' Hl' H.
  - destruct Hl' as [|s' l' Hs' _]; [reflexivity|].
    rewrite RunHashProofs.concat_sample_hashes_cons in H.
    apply (f_equal String.length) in H.
    rewrite length_append, (sample_hash_length w s' Hs') in H.
    cbn [sample_hashes List.map String.concat String.length] in H. lia.
  - destruct Hl' as [|s' l' Hs' Hl'].
    + rewrite RunHashProofs.concat_sample_hashes_cons in H.
      apply (f_equal String.length) in H.
      rewrite length_append, (sample_hash_length w s Hs) in H.
      cbn [sample_hashes List.map String.concat String.length] in H. lia.
    + rewrite !RunHashProofs.concat_sample_hashes_cons in H.
      apply append_inv_length in H;
        [|now rewrite (sample_hash_length w s), (sample_hash_length w s')].
      destruct H as [Hh Ht].
      rewrite (sample_hash_inj w s s' Hs Hs' Hh). f_equal. now apply IH.
Qed.

(** X10: [task_hashes] has one entry per task of [samples], the hash of
    that task's samples, and is empty without samples; and when the hashes
    of all samples have one positive width and [hash_string] has no
    collisions, two tasks get the same hash only if their samples carry the
    same hashes in the same order. *)
Theorem task_hashes_per_task (hash_string : string -> string) :
  (forall samples task,
      task_hashes hash_string (Some samples) !! task
      = task_hash hash_string <$> samples !! task)
  /\ task_hashes hash_string None = ∅
  /\ (forall w l l',
        (forall x y, hash_string x = hash_string y -> x = y) ->
        (0 < w)%nat ->
        Forall (fixed_width w) l -> Forall (fixed_width w) l' ->
        task_hash hash_string l = task_hash hash_string l' -> l = l').
Proof.
  split; [|split; [reflexivity|]].
  - intros samples task. unfold task_hashes.
    destruct (decide (samples = ∅)) as [->|_].
    + now rewrite !lookup_empty.
    + apply lookup_fmap.
  - intros w l l' Hinj Hw Hl Hl' H. unfold task_hash in H.
    apply Hinj in H. now apply (concat_sample_hashes_inj w).
Qed.

(** The theorem on the two orders of the running example, hashed by the
    identity: their hashes differ. *)
Lemma task_hashes_per_task_witness :
  Forall (fixed_width 1) abc_def
  /\ Forall (fixed_width 1) def_abc
  /\ (task_hash id abc_def = task_hash id def_abc -> False).
Proof.
  assert (H1 : Forall (fixed_width 1) abc_def) by (repeat constructor).
  assert (H2 : Forall (fixed_width 1) def_abc) by (repeat constructor).
  split; [exact H1|]. split; [exact H2|]. intros H.
  assert (E : abc_def = def_abc).
  { apply (proj2 (proj2 (task_hashes_per_task id)) 1%nat abc_def def_abc).
    - intros x y Hxy. exact Hxy.
    - lia.
    - exact H1.
    - exact H2.
    - exact H. }
  discriminate E.
Defined.

End TaskHashProofs.

(** ** Whole listings *)

Module ListingProofs.

Import Py Card PyProofs StringProofs LatestProofs CatalogProofs BuildProofs
  SplitProofs FileNameProofs.

Lemma In_values (latest : gmap string string) (v : string) :
  In v (values latest) <-> exists t, latest !! t = Some v.
Proof.
  unfold values. rewrite in_map_iff. split.
  - intros ([t v'] & E & H). simpl in E. subst v'.
    exists t. apply elem_of_map_to_list. now apply list_elem_of_In.
  - intros [t H]. exists (t, v). split; [reflexivity|].
    apply list_elem_of_In. now apply elem_of_map_to_list.
Qed.

Lemma latest_lookup_greatest (ss : list string) (t v : string) :
  latest_task_results_datetime ss !! t = Some v ->
  greatest v (datetime_min_isoformat :: dates_of t ss).
Proof.
  intros Hv.
  assert (E : v = latest_of (latest_task_results_datetime ss) t).
  { unfold latest_of. now rewrite Hv. }
  rewrite E. unfold latest_task_results_datetime.
  rewrite latest_of_fold, latest_of_empty. apply fold_max_greatest.
Qed.

Lemma dates_of_In (t : string) (ss : list string) (d : string) :
  In d (dates_of t ss)
  <-> exists f, In f ss /\ task_of f = t /\ date_of f = d.
Proof.
  unfold dates_of. rewrite in_map_iff. split.
  - intros (f & E & H). apply List.filter_In in H. destruct H as [H1 H2].
    apply String.eqb_eq in H2. eauto.
  - intros (f & H1 & H2 & H3). exists f. split; [exact H3|].
    apply List.filter_In. split; [exact H1|]. now apply String.eqb_eq.
Qed.

Lemma latest_lookup_task (ss : list string) (f : string) :
  In f ss -> exists v, latest_task_results_datetime ss !! task_of f = Some v.
Proof.
  intros Hf.
  assert (H : is_Some (latest_task_results_datetime ss !! task_of f)).
  { apply latest_lookup_fold. right. now exists f. }
  exact H.
Qed.

Lemma max_of_greatest (l : list string) (m : string) :
  max_of l = Ok m -> greatest m l.
Proof.
  destruct l as [|v vs]; [discriminate|]. simpl. intros H. injection H as <-.
  apply fold_max_greatest.
Qed.

Lemma filter_Permutation (p : string -> bool) (l l' : list string) :
  Permutation l l' -> Permutation (List.filter p l) (List.filter p l').
Proof.
  induction 1 as [|x l l' _ IH|x y l|l l1 l2 _ IH1 _ IH2]; simpl.
  - constructor.
  - destruct (p x); [now constructor|exact IH].
  - destruct (p x), (p y); try reflexivity. constructor.
  - now transitivity (List.filter p l1).
Qed.

(** The greatest of all latest datetimes is a timestamp of the listing, or
    the floor, and bounds them all. *)
Lemma max_latest_greatest (ss : list string) (m : string) :
  max_of (values (latest_task_results_datetime ss)) = Ok m ->
  greatest m (datetime_min_isoformat :: List.map date_of ss).
Proof.
  intros Hm. apply max_of_greatest in Hm. destruct Hm as [Hin Hub].
  apply In_values in Hin. destruct Hin as [t Ht].
  destruct (latest_lookup_greatest ss t m Ht) as [Hin' Hub']. split.
  - destruct Hin' as [<-|Hin']; [now left|]. right.
    apply dates_of_In in Hin'. destruct Hin' as (f & Hf & _ & <-).
    now apply in_map.
  - intros d [<-|Hd]; [apply Hub'; now left|].
    apply in_map_iff in Hd. destruct Hd as (f & <- & Hf).
    destruct (latest_lookup_task ss f Hf) as [v Hv].
    apply (leb_trans _ v).
    + destruct (latest_lookup_greatest ss _ v Hv) as [_ H]. apply H. right.
      apply dates_of_In. now exists f.
    + apply Hub. apply In_values. now exists (task_of f).
Qed.

(** X11: the greatest of the latest datetimes, which marks the latest
    results file, is the timestamp of a sample file, or the floor
    [datetime.min.isoformat()], and no sample file of the listing has a
    greater one; it does not depend on the order of the listing; a results
    file whose sanitized timestamp equals the sanitized greatest datetime
    stands in split ["latest"] of config ["results"]; and a path in that
    split comes from such a results file, from one whose timestamp reads
    ["latest"], or from a sample file of a task called like the config. *)
Theorem max_latest_marks_latest_results (files : list string) (m : string) :
  max_of (values (latest_task_results_datetime (sample_files files))) = Ok m ->
  greatest m (datetime_min_isoformat :: List.map date_of (sample_files files))
  /\ (forall files',
        Permutation files files' ->
        max_of (values (latest_task_results_datetime (sample_files files')))
        = Ok m)
  /\ (exists cm,
        build_card_metadata files = Ok cm
        /\ (forall f,
              In f (results_files files) ->
              split_name f = sanitize_date m ->
              listed cm "results" "latest" (results_path f))
        /\ (forall p,
              listed cm "results" "latest" p ->
              (exists f,
                  In f (results_files files) /\ p = results_path f
                  /\ (split_name f = sanitize_date m \/ split_name f = "latest"))
              \/ (exists f,
                     In f (sample_files files) /\ in_config f "results"
                     /\ p = sample_path f))).
Proof.
  intros Hm. split; [now apply max_latest_greatest|]. split.
  - intros files' Hp.
    rewrite <- (latest_permutation (sample_files files) (sample_files files'));
      [exact Hm|].
    now apply filter_Permutation.
  - destruct (build_card_metadata_cases files) as [[E _]|(_ & m' & Hm' & H)].
    + rewrite E in Hm. unfold latest_task_results_datetime, values in Hm.
      simpl in Hm. rewrite map_to_list_empty in Hm. discriminate Hm.
    + rewrite Hm in Hm'. injection Hm' as <-.
      eexists. split; [exact H|]. split.
      * intros f Hf Hs. apply listed_fill. left. split; [reflexivity|].
        exists f. split; [exact Hf|]. split; [reflexivity|]. right. now split.
      * intros p Hl. apply listed_fill in Hl.
        destruct Hl as [(_ & f & Hf & -> & Hs)|(f & Hf & Hc & -> & _)].
        -- left. exists f. split; [exact Hf|]. split; [reflexivity|].
           destruct Hs as [Hs|[_ Hs]]; [now right|now left].
        -- right. now exists f.
Qed.

(** The theorem on the two full runs. *)
Lemma max_latest_marks_latest_results_witness :
  greatest "2024-02-01T00-00-00"
    (datetime_min_isoformat
       :: List.map date_of (sample_files listing_two_full_runs))
  /\ max_of (values (latest_task_results_datetime
                       (sample_files (rev listing_two_full_runs))))
     = Ok "2024-02-01T00-00-00".
Proof.
  assert (Hm : max_of (values (latest_task_results_datetime
                                 (sample_files listing_two_full_runs)))
               = Ok "2024-02-01T00-00-00") by (vm_compute; reflexivity).
  destruct (max_latest_marks_latest_results listing_two_full_runs _ Hm)
    as (H1 & H2 & _).
  split; [exact H1|]. apply H2, Permutation_rev.
Defined.



(** X13: a task that has a sample file stamped no lower than the floor
    [datetime.min.isoformat()] has one of its sample files, carrying the
    greatest timestamp of the task, in split ["latest"] of its own config
    and of every family config it belongs to. *)
Theorem latest_split_is_filled (files : list string) (cm : MetadataConfigs)
    (f : string) :
  build_card_metadata files = Ok cm ->
  In f (sample_files files) ->
  String.leb datetime_min_isoformat (date_of f) = true ->
  exists g,
    In g (sample_files files) /\ task_of g = task_of f
    /\ greatest (date_of g) (dates_of (task_of f) (sample_files files))
    /\ forall c, in_config f c -> listed cm c "latest" (sample_path g).
Proof.
  intros Hb Hf Hle.
  destruct (build_card_metadata_cases files) as [[_ H]|(_ & m & _ & H)];
    rewrite H in Hb; [discriminate|]. injection Hb as <-.
  destruct (latest_lookup_task _ f Hf) as [v Hv].
  assert (Hg : greatest v (dates_of (task_of f) (sample_files files))).
  { apply (greatest_above_floor v datetime_min_isoformat).
    - now apply latest_lookup_greatest.
    - exists (date_of f). split; [|exact Hle]. apply dates_of_In. now exists f. }
  destruct Hg as [Hin Hub]. pose proof Hin as Hin'.
  apply dates_of_In in Hin'. destruct Hin' as (g & Hg & Ht & Hd).
  exists g. split; [exact Hg|]. split; [exact Ht|]. split.
  - rewrite Hd. now split.
  - intros c Hc. apply listed_fill. right. exists g. split; [exact Hg|]. split.
    + unfold in_config, config_name in *. now rewrite Ht.
    + split; [reflexivity|]. right. split; [reflexivity|].
      unfold is_latest, split_name, latest_of. rewrite Ht, Hv, Hd. simpl.
      apply String.eqb_refl.
Qed.

(** The theorem on the two runs of [gsm8k]. *)
Lemma latest_split_is_filled_witness :
  exists cm g,
    build_card_metadata listing_two_runs = Ok cm
    /\ In g (sample_files listing_two_runs)
    /\ listed cm "gsm8k" "latest" (sample_path g).
Proof.
  destruct (build_card_metadata_ok listing_two_runs) as [cm Hb];
    [vm_compute; discriminate|].
  assert (Hf : In "EleutherAI__pythia-70m/samples_gsm8k_2024-01-01T00-00-00.json"
                 (sample_files listing_two_runs)) by (vm_compute; auto).
  destruct (latest_split_is_filled listing_two_runs cm _ Hb Hf eq_refl)
    as (g & Hg & _ & _ & Hl).
  exists cm, g. split; [exact Hb|]. split; [exact Hg|].
  apply Hl. left. vm_compute. reflexivity.
Defined.

(** *** The latest results file *)

Lemma filter_first {A} (p : A -> bool) (l : list A) :
  match List.filter p l with
  | [] => forall x, In x l -> p x = false
  | r :: _ =>
      exists l1 l2,
        l = (l1 ++ r :: l2)%list /\ p r = true
        /\ forall x, In x l1 -> p x = false
  end.
Proof.
  induction l as [|a l IH]; simpl.
  - intros x [].
  - destruct (p a) eqn:Ha.
    + exists [], l. split; [reflexivity|]. split; [exact Ha|]. intros x [].
    + destruct (List.filter p l) as [|r rest].
      * intros x [<-|Hx]; [exact Ha|now apply IH].
      * destruct IH as (l1 & l2 & -> & Hr & Hl1). exists (a :: l1), l2.
        split; [reflexivity|]. split; [exact Hr|].
        intros x [<-|Hx]; [exact Ha|now apply Hl1].
Qed.

Lemma date_id_char_not_colon (c : ascii) :
  Tracker.date_id_char c = true -> Ascii.eqb ":" c = false.
Proof. ascii_cases c. Qed.

Lemma replace_colon_date_id (d : string) :
  all_chars Tracker.date_id_char d = true -> replace d ":" "-" = d.
Proof.
  rewrite replace_char. induction d as [|c d IH]; [reflexivity|].
  rewrite all_chars_cons, andb_true_iff. intros [Hc Hd].
  cbn [map_chars]. now rewrite (date_id_char_not_colon c Hc), IH.
Qed.

Lemma results_file_kept (d date_id : string) :
  contains "/results_"
    (Tracker.path_in_repo d (Tracker.file_results_aggregated date_id))
  && contains ".json"
       (Tracker.path_in_repo d (Tracker.file_results_aggregated date_id))
  = true.
Proof.
  unfold Tracker.path_in_repo, Tracker.file_results_aggregated.
  apply andb_true_iff. split.
  - apply contains_app_r. apply (contains_app_l "/results_" (date_id ++ ".json")).
  - rewrite <- !append_assoc. apply contains_json_suffix.
Qed.

Lemma results_file_has_date_id (d date_id : string) :
  contains date_id
    (Tracker.path_in_repo d (Tracker.file_results_aggregated date_id)) = true.
Proof.
  unfold Tracker.path_in_repo, Tracker.file_results_aggregated.
  apply contains_app_r, (contains_app_r date_id "/"),
    (contains_app_r date_id "results_"), contains_app_l.
Qed.

Section WithExternals.

Variable hf_hub_url : string -> string -> string.
Variable load_results : string -> result (list (string * json)).
Variable json_dumps : json -> string.

Abbreviation recreate := (recreate_metadata_card hf_hub_url load_results json_dumps).

(** X14: the outcomes of [recreate_metadata_card] on a repository. With no
    sample file it raises [ValueError]. Otherwise, when no results file has
    the greatest latest datetime (colons turned into dashes) in its path,
    it raises [IndexError]. Otherwise the results are loaded from the first
    such file of the listing: what the load raises is raised, and when it
    succeeds a card holding the catalog of the listing is pushed to the
    repository. Unless the card is pushed the hub is left as it was. *)
Theorem recreate_metadata_card_outcome (w : World) (repo : Repo) :
  hub w !! repo_id_of (self w) = Some repo ->
  (sample_files (repo_files repo) = [] /\ recreate w = (w, Raise ValueError))
  \/ (exists m,
         max_of (values (latest_task_results_datetime
                           (sample_files (repo_files repo)))) = Ok m
         /\ (forall f, In f (results_files (repo_files repo)) ->
                       contains (replace m ":" "-") f = false)
         /\ recreate w = (w, Raise IndexError))
  \/ (exists m l1 r l2,
         max_of (values (latest_task_results_datetime
                           (sample_files (repo_files repo)))) = Ok m
         /\ results_files (repo_files repo) = (l1 ++ r :: l2)%list
         /\ contains (replace m ":" "-") r = true
         /\ (forall f, In f l1 -> contains (replace m ":" "-") f = false)
         /\ match load_results (hf_hub_url (repo_id_of (self w)) r) with
            | Raise e => recreate w = (w, Raise e)
            | Ok _ =>
                exists card,
                  recreate w
                  = ({| self := self w;
                        hub := <[repo_id_of (self w) := push_to_hub card repo]>
                                 (hub w) |}, Ok tt)
                  /\ build_card_metadata (repo_files repo) = Ok (configs card)
            end).
Proof.
  intros Hrepo. unfold recreate_metadata_card. rewrite Hrepo.
  unfold assemble_card, build_card_metadata.
  pose proof (max_of_values (sample_files (repo_files repo))) as Hmax.
  destruct (max_of _) as [m|e]; cbn [bind].
  - right.
    pose proof (filter_first (fun f => contains (replace m ":" "-") f)
                  (results_files (repo_files repo))) as Hfirst.
    destruct (List.filter _ (results_files (repo_files repo))) as [|r rest];
      cbn [first_item bind].
    + left. exists m. split; [reflexivity|]. split; [exact Hfirst|reflexivity].
    + right. destruct Hfirst as (l1 & l2 & Hl & Hr & Hl1).
      exists m, l1, r, l2. split; [reflexivity|]. split; [exact Hl|].
      split; [exact Hr|]. split; [exact Hl1|].
      destruct (load_results _) as [d|e]; cbn [bind]; [|reflexivity].
      eexists. split; reflexivity.
  - left. destruct Hmax as [-> Hnil]. now split.
Qed.

End WithExternals.

(** The theorem on a hub whose repository holds one run: the card is
    pushed. *)
Lemma recreate_metadata_card_outcome_witness :
  snd (recreate_metadata_card example_hf_hub_url example_load_results
         example_json_dumps (example_world listing_one_run))
  = Ok tt.
Proof.
  destruct (recreate_metadata_card_outcome example_hf_hub_url
              example_load_results example_json_dumps
              (example_world listing_one_run)
              {| repo_files := listing_one_run; readme := None |} eq_refl)
    as [[E _]|[(m & Hm & Hno & _)|(m & l1 & r & l2 & _ & _ & _ & _ & H)]].
  - vm_compute in E. discriminate E.
  - exfalso. vm_compute in Hm. injection Hm as <-.
    specialize (Hno "EleutherAI__pythia-70m/results_2024-01-01T00-00-00.json"
                  ltac:(vm_compute; auto)).
    vm_compute in Hno. discriminate Hno.
  - assert (E : forall url, example_load_results url = Ok example_results)
      by reflexivity.
    rewrite E in H. destruct H as (card & -> & _). reflexivity.
Defined.

(** X15: when every sample file of the listing carries a date id no lower
    than the floor [datetime.min.isoformat()], and the results file that
    [save_results_aggregated] writes for the greatest of them is in the
    listing, picking the latest results file does not fail, and the file
    picked has that date id in its path. *)
Theorem saved_results_file_is_found (files : list string) (m d : string) :
  max_of (values (latest_task_results_datetime (sample_files files))) = Ok m ->
  (forall f, In f (sample_files files) ->
             all_chars Tracker.date_id_char (date_of f) = true
             /\ String.leb datetime_min_isoformat (date_of f) = true) ->
  In (Tracker.path_in_repo d (Tracker.file_results_aggregated m)) files ->
  In m (List.map date_of (sample_files files))
  /\ exists r,
       last_results_file m (results_files files) = Ok r
       /\ In r (results_files files)
       /\ contains m r = true.
Proof.
  intros Hm Hall Hin.
  assert (Hmem : In m (List.map date_of (sample_files files))).
  { pose proof (max_of_values (sample_files files)) as Hne. rewrite Hm in Hne.
    destruct (max_latest_greatest _ m Hm) as [[E|Hmem] Hub]; [|exact Hmem].
    destruct (sample_files files) as [|f ss]; [congruence|].
    assert (Ef : date_of f = m).
    { apply String.leb_antisym.
      - apply Hub. right. now left.
      - rewrite <- E. apply Hall. now left. }
    rewrite <- Ef. now left. }
  split; [exact Hmem|].
  assert (Hd : all_chars Tracker.date_id_char m = true).
  { apply in_map_iff in Hmem. destruct Hmem as (f & <- & Hf). now apply Hall. }
  unfold last_results_file. rewrite (replace_colon_date_id m Hd).
  set (f0 := Tracker.path_in_repo d (Tracker.file_results_aggregated m)) in *.
  assert (H0 : In f0 (List.filter (fun f => contains m f) (results_files files))).
  { apply List.filter_In. split; [|apply results_file_has_date_id].
    apply results_files_In. split; [exact Hin|apply results_file_kept]. }
  destruct (List.filter _ (results_files files)) as [|r rest] eqn:E;
    [destruct H0|].
  exists r. split; [reflexivity|].
  assert (Hr : In r (List.filter (fun f => contains m f) (results_files files)))
    by (rewrite E; now left).
  apply List.filter_In in Hr. exact Hr.
Qed.

(** The theorem on one run. *)
Lemma saved_results_file_is_found_witness :
  exists r,
    last_results_file "2024-01-01T00-00-00" (results_files listing_one_run) = Ok r
    /\ In r (results_files listing_one_run)
    /\ contains "2024-01-01T00-00-00" r = true.
Proof.
  apply (saved_results_file_is_found listing_one_run "2024-01-01T00-00-00"
           "EleutherAI__pythia-70m").
  - vm_compute. reflexivity.
  - intros f Hf. vm_compute in Hf. destruct Hf as [<-|[]].
    split; vm_compute; reflexivity.
  - vm_compute. auto.
Defined.

(** *** Names without an underscore *)

Lemma slice_to_last (s : string) :
  slice s (-1 + 1) (-1) = String.substring 0 (String.length s - 1) s.
Proof.
  unfold slice, len. rewrite (clamp_in_range _ (-1 + 1)) by lia.
  unfold clamp. cbv zeta. change (-1 <? 0) with true. cbv iota.
  destruct (Z.ltb_spec (-1 + Z.of_nat (String.length s)) 0) as [H|H].
  - f_equal. lia.
  - destruct (Z.ltb_spec (Z.of_nat (String.length s))
                (-1 + Z.of_nat (String.length s))) as [H'|H']; [lia|].
    f_equal. lia.
Qed.

(** X16: a file name with no underscore is parsed all the same: both
    searches return -1, so the task name is the name without its last
    character and the timestamp is the whole name with every [.json]
    removed. *)
Theorem name_without_underscore_is_parsed (filename : string) :
  all_chars (is_not "_") filename = true ->
  get_file_task_name filename
  = String.substring 0 (String.length filename - 1) filename
  /\ get_file_datetime filename = replace filename ".json" "".
Proof.
  intros H. unfold get_file_task_name, get_file_datetime, find, rfind.
  rewrite (index_char_none "_" filename H), (rindex_char_none "_" 0 filename H).
  split; [apply slice_to_last|].
  change (-1 + 1) with (Z.of_nat 0). rewrite slice_from_nat by lia.
  now rewrite Nat.sub_0_r, substring_all.
Qed.

(** The theorem on a name that a directory called like a sample file lets
    through the filter. *)
Lemma name_without_underscore_is_parsed_witness :
  sample_files ["m/samples_old/gsm8k.json"] = ["m/samples_old/gsm8k.json"]
  /\ task_of "m/samples_old/gsm8k.json" = "gsm8k.jso"
  /\ date_of "m/samples_old/gsm8k.json" = "gsm8k".
Proof.
  split; [vm_compute; reflexivity|].
  destruct (name_without_underscore_is_parsed "gsm8k.json" eq_refl) as [H1 H2].
  split; [exact H1|exact H2].
Defined.

End ListingProofs.
